(** * Place-card synchronisation between the relational table and Notion

    A shallow embedding of the synchronisation core of the repository:
    - [core/model.py]        : the [ModelPlaceCard] row and [to_dict];
    - [core/db_functions.py] : [search_by_key], the first import
      [update_database_from_notion] and [find_company_by_name];
    - [models/notion.py]     : [format_property], [update_or_insert_row], the
      push pass [_scheduled_task_to_Notion], the coordinate resolver and the
      pull pass [_scheduled_task_from_Notion];
    - [bot/telegram_bot.py]  : [validate_name] and the look-up branch of
      [handle_company_name], the database block of [handle_save], the phone
      number branch of [handle_new_value], and the pages of [send_venue_list]
      with the buttons of [prev_next_button].

    Python values are an inductive type, exceptions are an explicit error
    monad, the table is a list of rows (a row's position stands for its
    primary key [id_key]) and the external collaborators (the Notion client,
    [requests.head], [urlparse], [float]) are parameters. *)

From Stdlib Require Import List String Ascii ZArith Bool Arith Lia.
From Stdlib Require Import Numbers.DecimalString.
From Stdlib Require Import QArith.
Import ListNotations.
Close Scope Q_scope.
Open Scope list_scope.
Open Scope string_scope.

(* ------------------------------------------------------------------ *)
(** ** Python values, exceptions and string primitives *)

Set Warnings "-register-all".

Module Py.

(** Exceptions the modelled code can meet. *)
Inductive exn : Type :=
| KeyError | TypeError | ValueError | IndexError | AttributeError
| RequestError.

(** A computation that returns or raises. *)
Inductive result (A : Type) : Type :=
| Ret (a : A)
| Raise (e : exn).
Arguments Ret {A} a.
Arguments Raise {A} e.

Definition bind {A B : Type} (m : result A) (k : A -> result B) : result B :=
  match m with
  | Ret a => k a
  | Raise e => Raise e
  end.

Definition raises {A : Type} (m : result A) : bool :=
  match m with Ret _ => false | Raise _ => true end.

(** First binding of a key in an association list.  A Python [dict] is
    modelled by the list of its items in insertion order; its keys are
    pairwise distinct, so the first binding is the only one. *)
Fixpoint lookup {V : Type} (k : string) (d : list (string * V)) : option V :=
  match d with
  | [] => None
  | (k', v) :: rest => if String.eqb k' k then Some v else lookup k rest
  end.

(** The JSON-shaped values exchanged with the document database and held
    by the attributes of a row object.  A [str] is the sequence of its
    characters; numbers are the integers. *)
Inductive pyval : Type :=
| PNone
| PBool (b : bool)
| PInt (n : Z)
| PStr (s : string)
| PList (xs : list pyval)
| PDict (items : list (string * pyval)).

Definition dict : Type := list (string * pyval).

(** Truth value of an object ([if x:], [not x]). *)
Definition truthy (v : pyval) : bool :=
  match v with
  | PNone => false
  | PBool b => b
  | PInt n => negb (Z.eqb n 0)
  | PStr s => negb (String.eqb s EmptyString)
  | PList xs => match xs with [] => false | _ => true end
  | PDict items => match items with [] => false | _ => true end
  end.

Definition isinstance_dict (v : pyval) : bool :=
  match v with PDict _ => true | _ => false end.

(** Python's [==]: [True == 1], lists compare element by element and
    dicts compare as maps, whatever the order of their items. *)
Fixpoint py_eqb (a b : pyval) {struct a} : bool :=
  match a, b with
  | PNone, PNone => true
  | PBool x, PBool y => Bool.eqb x y
  | PBool x, PInt y => Z.eqb (if x then 1 else 0) y
  | PInt x, PBool y => Z.eqb x (if y then 1 else 0)
  | PInt x, PInt y => Z.eqb x y
  | PStr x, PStr y => String.eqb x y
  | PList xs, PList ys =>
      (fix go (l r : list pyval) {struct l} : bool :=
         match l, r with
         | [], [] => true
         | x :: l', y :: r' => py_eqb x y && go l' r'
         | _, _ => false
         end) xs ys
  | PDict da, PDict db =>
      Nat.eqb (List.length da) (List.length db) &&
      (fix go (l : list (string * pyval)) {struct l} : bool :=
         match l with
         | [] => true
         | (k, v) :: l' =>
             match lookup k db with
             | Some v' => py_eqb v v'
             | None => false
             end && go l'
         end) da
  | _, _ => false
  end.

(** [sep.join(parts)]. *)
Fixpoint join (sep : string) (parts : list string) : string :=
  match parts with
  | [] => EmptyString
  | [p] => p
  | p :: rest => p ++ sep ++ join sep rest
  end.

(** [s.split(sep)] for a one-character separator: never the empty list. *)
Fixpoint split (sep : ascii) (s : string) : list string :=
  match s with
  | EmptyString => [EmptyString]
  | String c t =>
      if Ascii.eqb c sep then EmptyString :: split sep t
      else match split sep t with
           | h :: r => String c h :: r
           | [] => [String c EmptyString]
           end
  end.

(** [c in s] for a one-character [c]. *)
Fixpoint contains (c : ascii) (s : string) : bool :=
  match s with
  | EmptyString => false
  | String c' t => Ascii.eqb c' c || contains c t
  end.

(** [s.startswith(p)]. *)
Definition startswith (p s : string) : bool := String.prefix p s.

(** A slice bound brought into [0 .. len], negative bounds counting from
    the end. *)
Definition clamp_index (len i : Z) : Z :=
  Z.max 0 (Z.min len (if Z.ltb i 0 then i + len else i)).

(** [s[start:stop]]. *)
Definition slice (s : string) (start stop : Z) : string :=
  let n := Z.of_nat (String.length s) in
  let a := clamp_index n start in
  let b := clamp_index n stop in
  String.substring (Z.to_nat a) (Z.to_nat (b - a)) s.

(** [xs[i]] on a list. *)
Definition index {A : Type} (xs : list A) (i : nat) : result A :=
  match nth_error xs i with
  | Some x => Ret x
  | None => Raise IndexError
  end.

(** [v[k]] for a string key [k]: only a dict can be subscripted so. *)
Definition getitem (v : pyval) (k : string) : result pyval :=
  match v with
  | PDict items =>
      match lookup k items with
      | Some x => Ret x
      | None => Raise KeyError
      end
  | _ => Raise TypeError
  end.

(** [v.items()]. *)
Definition items_of (v : pyval) : result dict :=
  match v with
  | PDict items => Ret items
  | _ => Raise AttributeError
  end.

Definition quote : ascii := Ascii.ascii_of_nat 39.
Definition dquote : ascii := Ascii.ascii_of_nat 34.
Definition backslash : ascii := Ascii.ascii_of_nat 92.

Definition hex_digit (n : nat) : ascii :=
  if Nat.ltb n 10 then Ascii.ascii_of_nat (48 + n)
  else Ascii.ascii_of_nat (87 + n).

(** One character of a string inside [repr], [q] being the quote chosen. *)
Definition repr_char (q c : ascii) : string :=
  let n := Ascii.nat_of_ascii c in
  if Ascii.eqb c backslash then String backslash (String backslash EmptyString)
  else if Ascii.eqb c q then String backslash (String q EmptyString)
  else if Nat.eqb n 10 then String backslash "n"
  else if Nat.eqb n 13 then String backslash "r"
  else if Nat.eqb n 9 then String backslash "t"
  else if Nat.ltb n 32 || Nat.eqb n 127 then
    String backslash
      (String "x" (String (hex_digit (n / 16)) (String (hex_digit (n mod 16)) EmptyString)))
  else String c EmptyString.

Fixpoint repr_chars (q : ascii) (s : string) : string :=
  match s with
  | EmptyString => EmptyString
  | String c t => repr_char q c ++ repr_chars q t
  end.

(** [repr] of a [str]: single quotes unless the text holds a single quote
    and no double quote. *)
Definition repr_str (s : string) : string :=
  let q := if contains quote s && negb (contains dquote s) then dquote else quote in
  String q (repr_chars q s ++ String q EmptyString).

Definition str_int (n : Z) : string := NilZero.string_of_int (Z.to_int n).

(** [repr(v)]. *)
Fixpoint repr (v : pyval) : string :=
  match v with
  | PNone => "None"
  | PBool true => "True"
  | PBool false => "False"
  | PInt n => str_int n
  | PStr s => repr_str s
  | PList xs =>
      "[" ++ join ", " ((fix go (l : list pyval) : list string :=
                           match l with
                           | [] => []
                           | x :: l' => repr x :: go l'
                           end) xs) ++ "]"
  | PDict items =>
      "{" ++ join ", " ((fix go (l : list (string * pyval)) : list string :=
                           match l with
                           | [] => []
                           | (k, x) :: l' => (repr_str k ++ ": " ++ repr x) :: go l'
                           end) items) ++ "}"
  end.

(** [str(v)]. *)
Definition str (v : pyval) : string :=
  match v with
  | PStr s => s
  | _ => repr v
  end.

(** Replace the element at a position of a list; positions past the end
    leave the list as it is. *)
Fixpoint update_at {A : Type} (i : nat) (x : A) (l : list A) : list A :=
  match l, i with
  | [], _ => []
  | _ :: t, O => x :: t
  | h :: t, S j => h :: update_at j x t
  end.

End Py.

Export Py.

Notation "x <- m ;; k" := (Py.bind m (fun x => k))
  (at level 61, m at next level, right associativity).

(* ------------------------------------------------------------------ *)
(** ** core/model.py *)

Module Model.

(** A row of the table [google_sheet_data].  The String columns hold what
    the Python attribute holds: [PNone] (NULL, or an attribute never set), a
    [PStr], or whatever else the pull pass assigned.  The two Boolean columns
    have [default=False] and the program never stores NULL in them.  The
    autoincremented [id_key] is the row's position in the table. *)
Record ModelPlaceCard : Type := mkCard {
  Name : pyval;
  ID : pyval;
  id_page : pyval;
  type : pyval;
  photo : pyval;
  location : pyval;
  google_map : pyval;
  phone_number : pyval;
  whatsapp : pyval;
  hours_of_operation : pyval;
  coordinates : pyval;
  data_manager : pyval;
  manager_phone_number : pyval;
  is_new : bool;
  is_updated : bool
}.

(** [ModelPlaceCard()]: no attribute set yet. *)
Definition new_card : ModelPlaceCard :=
  mkCard PNone PNone PNone PNone PNone PNone PNone PNone PNone PNone PNone
         PNone PNone false false.

(** Attribute assignments. *)
Definition set_Name (v : pyval) (c : ModelPlaceCard) : ModelPlaceCard :=
  mkCard v (ID c) (id_page c) (type c) (photo c) (location c) (google_map c)
         (phone_number c) (whatsapp c) (hours_of_operation c) (coordinates c)
         (data_manager c) (manager_phone_number c) (is_new c) (is_updated c).

Definition set_ID (v : pyval) (c : ModelPlaceCard) : ModelPlaceCard :=
  mkCard (Name c) v (id_page c) (type c) (photo c) (location c) (google_map c)
         (phone_number c) (whatsapp c) (hours_of_operation c) (coordinates c)
         (data_manager c) (manager_phone_number c) (is_new c) (is_updated c).

Definition set_id_page (v : pyval) (c : ModelPlaceCard) : ModelPlaceCard :=
  mkCard (Name c) (ID c) v (type c) (photo c) (location c) (google_map c)
         (phone_number c) (whatsapp c) (hours_of_operation c) (coordinates c)
         (data_manager c) (manager_phone_number c) (is_new c) (is_updated c).

Definition set_type (v : pyval) (c : ModelPlaceCard) : ModelPlaceCard :=
  mkCard (Name c) (ID c) (id_page c) v (photo c) (location c) (google_map c)
         (phone_number c) (whatsapp c) (hours_of_operation c) (coordinates c)
         (data_manager c) (manager_phone_number c) (is_new c) (is_updated c).

Definition set_photo (v : pyval) (c : ModelPlaceCard) : ModelPlaceCard :=
  mkCard (Name c) (ID c) (id_page c) (type c) v (location c) (google_map c)
         (phone_number c) (whatsapp c) (hours_of_operation c) (coordinates c)
         (data_manager c) (manager_phone_number c) (is_new c) (is_updated c).

Definition set_location (v : pyval) (c : ModelPlaceCard) : ModelPlaceCard :=
  mkCard (Name c) (ID c) (id_page c) (type c) (photo c) v (google_map c)
         (phone_number c) (whatsapp c) (hours_of_operation c) (coordinates c)
         (data_manager c) (manager_phone_number c) (is_new c) (is_updated c).

Definition set_google_map (v : pyval) (c : ModelPlaceCard) : ModelPlaceCard :=
  mkCard (Name c) (ID c) (id_page c) (type c) (photo c) (location c) v
         (phone_number c) (whatsapp c) (hours_of_operation c) (coordinates c)
         (data_manager c) (manager_phone_number c) (is_new c) (is_updated c).

Definition set_phone_number (v : pyval) (c : ModelPlaceCard) : ModelPlaceCard :=
  mkCard (Name c) (ID c) (id_page c) (type c) (photo c) (location c) (google_map c)
         v (whatsapp c) (hours_of_operation c) (coordinates c)
         (data_manager c) (manager_phone_number c) (is_new c) (is_updated c).

Definition set_whatsapp (v : pyval) (c : ModelPlaceCard) : ModelPlaceCard :=
  mkCard (Name c) (ID c) (id_page c) (type c) (photo c) (location c) (google_map c)
         (phone_number c) v (hours_of_operation c) (coordinates c)
         (data_manager c) (manager_phone_number c) (is_new c) (is_updated c).

Definition set_hours_of_operation (v : pyval) (c : ModelPlaceCard) : ModelPlaceCard :=
  mkCard (Name c) (ID c) (id_page c) (type c) (photo c) (location c) (google_map c)
         (phone_number c) (whatsapp c) v (coordinates c)
         (data_manager c) (manager_phone_number c) (is_new c) (is_updated c).

Definition set_coordinates (v : pyval) (c : ModelPlaceCard) : ModelPlaceCard :=
  mkCard (Name c) (ID c) (id_page c) (type c) (photo c) (location c) (google_map c)
         (phone_number c) (whatsapp c) (hours_of_operation c) v
         (data_manager c) (manager_phone_number c) (is_new c) (is_updated c).

Definition set_manager_phone_number (v : pyval) (c : ModelPlaceCard) : ModelPlaceCard :=
  mkCard (Name c) (ID c) (id_page c) (type c) (photo c) (location c) (google_map c)
         (phone_number c) (whatsapp c) (hours_of_operation c) (coordinates c)
         (data_manager c) v (is_new c) (is_updated c).

Definition set_is_new (b : bool) (c : ModelPlaceCard) : ModelPlaceCard :=
  mkCard (Name c) (ID c) (id_page c) (type c) (photo c) (location c) (google_map c)
         (phone_number c) (whatsapp c) (hours_of_operation c) (coordinates c)
         (data_manager c) (manager_phone_number c) b (is_updated c).

Definition set_is_updated (b : bool) (c : ModelPlaceCard) : ModelPlaceCard :=
  mkCard (Name c) (ID c) (id_page c) (type c) (photo c) (location c) (google_map c)
         (phone_number c) (whatsapp c) (hours_of_operation c) (coordinates c)
         (data_manager c) (manager_phone_number c) (is_new c) b.

(** [Column(String, default=EmptyString)]: on INSERT an attribute that is
    [None] is left out of the statement and the column default is stored. *)
Definition column_default (v : pyval) : pyval :=
  match v with
  | PNone => PStr EmptyString
  | _ => v
  end.

(** The row as the INSERT stores it (and as the refreshed object shows it).
    An attribute is kept as the Python value assigned to it: how the
    database renders a value that is no text (a number assigned to [ID]
    reads back as its decimal text) is outside the model. *)
Definition inserted (c : ModelPlaceCard) : ModelPlaceCard :=
  mkCard (column_default (Name c)) (column_default (ID c))
         (column_default (id_page c)) (column_default (type c))
         (column_default (photo c)) (column_default (location c))
         (column_default (google_map c)) (column_default (phone_number c))
         (column_default (whatsapp c)) (column_default (hours_of_operation c))
         (column_default (coordinates c)) (column_default (data_manager c))
         (column_default (manager_phone_number c)) (is_new c) (is_updated c).

(** One [if self.f: result[k] = v] of [to_dict]. *)
Definition put_if (cond : pyval) (k : string) (v : pyval) (result : dict) : dict :=
  if truthy cond then (result ++ [(k, v)])%list else result.

(** [ModelPlaceCard.to_dict].  The keys are pairwise distinct, so each
    assignment appends an item.  The last test is on
    [manager_phone_number], as in the source. *)
Definition to_dict (self : ModelPlaceCard) : dict :=
  let result := [] in
  let result := put_if (Name self) "Name" (Name self) result in
  let result := put_if (type self) "Type" (type self) result in
  let result := put_if (photo self) "Photo Google Drive" (photo self) result in
  let result := put_if (google_map self) "Google Map" (google_map self) result in
  let result := put_if (phone_number self) "Phone Number" (phone_number self) result in
  let result := put_if (whatsapp self) "WhatsApp Number" (whatsapp self) result in
  let result := put_if (hours_of_operation self) "Hours of Operation"
                       (hours_of_operation self) result in
  let result := put_if (manager_phone_number self) "Owner / Manager"
                       (manager_phone_number self) result in
  let result := put_if (manager_phone_number self) "Location" (location self) result in
  result.

End Model.

Export Model.

(* ------------------------------------------------------------------ *)
(** ** core/db_functions.py *)

Module DbFunctions.

(** [recursive_search] of [search_by_key]: the values appended to
    [results], in the order of the appends.  A dict is walked item by item:
    the value of a matching key is appended, then a dict or list value is
    searched; a list is walked element by element; anything else is left. *)
Fixpoint recursive_search (d : pyval) (target_key : string) : list pyval :=
  match d with
  | PDict items =>
      (fix for_items (l : list (string * pyval)) : list pyval :=
         match l with
         | [] => []
         | (k, v) :: rest =>
             ((if String.eqb k target_key then [v] else []) ++
              (match v with
               | PDict _ | PList _ => recursive_search v target_key
               | _ => []
               end) ++ for_items rest)%list
         end) items
  | PList xs =>
      (fix for_list (l : list pyval) : list pyval :=
         match l with
         | [] => []
         | item :: rest => (recursive_search item target_key ++ for_list rest)%list
         end) xs
  | _ => []
  end.

(** [search_by_key]: [results[0] if results else None]. *)
Definition search_by_key (dictionary : pyval) (key : string) : pyval :=
  match recursive_search dictionary key with
  | v :: _ => v
  | [] => PNone
  end.

End DbFunctions.

Export DbFunctions.

(* ------------------------------------------------------------------ *)
(** ** models/notion.py *)

Module Notion.

(** [{"rich_text": [{"type": "text", "text": {"content": c}}]}]. *)
Definition rich_text (content : pyval) : pyval :=
  PDict [("rich_text",
          PList [PDict [("type", PStr "text");
                        ("text", PDict [("content", content)])]])].

(** [Notion.format_property]. *)
Definition format_property (column_name : string) (value : pyval) : result pyval :=
  if String.eqb column_name "Name" then
    Ret (PDict [("title",
                 PList [PDict [("type", PStr "text");
                               ("text", PDict [("content", value)])]])])
  else if String.eqb column_name "Photo Google Drive"
          || String.eqb column_name "Google Map" then
    Ret (PDict [("url", value)])
  else if String.eqb column_name "Type" then
    Ret (PDict [("select", PDict [("name", value)])])
  else if String.eqb column_name "Phone Number"
          || String.eqb column_name "WhatsApp Number"
          || String.eqb column_name "Hours of Operation"
          || String.eqb column_name "Phone Number"
          || String.eqb column_name "Owner / Manager" then
    Ret (rich_text (PStr (str value)))
  else
    match value with
    | PStr _ => Ret (rich_text value)
    | PList xs =>
        Ret (PDict [("multi_select",
                     PList (map (fun val => PDict [("name", val)]) xs))])
    | PBool _ => Ret (PDict [("checkbox", value)])
    | PInt _ => Ret (PDict [("number", value)])
    | PDict _ =>
        name <- getitem value "name" ;;
        Ret (PDict [("select", PDict [("name", name)])])
    | PNone => Ret (rich_text (PStr (str value)))
    end.

(** The [notion_client] calls the class relies on, over the state [W] of
    the remote database: the paginated query behind [read_all_rows], and
    [pages.update] / [pages.create], which answer with a response or raise
    and may change the remote state either way. *)
Record NotionClient (W : Type) : Type := mkClient {
  databases_query : W -> result (list dict);
  pages_update : pyval -> dict -> W -> W * result pyval;
  pages_create : dict -> W -> W * result pyval
}.
Arguments databases_query {W} _ _.
Arguments pages_update {W} _ _ _ _.
Arguments pages_create {W} _ _ _.

(** What the resolver takes from outside the repository: Python's [float]
    (parsing a text, [None] standing for [ValueError], and the [repr] that
    [str] of a tuple prints, never empty), the [path] of [urlparse], and the
    final URL of [requests.head(short_url, allow_redirects=True)]. *)
Record PyEnv : Type := mkEnv {
  pyfloat : Type;
  float_of_str : string -> option pyfloat;
  float_repr : pyfloat -> string;
  float_repr_nonempty : forall f, float_repr f <> EmptyString;
  urlparse_path : string -> result string;
  requests_head_url : string -> result string
}.

Section Engine.

Context {W : Type} (client : NotionClient W) (E : PyEnv).

(** [Notion.read_all_rows]: the error is logged and raised again. *)
Definition read_all_rows (w : W) : result (list dict) :=
  databases_query client w.

(** [next((row for row in rows if row["id"] == row_id), None)]. *)
Fixpoint existing_row (rows : list dict) (row_id : pyval) : result (option dict) :=
  match rows with
  | [] => Ret None
  | row :: rest =>
      id <- getitem (PDict row) "id" ;;
      if py_eqb id row_id then Ret (Some row) else existing_row rest row_id
  end.

(** The loop filling [properties]. *)
Fixpoint format_properties (row_data : dict) : result dict :=
  match row_data with
  | [] => Ret []
  | (column_name, value) :: rest =>
      p <- format_property column_name value ;;
      ps <- format_properties rest ;;
      Ret ((column_name, p) :: ps)
  end.

(** [response.get('id')] in the message logged after the client's call: of
    the values a response can be, only a dict has [get]. *)
Definition response_id (response : pyval) : result pyval :=
  match response with
  | PDict items =>
      Ret (match lookup "id" items with
           | Some id => id
           | None => PNone
           end)
  | _ => Raise AttributeError
  end.

(** The client's call followed by that message. *)
Definition logged (answer : W * result pyval) : W * result pyval :=
  match answer with
  | (w', Ret response) =>
      match response_id response with
      | Ret _ => (w', Ret response)
      | Raise e => (w', Raise e)
      end
  | (w', Raise e) => (w', Raise e)
  end.

(** [Notion.update_or_insert_row]: any exception, that of the logged
    message included, is logged and raised again. *)
Definition update_or_insert_row (row_id : pyval) (row_data : dict) (w : W)
  : W * result pyval :=
  match read_all_rows w with
  | Raise e => (w, Raise e)
  | Ret rows =>
      match existing_row rows row_id with
      | Raise e => (w, Raise e)
      | Ret existing =>
          match format_properties row_data with
          | Raise e => (w, Raise e)
          | Ret properties =>
              match existing with
              | Some row =>
                  if truthy (PDict row)
                  then logged (pages_update client row_id properties w)
                  else logged (pages_create client properties w)
              | None => logged (pages_create client properties w)
              end
          end
      end
  end.

(** The filter [(is_new == True) | (is_updated == True)]. *)
Definition dirty (row : ModelPlaceCard) : bool := is_new row || is_updated row.

(** The rows the query returns, each with its position in the table. *)
Definition select_dirty (table : list ModelPlaceCard) : list (nat * ModelPlaceCard) :=
  filter (fun ir => dirty (snd ir)) (combine (seq 0 (List.length table)) table).

(** The [for row in rows] loop of the push pass over the session's view of
    the table. *)
Fixpoint push_rows (rows : list (nat * ModelPlaceCard))
         (session : list ModelPlaceCard) (w : W)
  : W * result (list ModelPlaceCard) :=
  match rows with
  | [] => (w, Ret session)
  | (i, row) :: rest =>
      match update_or_insert_row (id_page row) (to_dict row) w with
      | (w1, Raise e) => (w1, Raise e)
      | (w1, Ret response) =>
          if isinstance_dict response
          then push_rows rest
                 (update_at i (set_is_updated false (set_is_new false row)) session) w1
          else push_rows rest session w1
      end
  end.

(** What a pass leaves behind: the committed table, the remote state, and
    the exception its [except] clause logged, if any. *)
Record pass_result : Type := mkPass {
  table_after : list ModelPlaceCard;
  world_after : W;
  logged_error : option exn
}.

(** [Notion._scheduled_task_to_Notion].  The whole body is one [try]: an
    exception leaves the loop, is logged, and [session.commit()] is not
    reached, so the table keeps the rows as they were. *)
Definition _scheduled_task_to_Notion (table : list ModelPlaceCard) (w : W)
  : pass_result :=
  match push_rows (select_dirty table) table w with
  | (w', Ret session) => mkPass session w' None
  | (w', Raise e) => mkPass table w' (Some e)
  end.

(** [Notion.get_full_url]. *)
Definition get_full_url (short_url : string) : result string :=
  requests_head_url E short_url.

(** [float(s)]. *)
Definition py_float (s : string) : result (pyfloat E) :=
  match float_of_str E s with
  | Some f => Ret f
  | None => Raise ValueError
  end.

Definition is_digit (c : ascii) : bool :=
  let n := Ascii.nat_of_ascii c in Nat.leb 48 n && Nat.leb n 57.

(** [\d{n}] at the head of [s]; what follows the match. *)
Fixpoint match_digits (n : nat) (s : string) : option string :=
  match n with
  | O => Some s
  | S m =>
      match s with
      | String c t => if is_digit c then match_digits m t else None
      | EmptyString => None
      end
  end.

(** [-?\d{1,2}\.\d{6}] at the head of [s]; what follows the match. *)
Definition match_number (s : string) : option string :=
  let s1 := match s with
            | String "-" t => t
            | _ => s
            end in
  match s1 with
  | String d1 (String "." t) =>
      if is_digit d1 then match_digits 6 t else None
  | String d1 (String d2 (String "." t)) =>
      if is_digit d1 && is_digit d2 then match_digits 6 t else None
  | _ => None
  end.

(** [re.match(regex_pattern, part)] for
    [(-?\d{1,2}\.\d{6}),(-?\d{1,2}\.\d{6})]: a match at the head of
    [part], whatever follows it. *)
Definition re_match_coordinates (part : string) : bool :=
  match match_number part with
  | Some (String "," t) =>
      match match_number t with
      | Some _ => true
      | None => false
      end
  | _ => false
  end.

(** The loop of [extract_coordinates_google_maps] over the path segments,
    [coordinates] being the list carried from one iteration to the next. *)
Fixpoint extract_parts (path_parts : list string) (coordinates : list string)
  : result (option (pyfloat E * pyfloat E)) :=
  match path_parts with
  | [] => Ret None
  | part :: rest =>
      coordinates <-
        (if contains "@" part then
           after <- index (split "@" part) 1 ;;
           Ret (firstn 2 (split "," after))
         else if re_match_coordinates part then Ret (split "," part)
         else Ret coordinates) ;;
      match coordinates with
      | [] => extract_parts rest coordinates
      | _ :: _ =>
          c0 <- index coordinates 0 ;;
          lat <- py_float c0 ;;
          c1 <- index coordinates 1 ;;
          lon <- py_float c1 ;;
          Ret (Some (lat, lon))
      end
  end.

(** [Notion.extract_coordinates_google_maps]. *)
Definition extract_coordinates_google_maps (url : string)
  : result (option (pyfloat E * pyfloat E)) :=
  path <- urlparse_path E url ;;
  extract_parts (split "/" path) [].

(** [Notion.get_coordinates_from_short_url]. *)
Definition get_coordinates_from_short_url (short_url : string)
  : result (option (pyfloat E * pyfloat E)) :=
  full_url <- get_full_url short_url ;;
  extract_coordinates_google_maps full_url.

(** [Notion.get_coordinates_from_link] on a text. *)
Definition get_coordinates_from_link (url : string)
  : result (option (pyfloat E * pyfloat E)) :=
  if startswith "https://" url then
    if Nat.ltb (String.length url) 70
    then get_coordinates_from_short_url url
    else extract_coordinates_google_maps url
  else Ret None.

(** The same call on an attribute of a row, which need not hold a text:
    only a [str] has [startswith]. *)
Definition get_coordinates_from_attribute (url : pyval)
  : result (option (pyfloat E * pyfloat E)) :=
  match url with
  | PStr s => get_coordinates_from_link s
  | _ => Raise AttributeError
  end.

(** [str(item_coordinates)] for a pair of floats. *)
Definition str_pair (item : pyfloat E * pyfloat E) : string :=
  "(" ++ float_repr E (fst item) ++ ", " ++ float_repr E (snd item) ++ ")".

(** [str(item_coordinates)[1:-2]]. *)
Definition coordinates_text (item : pyfloat E * pyfloat E) : string :=
  slice (str_pair item) 1 (-2).

(** [model_place_card.coordinates = str(item_coordinates)[1:-2]], the
    statement both resolved branches of the pull pass run. *)
Definition store_coordinates (item : pyfloat E * pyfloat E) (card : ModelPlaceCard)
  : ModelPlaceCard :=
  set_coordinates (PStr (coordinates_text item)) card.

(** One [if key == name:] of the pull pass. *)
Definition on_key (key name : string)
           (body : ModelPlaceCard -> result ModelPlaceCard)
           (card : ModelPlaceCard) : result ModelPlaceCard :=
  if String.eqb key name then body card else Ret card.

(** The body of [if key == "Location":]. *)
Definition pull_location (value : pyval) (card : ModelPlaceCard)
  : result ModelPlaceCard :=
  select <- getitem value "select" ;;
  if truthy select then
    name <- getitem select "name" ;;
    Ret (set_location name card)
  else Ret (set_location (PStr "Not specified") card).

(** The body of [if key == "Google Map":]. *)
Definition pull_google_map (value : pyval) (card : ModelPlaceCard)
  : result ModelPlaceCard :=
  let google_map_link := search_by_key value "url" in
  if negb (py_eqb (google_map card) google_map_link) then
    let card := if truthy google_map_link
                then set_google_map google_map_link card else card in
    item_coordinates <- get_coordinates_from_attribute (google_map card) ;;
    match item_coordinates with
    | Some item => Ret (store_coordinates item card)
    | None => Ret (set_google_map google_map_link card)
    end
  else Ret card.

(** The body of [for key, value in values.items():]. *)
Definition pull_property (key : string) (value : pyval) (card : ModelPlaceCard)
  : result ModelPlaceCard :=
  card <- on_key key "Name"
            (fun c => Ret (set_Name (search_by_key value "plain_text") c)) card ;;
  card <- on_key key "Type"
            (fun c => Ret (set_type (search_by_key value "name") c)) card ;;
  card <- on_key key "ID"
            (fun c => Ret (set_ID (search_by_key value "number") c)) card ;;
  card <- on_key key "Photo Google Drive"
            (fun c => Ret (set_photo (search_by_key value "url") c)) card ;;
  card <- on_key key "Location" (pull_location value) card ;;
  card <- on_key key "Google Map" (pull_google_map value) card ;;
  card <- on_key key "Phone Number"
            (fun c => Ret (set_phone_number (search_by_key value "plain_text") c)) card ;;
  card <- on_key key "WhatsApp Number"
            (fun c => Ret (set_whatsapp (search_by_key value "plain_text") c)) card ;;
  card <- on_key key "Hours of Operation"
            (fun c => Ret (set_hours_of_operation (search_by_key value "plain_text") c))
            card ;;
  on_key key "Owner / Manager"
    (fun c => Ret (set_manager_phone_number (search_by_key value "plain_text") c)) card.

Fixpoint pull_properties (properties : dict) (card : ModelPlaceCard)
  : result ModelPlaceCard :=
  match properties with
  | [] => Ret card
  | (key, value) :: rest =>
      card <- pull_property key value card ;;
      pull_properties rest card
  end.

(** The block [if not model_place_card.coordinates and
    model_place_card.google_map:], whose resolver call sits in its own
    [try]. *)
Definition recover_coordinates (card : ModelPlaceCard) : ModelPlaceCard :=
  if negb (truthy (coordinates card)) && truthy (google_map card) then
    let item_coordinates :=
      match get_coordinates_from_attribute (google_map card) with
      | Ret item => item
      | Raise _ => None
      end in
    match item_coordinates with
    | Some item => store_coordinates item card
    | None => set_coordinates (PStr "Bad url") card
    end
  else card.

(** The loop [for keys, values in num.items():]; [added] tells whether
    [session.add(model_place_card)], its last statement, has run. *)
Fixpoint pull_items (items : dict) (card : ModelPlaceCard) (added : bool)
  : result (ModelPlaceCard * bool) :=
  match items with
  | [] => Ret (card, added)
  | (keys, values) :: rest =>
      let card := if String.eqb keys "id" then set_id_page values card else card in
      card <- (if String.eqb keys "properties" then
                 properties <- items_of values ;;
                 pull_properties properties card
               else Ret card) ;;
      pull_items rest (recover_coordinates card) true
  end.

(** [column = value] of [filter_by] on a String column: NULL is matched
    by [None] only, a text by the same text.  This is the comparison on the
    values such a column holds; a number as argument, which the database
    would compare with the stored text, is outside the model. *)
Definition sql_eqb (column value : pyval) : bool :=
  match column, value with
  | PNone, PNone => true
  | PStr a, PStr b => String.eqb a b
  | _, _ => false
  end.

(** [query.filter(...).first()]: the first row that passes, and its position. *)
Fixpoint first_from (p : ModelPlaceCard -> bool) (i : nat)
         (table : list ModelPlaceCard) : option (nat * ModelPlaceCard) :=
  match table with
  | [] => None
  | row :: rest => if p row then Some (i, row) else first_from p (S i) rest
  end.

Definition query_first (p : ModelPlaceCard -> bool) (table : list ModelPlaceCard)
  : option (nat * ModelPlaceCard) := first_from p 0 table.

(** The body of [for num in reversed(rows):] on the session's view of the
    table.  A row object the session created is inserted, with the column
    defaults, by the flush that precedes the next query or the commit. *)
Definition pull_row (num : dict) (session : list ModelPlaceCard)
  : result (list ModelPlaceCard) :=
  id <- getitem (PDict num) "id" ;;
  let model_place_card :=
    query_first (fun r => sql_eqb (id_page r) id && negb (is_updated r)) session in
  let no_change_place_card :=
    query_first (fun r => sql_eqb (id_page r) id && is_updated r) session in
  match no_change_place_card with
  | Some _ => Ret session
  | None =>
      let card := match model_place_card with
                  | Some (_, found) => found
                  | None => new_card
                  end in
      r <- pull_items num card false ;;
      match model_place_card with
      | Some (i, _) => Ret (update_at i (fst r) session)
      | None => if snd r then Ret (session ++ [inserted (fst r)])%list
                else Ret session
      end
  end.

Fixpoint pull_rows (rows : list dict) (session : list ModelPlaceCard)
  : result (list ModelPlaceCard) :=
  match rows with
  | [] => Ret session
  | num :: rest =>
      session <- pull_row num session ;;
      pull_rows rest session
  end.

(** [Notion._scheduled_task_from_Notion]: one commit at the end, and a
    rollback of the whole pass on any exception. *)
Definition _scheduled_task_from_Notion (table : list ModelPlaceCard) (w : W)
  : pass_result :=
  match (rows <- read_all_rows w ;; pull_rows (rev rows) table) with
  | Ret session => mkPass session w None
  | Raise e => mkPass table w (Some e)
  end.

End Engine.

End Notion.

Export Notion.

(* ------------------------------------------------------------------ *)
(** ** core/db_functions.py: the functions on the table *)

Module DbOperations.

Section Session.

Context {W : Type} (client : NotionClient W).

(** The body of [for key, value in values.items():] of
    [update_database_from_notion]: every extraction is assigned as it
    comes. *)
Definition import_property (key : string) (value : pyval) (card : ModelPlaceCard)
  : ModelPlaceCard :=
  let card := if String.eqb key "Name"
              then set_Name (search_by_key value "plain_text") card else card in
  let card := if String.eqb key "Type"
              then set_type (search_by_key value "name") card else card in
  let card := if String.eqb key "ID"
              then set_ID (search_by_key value "number") card else card in
  let card := if String.eqb key "Photo Google Drive"
              then set_photo (search_by_key value "url") card else card in
  let card := if String.eqb key "Google Map"
              then set_google_map (search_by_key value "url") card else card in
  let card := if String.eqb key "Phone Number"
              then set_phone_number (search_by_key value "plain_text") card else card in
  let card := if String.eqb key "WhatsApp Number"
              then set_whatsapp (search_by_key value "plain_text") card else card in
  let card := if String.eqb key "Hours of Operation"
              then set_hours_of_operation (search_by_key value "plain_text") card
              else card in
  let card := if String.eqb key "Owner / Manager"
              then set_manager_phone_number (search_by_key value "plain_text") card
              else card in
  let card := if String.eqb key "Location"
              then set_location (search_by_key value "name") card else card in
  card.

Fixpoint import_properties (properties : dict) (card : ModelPlaceCard)
  : ModelPlaceCard :=
  match properties with
  | [] => card
  | (key, value) :: rest => import_properties rest (import_property key value card)
  end.

(** The loop [for keys, values in num.items():] of the import. *)
Fixpoint import_items (items : dict) (card : ModelPlaceCard)
  : result ModelPlaceCard :=
  match items with
  | [] => Ret card
  | (keys, values) :: rest =>
      let card := if String.eqb keys "id" then set_id_page values card else card in
      card <- (if String.eqb keys "properties" then
                 properties <- items_of values ;;
                 Ret (import_properties properties card)
               else Ret card) ;;
      import_items rest card
  end.

(** The loop [for num in reversed(rows):], [pending] being the row objects
    added to the session so far. *)
Fixpoint import_rows (rows : list dict) (pending : list ModelPlaceCard)
  : result (list ModelPlaceCard) :=
  match rows with
  | [] => Ret pending
  | num :: rest =>
      card <- import_items num new_card ;;
      import_rows rest (pending ++ [card])%list
  end.

(** [update_database_from_notion]: one commit after the loop and no [try],
    so an exception leaves the function and nothing is stored. *)
Definition update_database_from_notion (table : list ModelPlaceCard) (w : W)
  : result (list ModelPlaceCard) :=
  rows <- read_all_rows client w ;;
  pending <- import_rows (rev rows) [] ;;
  Ret (table ++ map inserted pending)%list.

End Session.

(** [find_company_by_name]: the first row of that name, or a row created
    with it, committed and refreshed. *)
Definition find_company_by_name (name : string) (table : list ModelPlaceCard)
  : list ModelPlaceCard * ModelPlaceCard :=
  match query_first (fun r => sql_eqb (Name r) (PStr name)) table with
  | Some (_, company) => (table, company)
  | None =>
      let company := inserted (set_Name (PStr name) new_card) in
      ((table ++ [company])%list, company)
  end.

End DbOperations.

Export DbOperations.

(* ------------------------------------------------------------------ *)
(** ** bot/telegram_bot.py *)

Module Bot.

(** A character of the class [[a-zA-Z0-9\s.,:;!?'-]].  The characters of a
    [string] are read as the code points below 256, of which [\s] matches
    9 to 13, 28 to 32, [U+0085] and [U+00A0]. *)
Definition name_char (c : ascii) : bool :=
  let n := Ascii.nat_of_ascii c in
  (Nat.leb 97 n && Nat.leb n 122) || (Nat.leb 65 n && Nat.leb n 90)
  || (Nat.leb 48 n && Nat.leb n 57)
  || (Nat.leb 9 n && Nat.leb n 13) || (Nat.leb 28 n && Nat.leb n 32)
  || Nat.eqb n 133 || Nat.eqb n 160
  || Nat.eqb n 46 || Nat.eqb n 44 || Nat.eqb n 58 || Nat.eqb n 59
  || Nat.eqb n 33 || Nat.eqb n 63 || Nat.eqb n 39 || Nat.eqb n 45.

Fixpoint all_chars (p : ascii -> bool) (s : string) : bool :=
  match s with
  | EmptyString => true
  | String c t => p c && all_chars p t
  end.

(** [TelegramBot.validate_name]: [re.match] of
    [^[a-zA-Z0-9\s.,:;!?'-]+$]. *)
Definition validate_name (name : string) : bool :=
  negb (String.eqb name EmptyString) && all_chars name_char name.

(** What [handle_company_name] answers. *)
Inductive reply : Type :=
| InvalidName
| MultipleFound (companies : list ModelPlaceCard)
| CompanyFound (company : ModelPlaceCard)
| CompanyCreated (company : ModelPlaceCard).

(** [TelegramBot.handle_company_name] on the table: the query by name, and
    on a miss [ModelPlaceCard(Name=company_name)] added, committed and
    refreshed. *)
Definition handle_company_name (company_name : string) (table : list ModelPlaceCard)
  : list ModelPlaceCard * reply :=
  if negb (validate_name company_name) then (table, InvalidName)
  else
    let companies :=
      filter (fun r => sql_eqb (Name r) (PStr company_name)) table in
    if (match companies with [] => false | _ => true end)
       && Nat.ltb 1 (List.length companies)
    then (table, MultipleFound companies)
    else
      match companies with
      | company :: _ => (table, CompanyFound company)
      | [] =>
          let company := inserted (set_Name (PStr company_name) new_card) in
          ((table ++ [company])%list, CompanyCreated company)
      end.

(** [TelegramBot.validate_type]. *)
Definition validate_type (type : string) : bool :=
  existsb (String.eqb type) ["Places to eat"; "Adventures"; "Services"].

(** *** Phone numbers

    The phone branch of [handle_new_value] looks at the characters of the
    message one by one: a text is here the list of its code points, and
    [str.isdigit], which Python reads off the Unicode database, is a
    parameter. *)
Definition text : Type := list N.

Definition code (c : ascii) : N := N_of_ascii c.

(** A literal of the source, which is ASCII. *)
Definition literal (s : string) : text := map code (list_ascii_of_string s).

(** [s.startswith(prefix)]. *)
Fixpoint text_startswith (prefix s : text) : bool :=
  match prefix, s with
  | [], _ => true
  | _ :: _, [] => false
  | a :: prefix', b :: s' => N.eqb a b && text_startswith prefix' s'
  end.

Section PhoneNumber.

Variable isdigit : N -> bool.

(** [filter(str.isdigit, new_value)] joined: the digits of a text, in order. *)
Definition digits_only (new_value : text) : text := filter isdigit new_value.

(** The phone number branch of [handle_new_value]: eight digits get the
    prefix [+506], eleven digits that start with [506] get a [+], anything
    else is left as its digits. *)
Definition process_phone_number (new_value : text) : text :=
  let digits := digits_only new_value in
  if Nat.eqb (List.length digits) 8 then (literal "+506" ++ digits)%list
  else if Nat.eqb (List.length digits) 11 && text_startswith (literal "506") digits
       then (literal "+" ++ digits)%list
  else digits.

End PhoneNumber.

(** The assignments [handle_save] makes on each row it found. *)
Definition save_fields (place_card_data place_card : ModelPlaceCard)
  : ModelPlaceCard :=
  let place_card := set_Name (Name place_card_data) place_card in
  let place_card := set_type (type place_card_data) place_card in
  let place_card := set_photo (photo place_card_data) place_card in
  let place_card := set_location (location place_card_data) place_card in
  let place_card := set_google_map (google_map place_card_data) place_card in
  let place_card := set_phone_number (phone_number place_card_data) place_card in
  let place_card := set_whatsapp (whatsapp place_card_data) place_card in
  let place_card := set_manager_phone_number (manager_phone_number place_card_data)
                      place_card in
  let place_card := set_hours_of_operation (hours_of_operation place_card_data)
                      place_card in
  set_is_updated true place_card.

(** The database block of [TelegramBot.handle_save]: every row whose [ID]
    is the card's takes the card's fields and is marked updated; when there
    is none the card, which is then no row of the table, is added. *)
Definition handle_save (place_card_data : ModelPlaceCard)
           (table : list ModelPlaceCard) : list ModelPlaceCard :=
  let same_ID := fun r => sql_eqb (ID r) (ID place_card_data) in
  let existing_place_cards := filter same_ID table in
  match existing_place_cards with
  | _ :: _ =>
      map (fun r => if same_ID r then save_fields place_card_data r else r) table
  | [] => (table ++ [inserted place_card_data])%list
  end.

(** *** The list of places around, three to a page *)

Definition LEN_LIST : nat := 3.

(** [l[start:stop]] for bounds that are not negative. *)
Definition list_slice {A : Type} (l : list A) (start stop : nat) : list A :=
  firstn (stop - start) (skipn start l).

Definition Qlt_bool (a b : Q) : bool := negb (Qle_bool b a).

(** [max_page] of [send_venue_list] for a list of [n] places, [n > 0]:
    the quotient of the true division less one when there are three places
    or more, and the initial [0] otherwise (the [elif max_page > 0] branch
    tests that initial [0] and is never taken).  The quotient is the exact
    one; for fewer than [2^50] places the float quotient compares with the
    integers as the exact one does. *)
Definition max_page_of (n : nat) : Q :=
  if Nat.leb LEN_LIST n
  then (Qmake (Z.of_nat n) 3 - 1)%Q
  else 0%Q.

(** The keyboard that goes with the list. *)
Inductive venue_markup : Type :=
| ExitOnly
| PagesAndExit
| NoMarkup.

(** [send_venue_list] for the page [page] (set to 0 at the start and moved
    by [prev_next_button] only): nothing but a message when there is no
    place, otherwise the places listed and the keyboard under them. *)
Definition send_venue_list {A : Type} (places_list : list A) (page : nat)
  : option (list A * venue_markup) :=
  match places_list with
  | [] => None
  | _ :: _ =>
      let start_id := page * LEN_LIST in
      let end_id := start_id + LEN_LIST in
      let max_page := max_page_of (List.length places_list) in
      let keyboard :=
        if Qlt_bool (inject_Z (Z.of_nat page)) max_page
        then list_slice places_list start_id end_id
        else if Qeq_bool (inject_Z (Z.of_nat page)) max_page
        then list_slice places_list start_id (List.length places_list)
        else [] in
      let reply_markup :=
        if Nat.leb (List.length places_list) LEN_LIST then ExitOnly
        else if Nat.ltb LEN_LIST (List.length places_list)
                && Qle_bool (inject_Z (Z.of_nat page)) max_page
        then PagesAndExit
        else NoMarkup in
      Some (keyboard, reply_markup)
  end.

(** [prev_next_button] on [page_next] and on [page_prev], [max_page] being
    the one the first [send_venue_list] stored. *)
Definition page_next {A : Type} (places_list : list A) (current_page : nat) : nat :=
  if Qlt_bool (inject_Z (Z.of_nat current_page)) (max_page_of (List.length places_list))
  then current_page + 1
  else current_page.

Definition page_prev (current_page : nat) : nat :=
  if Nat.ltb 0 current_page then current_page - 1 else 0.

End Bot.

Export Bot.

(* ------------------------------------------------------------------ *)
(** ** Test doubles for the external collaborators

    In the manner of [MockNotion] of the repository's [conftest.py]: a
    document database kept in memory, which lists its rows as pages with an
    [id] and [properties] and answers an upsert with the page or fails as
    scripted, and an environment for the resolver.  The general statements
    below hold for every client and every environment; these doubles serve
    the concrete runs. *)

Module Mock.

(** What a scripted call does: answer normally, raise, or answer with
    something that is not a page. *)
Inductive fault : Type :=
| NoFault
| Fails
| Garbled (response : pyval).

(** The calls the service received. *)
Inductive call : Type :=
| CallUpdate (page_id : pyval) (properties : dict)
| CallCreate (properties : dict).

(** The remote database: its pages (identifier and properties) in listing
    order, the counter of identifiers, the faults of the calls to come (none
    once the script is exhausted) and the log of the calls received. *)
Record service : Type := mkService {
  pages : list (string * dict);
  next_id : nat;
  script : list fault;
  calls : list call
}.

Definition page_dict (p : string * dict) : dict :=
  [("object", PStr "page"); ("id", PStr (fst p)); ("properties", PDict (snd p))].

(** [d[k] = v]. *)
Fixpoint dict_set (k : string) (v : pyval) (d : dict) : dict :=
  match d with
  | [] => [(k, v)]
  | (k', v') :: rest =>
      if String.eqb k' k then (k, v) :: rest else (k', v') :: dict_set k v rest
  end.

Definition merge (old new : dict) : dict :=
  fold_left (fun d kv => dict_set (fst kv) (snd kv) d) new old.

Fixpoint update_page (page_id : pyval) (properties : dict)
         (ps : list (string * dict)) : list (string * dict) :=
  match ps with
  | [] => []
  | p :: rest =>
      if py_eqb (PStr (fst p)) page_id
      then (fst p, merge (snd p) properties) :: rest
      else p :: update_page page_id properties rest
  end.

Definition find_page (page_id : pyval) (ps : list (string * dict))
  : option (string * dict) :=
  find (fun p => py_eqb (PStr (fst p)) page_id) ps.

Definition next_fault (s : service) : fault :=
  match script s with
  | f :: _ => f
  | [] => NoFault
  end.

Definition fresh_id (n : nat) : string :=
  "page-" ++ NilZero.string_of_uint (Nat.to_uint n).

Definition mock_query (s : service) : result (list dict) :=
  Ret (map page_dict (pages s)).

Definition mock_update (page_id : pyval) (properties : dict) (s : service)
  : service * result pyval :=
  let log := (calls s ++ [CallUpdate page_id properties])%list in
  match next_fault s with
  | Fails => (mkService (pages s) (next_id s) (tl (script s)) log, Raise RequestError)
  | Garbled v => (mkService (pages s) (next_id s) (tl (script s)) log, Ret v)
  | NoFault =>
      let ps := update_page page_id properties (pages s) in
      (mkService ps (next_id s) (tl (script s)) log,
       match find_page page_id ps with
       | Some p => Ret (PDict (page_dict p))
       | None => Raise RequestError
       end)
  end.

Definition mock_create (properties : dict) (s : service)
  : service * result pyval :=
  let log := (calls s ++ [CallCreate properties])%list in
  match next_fault s with
  | Fails => (mkService (pages s) (next_id s) (tl (script s)) log, Raise RequestError)
  | Garbled v => (mkService (pages s) (next_id s) (tl (script s)) log, Ret v)
  | NoFault =>
      let p := (fresh_id (next_id s), properties) in
      (mkService (pages s ++ [p])%list (S (next_id s)) (tl (script s)) log,
       Ret (PDict (page_dict p)))
  end.

Definition mock_client : NotionClient service :=
  mkClient service mock_query mock_update mock_create.

(** A service with the given pages, no fault scripted and an empty log. *)
Definition reliable (ps : list (string * dict)) (n : nat) : service :=
  mkService ps n [] [].

(** A float given by a plain decimal literal: sign, integer digits without
    leading zeros, fraction digits without trailing zeros.  This is what
    Python's [float] and [repr] do on literals [[+-]digits[.digits]] of at
    most 15 significant digits and a magnitude printed without exponent;
    any other text is rejected here. *)
Record decimal : Type := mkDecimal {
  negative : bool;
  int_digits : string;
  frac_digits : string
}.

Fixpoint all_digits (s : string) : bool :=
  match s with
  | EmptyString => true
  | String c t => is_digit c && all_digits t
  end.

Fixpoint strip_leading_zeros (s : string) : string :=
  match s with
  | String "0" t => strip_leading_zeros t
  | _ => s
  end.

Fixpoint strip_trailing_zeros (s : string) : string :=
  match s with
  | EmptyString => EmptyString
  | String c t =>
      match strip_trailing_zeros t with
      | EmptyString => if Ascii.eqb c "0" then EmptyString else String c EmptyString
      | t' => String c t'
      end
  end.

Definition decimal_of_str (s : string) : option decimal :=
  let (neg, body) :=
    match s with
    | String "-" t => (true, t)
    | String "+" t => (false, t)
    | _ => (false, s)
    end in
  match split "." body with
  | [i] =>
      if all_digits i && negb (String.eqb i EmptyString)
      then Some (mkDecimal neg (strip_leading_zeros i) EmptyString)
      else None
  | [i; f] =>
      if all_digits i && all_digits f
         && negb (String.eqb i EmptyString && String.eqb f EmptyString)
      then Some (mkDecimal neg (strip_leading_zeros i) (strip_trailing_zeros f))
      else None
  | _ => None
  end.

Definition or_zero (s : string) : string :=
  match s with
  | EmptyString => "0"
  | _ => s
  end.

Definition decimal_repr (d : decimal) : string :=
  let body := String "." (or_zero (frac_digits d)) in
  let body := or_zero (int_digits d) ++ body in
  if negative d then String "-" body else body.

Lemma decimal_repr_nonempty (d : decimal) : decimal_repr d <> EmptyString.
Proof.
  unfold decimal_repr.
  destruct (negative d); [discriminate|].
  destruct (or_zero (int_digits d)); simpl; discriminate.
Qed.

(** The path of an [https://host/path?query#fragment] URL. *)
Fixpoint until_any (stops : string) (s : string) : string :=
  match s with
  | EmptyString => EmptyString
  | String c t => if contains c stops then EmptyString else String c (until_any stops t)
  end.

Fixpoint from_first (c : ascii) (s : string) : string :=
  match s with
  | EmptyString => EmptyString
  | String c' t => if Ascii.eqb c' c then s else from_first c t
  end.

Definition url_path (url : string) : result string :=
  let no_query := until_any "?#" url in
  if startswith "https://" no_query
  then Ret (from_first "/" (String.substring 8 (String.length no_query) no_query))
  else Ret no_query.

(** The short link the resolver's tests follow, and where it leads. *)
Definition short_link : string := "https://maps.app.goo.gl/abcDEF".

Definition long_link : string :=
  "https://www.google.com/maps/place/Parque+Nacional/@9.748917,-83.753428,15z/data=!3m1".

Definition redirect (short_url : string) : result string :=
  if String.eqb short_url short_link then Ret long_link else Raise RequestError.

(** Rows a manager created through the bot and then saved, which sets
    [is_updated]; none has been pushed yet. *)
Definition saved_card (name : string) : ModelPlaceCard :=
  set_is_updated true (inserted (set_Name (PStr name) new_card)).

Definition cafe : ModelPlaceCard := saved_card "Cafe X".
Definition bar : ModelPlaceCard := saved_card "Bar Y".
Definition spa : ModelPlaceCard := saved_card "Spa Z".

(** Properties as the document database lists them. *)
Definition title_property (text : string) : pyval :=
  PDict [("id", PStr "title"); ("type", PStr "title");
         ("title",
          PList [PDict [("type", PStr "text");
                        ("text", PDict [("content", PStr text); ("link", PNone)]);
                        ("plain_text", PStr text); ("href", PNone)]])].

Definition empty_title : pyval :=
  PDict [("id", PStr "title"); ("type", PStr "title"); ("title", PList [])].

Definition url_property (url : pyval) : pyval :=
  PDict [("id", PStr "%3AqK"); ("type", PStr "url"); ("url", url)].

(** The local mirror of the page [p1], as an earlier pull pass created it. *)
Definition mirrored : ModelPlaceCard :=
  inserted (set_Name (PStr "Cafe X") (set_id_page (PStr "p1") new_card)).

(** The mirror of the page [p1] with no field filled. *)
Definition mirrored_blank : ModelPlaceCard :=
  inserted (set_id_page (PStr "p1") new_card).

(** The remote database holding the page [p1] with the given properties. *)
Definition remote (properties : dict) : service :=
  reliable [("p1", properties)] 1.

(** That mirror with an edit saved by a manager and not yet pushed. *)
Definition edited : ModelPlaceCard := set_is_updated true mirrored.

(** The page [p1] renamed on the remote side. *)
Definition renamed : service := remote [("Name", title_property "Cafe Remote")].

(** Three saved rows, and a service whose second call raises, or answers
    with something that is not a page. *)
Definition three_saved : list ModelPlaceCard := [cafe; bar; spa].

Definition second_call_fails : service := mkService [] 0 [NoFault; Fails] [].

Definition second_call_garbled : service :=
  mkService [] 0 [NoFault; Garbled PNone] [].

(** A row with a location and no manager's phone number. *)
Definition beach_bar : ModelPlaceCard :=
  inserted (set_location (PStr "Jaco") (set_Name (PStr "Beach Bar") new_card)).

(** An expanded link whose [@] segment holds no number, and one whose [@]
    segment holds a single number. *)
Definition broken_link : string :=
  "https://www.google.com/maps/place/Parque+Nacional+Volcan+Irazu/@abc/data=!3m1!4b1".

Definition single_token_link : string :=
  "https://www.google.com/maps/place/Parque+Nacional+Volcan+Irazu/@9.748917/data=!3m1".

Definition is_create (c : call) : bool :=
  match c with
  | CallCreate _ => true
  | CallUpdate _ _ => false
  end.

(** The create calls the service received. *)
Definition creates (s : service) : nat := List.length (filter is_create (calls s)).

(** One push pass, and a second one right after it, against a service
    that starts with the given pages and does not fail. *)
Definition pushed_once (table : list ModelPlaceCard) (ps : list (string * dict))
           (n : nat) : pass_result :=
  _scheduled_task_to_Notion mock_client table (reliable ps n).

Definition pushed_twice (table : list ModelPlaceCard) (ps : list (string * dict))
           (n : nat) : pass_result :=
  _scheduled_task_to_Notion mock_client
    (table_after (pushed_once table ps n)) (world_after (pushed_once table ps n)).

(** The page [p1] on the remote side; its local mirror with an edit not yet
    pushed, followed by two saved rows; a service whose third call raises;
    the push pass against it, and the pass run again after it. *)
Definition edited_and_saved : list ModelPlaceCard := [edited; bar; spa].

Definition third_call_fails : service :=
  mkService [("p1", [("Name", title_property "Cafe X")])] 1
            [NoFault; NoFault; Fails] [].

Definition failed_once : pass_result :=
  _scheduled_task_to_Notion mock_client edited_and_saved third_call_fails.

Definition retried : pass_result :=
  _scheduled_task_to_Notion mock_client
    (table_after failed_once) (world_after failed_once).

(** [str.isdigit] on the characters of the concrete runs, which are ASCII. *)
Definition isdigit_ascii (c : N) : bool := N.leb 48 c && N.leb c 57.

(** The resolver's environment in the tests. *)
Definition mock_env : PyEnv :=
  mkEnv decimal decimal_of_str decimal_repr decimal_repr_nonempty url_path redirect.

End Mock.

(* ------------------------------------------------------------------ *)
(** ** Vocabulary of the statements *)

(** The two dirty flags of a row. *)
Definition flags (c : ModelPlaceCard) : bool * bool := (is_new c, is_updated c).

(** A step on a row object that leaves both flags as they are. *)
Definition keeps_flags (f : ModelPlaceCard -> result ModelPlaceCard) : Prop :=
  forall c c', f c = Ret c' -> flags c' = flags c.

(** What a pull step may do to the table: a row that was there keeps its
    flags, and is left as it is when [is_updated] is set; a row that was not
    there has both flags off. *)
Definition extends (before after : list ModelPlaceCard) : Prop :=
  (forall i r, nth_error before i = Some r ->
     exists r', nth_error after i = Some r' /\ flags r' = flags r /\
                (is_updated r = true -> r' = r)) /\
  (forall i r', List.length before <= i -> nth_error after i = Some r' ->
     flags r' = (false, false)).

(** No row at a position is a push candidate. *)
Definition clean_at (session : list ModelPlaceCard) (j : nat) : Prop :=
  forall r, nth_error session j = Some r -> dirty r = false.

(** Induction on a Python value through its lists and dicts. *)
Section PyvalInduction.

Variable P : pyval -> Prop.
Hypothesis HNone : P PNone.
Hypothesis HBool : forall b, P (PBool b).
Hypothesis HInt : forall n, P (PInt n).
Hypothesis HStr : forall s, P (PStr s).
Hypothesis HList : forall xs, Forall P xs -> P (PList xs).
Hypothesis HDict : forall items, Forall (fun kv => P (snd kv)) items -> P (PDict items).

Fixpoint pyval_nested_ind (v : pyval) : P v :=
  match v with
  | PNone => HNone
  | PBool b => HBool b
  | PInt n => HInt n
  | PStr s => HStr s
  | PList xs =>
      HList xs
        ((fix all (l : list pyval) : Forall P l :=
            match l with
            | [] => Forall_nil P
            | x :: l' => Forall_cons x (pyval_nested_ind x) (all l')
            end) xs)
  | PDict items =>
      HDict items
        ((fix all (l : list (string * pyval)) : Forall (fun kv => P (snd kv)) l :=
            match l with
            | [] => Forall_nil _
            | (k, x) :: l' =>
                Forall_cons (P := fun kv => P (snd kv)) (k, x)
                            (pyval_nested_ind x) (all l')
            end) items)
  end.

End PyvalInduction.

(** The key occurs somewhere in the subtree: as a key of the value itself
    or of a dict nested in it, through dicts and lists. *)
Fixpoint key_occurs (key : string) (d : pyval) : bool :=
  match d with
  | PDict items =>
      (fix any_item (l : list (string * pyval)) : bool :=
         match l with
         | [] => false
         | (k, v) :: rest => String.eqb k key || key_occurs key v || any_item rest
         end) items
  | PList xs =>
      (fix any_element (l : list pyval) : bool :=
         match l with
         | [] => false
         | x :: rest => key_occurs key x || any_element rest
         end) xs
  | _ => false
  end.

(** The mapped fields, each with the property it is pulled from, the
    leaf searched in that property, and its attribute. *)
Inductive mapped_field : Type :=
| FName | FType | FPhoto | FPhone | FWhatsApp | FHours | FManager.

Definition property_name (f : mapped_field) : string :=
  match f with
  | FName => "Name"
  | FType => "Type"
  | FPhoto => "Photo Google Drive"
  | FPhone => "Phone Number"
  | FWhatsApp => "WhatsApp Number"
  | FHours => "Hours of Operation"
  | FManager => "Owner / Manager"
  end.

Definition leaf_key (f : mapped_field) : string :=
  match f with
  | FName | FPhone | FWhatsApp | FHours | FManager => "plain_text"
  | FType => "name"
  | FPhoto => "url"
  end.

Definition attribute (f : mapped_field) : ModelPlaceCard -> pyval :=
  match f with
  | FName => Name
  | FType => type
  | FPhoto => photo
  | FPhone => phone_number
  | FWhatsApp => whatsapp
  | FHours => hours_of_operation
  | FManager => manager_phone_number
  end.

Definition assign (f : mapped_field) : pyval -> ModelPlaceCard -> ModelPlaceCard :=
  match f with
  | FName => set_Name
  | FType => set_type
  | FPhoto => set_photo
  | FPhone => set_phone_number
  | FWhatsApp => set_whatsapp
  | FHours => set_hours_of_operation
  | FManager => set_manager_phone_number
  end.

(** A text without its last character. *)
Fixpoint but_last (s : string) : string :=
  match s with
  | EmptyString => EmptyString
  | String c EmptyString => EmptyString
  | String c t => String c (but_last t)
  end.

(** The tests and assignments of [to_dict], one entry for each: the
    attribute tested, and the item assigned when it is populated. *)
Definition to_dict_entries (self : ModelPlaceCard) : list (pyval * (string * pyval)) :=
  [(Name self, ("Name", Name self));
   (type self, ("Type", type self));
   (photo self, ("Photo Google Drive", photo self));
   (google_map self, ("Google Map", google_map self));
   (phone_number self, ("Phone Number", phone_number self));
   (whatsapp self, ("WhatsApp Number", whatsapp self));
   (hours_of_operation self, ("Hours of Operation", hours_of_operation self));
   (manager_phone_number self, ("Owner / Manager", manager_phone_number self));
   (manager_phone_number self, ("Location", location self))].

(** The property names [to_dict] can emit. *)
Definition emitted_columns : list string :=
  ["Name"; "Type"; "Photo Google Drive"; "Google Map"; "Phone Number";
   "WhatsApp Number"; "Hours of Operation"; "Owner / Manager"; "Location"].

(** The column names [format_property] has a rule for. *)
Definition named_column (column_name : string) : bool :=
  existsb (String.eqb column_name)
    ["Name"; "Photo Google Drive"; "Google Map"; "Type"; "Phone Number";
     "WhatsApp Number"; "Hours of Operation"; "Owner / Manager"].

(** Some listed row has the identifier [row_id]. *)
Definition listed (rows : list dict) (row_id : pyval) : bool :=
  existsb (fun row => match lookup "id" row with
                      | Some id => py_eqb id row_id
                      | None => false
                      end) rows.

(** A row with both flags cleared, as the push pass leaves it. *)
Definition pushed (row : ModelPlaceCard) : ModelPlaceCard :=
  set_is_updated false (set_is_new false row).

(** No page of the remote database has the empty identifier. *)
Definition ids_nonempty (ps : list (string * dict)) : Prop :=
  forall p, In p ps -> fst p <> EmptyString.

(** No row of the table is marked new.  No statement of the repository
    assigns [True] to [is_new], whose column default is [False]: this is the
    condition of every table the program writes. *)
Definition none_new (table : list ModelPlaceCard) : Prop :=
  forall r, In r table -> is_new r = false.

(** The places on the keyboard [send_venue_list] sends for a page: none
    when it sends no keyboard. *)
Definition shown {A : Type} (places_list : list A) (page : nat) : list A :=
  match send_venue_list places_list page with
  | Some (keyboard, ExitOnly) | Some (keyboard, PagesAndExit) => keyboard
  | Some (_, NoMarkup) | None => []
  end.

(** The keys of a dict are pairwise distinct. *)
Definition dict_ok (d : dict) : Prop := NoDup (map fst d).

(** Where the map link is populated, the coordinates are. *)
Definition located (c : ModelPlaceCard) : Prop :=
  truthy (google_map c) = true -> truthy (coordinates c) = true.

(** A step on a row object that leaves an attribute as it is. *)
Definition keeps {B : Type} (attr : ModelPlaceCard -> B)
           (f : ModelPlaceCard -> result ModelPlaceCard) : Prop :=
  forall c c', f c = Ret c' -> attr c' = attr c.

(** The value left under a key by assignments made item after item. *)
Definition last_binding (key : string) (items : dict) (initial : pyval) : pyval :=
  fold_left (fun acc kv => if String.eqb (fst kv) key then snd kv else acc)
            items initial.

(* ------------------------------------------------------------------ *)
(** ** Lists, positions and the error monad *)

Section ListFacts.

Context {A : Type}.

Lemma update_at_length (i : nat) (x : A) (l : list A) :
  List.length (update_at i x l) = List.length l.
Proof.
  revert i; induction l as [|h t IH]; intros [|j]; simpl; auto.
Qed.

Lemma nth_error_update_at_eq (i : nat) (x y : A) (l : list A) :
  nth_error (update_at i x l) i = Some y -> y = x.
Proof.
  revert i; induction l as [|h t IH]; intros [|j]; simpl; try discriminate.
  - congruence.
  - apply IH.
Qed.

Lemma nth_error_update_at_neq (i j : nat) (x : A) (l : list A) :
  i <> j -> nth_error (update_at i x l) j = nth_error l j.
Proof.
  revert i j; induction l as [|h t IH]; intros [|i] [|j] Hij; simpl; auto;
    try congruence.
Qed.

Lemma nth_error_update_at_Some (i j : nat) (x y : A) (l : list A) :
  nth_error l j = Some y ->
  nth_error (update_at i x l) j = Some (if Nat.eqb i j then x else y).
Proof.
  revert i j; induction l as [|h t IH]; intros [|i] [|j]; simpl;
    try discriminate; auto.
Qed.

Lemma update_at_same (i : nat) (x : A) (l : list A) :
  nth_error l i = Some x -> update_at i x l = l.
Proof.
  revert i; induction l as [|h t IH]; intros [|j]; simpl; try discriminate.
  - congruence.
  - intros H; f_equal; auto.
Qed.

Lemma map_update_at {B : Type} (f : A -> B) (i : nat) (x : A) (l : list A) :
  map f (update_at i x l) = update_at i (f x) (map f l).
Proof.
  revert i; induction l as [|h t IH]; intros [|j]; simpl; auto.
  f_equal; apply IH.
Qed.

(** Positions paired with elements, as [combine (seq k n)] gives them. *)
Lemma in_combine_seq (k i : nat) (x : A) (l : list A) :
  In (i, x) (combine (seq k (List.length l)) l) <->
  k <= i /\ nth_error l (i - k) = Some x.
Proof.
  revert k; induction l as [|h t IH]; intros k; simpl.
  - split; [tauto|]. intros [_ H]. destruct (i - k); discriminate.
  - rewrite IH. split.
    + intros [H | [Hk H]].
      * inversion H; subst. rewrite Nat.sub_diag. split; [lia | reflexivity].
      * split; [lia|]. replace (i - k) with (S (i - S k)) by lia. exact H.
    + intros [Hk H]. destruct (Nat.eq_dec k i) as [->|Hne].
      * rewrite Nat.sub_diag in H. simpl in H. left; congruence.
      * right. split; [lia|].
        replace (i - k) with (S (i - S k)) in H by lia. exact H.
Qed.

End ListFacts.

Lemma bind_Ret {A B : Type} (m : result A) (k : A -> result B) (b : B) :
  Py.bind m k = Ret b -> exists a, m = Ret a /\ k a = Ret b.
Proof.
  destruct m as [a|e]; simpl; [eauto | discriminate].
Qed.

(* ------------------------------------------------------------------ *)
(** ** The push pass *)

Section PushFacts.

Context {W : Type} (client : NotionClient W).

Lemma select_dirty_spec (table : list ModelPlaceCard) (i : nat) (row : ModelPlaceCard) :
  In (i, row) (select_dirty table) <->
  nth_error table i = Some row /\ dirty row = true.
Proof.
  unfold select_dirty. rewrite filter_In, in_combine_seq. simpl.
  rewrite Nat.sub_0_r. intuition lia.
Qed.

(** The loop writes the flags only: the column [id_page] of the session
    stays what it is in the table. *)
Lemma push_rows_id_page (table : list ModelPlaceCard) (rows : list (nat * ModelPlaceCard)) :
  (forall i row, In (i, row) rows -> nth_error table i = Some row) ->
  forall session w w' session',
    map id_page session = map id_page table ->
    push_rows client rows session w = (w', Ret session') ->
    map id_page session' = map id_page table.
Proof.
  induction rows as [|[i row] rest IH]; intros Hrows session w w' session' Hs Hrun;
    simpl in Hrun.
  - congruence.
  - destruct (update_or_insert_row client (id_page row) (to_dict row) w)
      as [w1 [response|e]]; [|discriminate].
    assert (Hrest : forall j r, In (j, r) rest -> nth_error table j = Some r)
      by (intros; apply Hrows; right; assumption).
    destruct (isinstance_dict response).
    + eapply (IH Hrest); [|exact Hrun].
      rewrite map_update_at. simpl. rewrite Hs. apply update_at_same.
      rewrite nth_error_map, (Hrows i row (or_introl eq_refl)). reflexivity.
    + eapply (IH Hrest); eauto.
Qed.

(** A row the query did not select is not written. *)
Lemma push_rows_untouched (rows : list (nat * ModelPlaceCard)) (j : nat) :
  ~ In j (map fst rows) ->
  forall session w w' session',
    push_rows client rows session w = (w', Ret session') ->
    nth_error session' j = nth_error session j.
Proof.
  induction rows as [|[i row] rest IH]; intros Hj session w w' session' Hrun;
    simpl in Hrun.
  - congruence.
  - destruct (update_or_insert_row client (id_page row) (to_dict row) w)
      as [w1 [response|e]]; [|discriminate].
    simpl in Hj.
    destruct (isinstance_dict response).
    + rewrite (IH (fun H => Hj (or_intror H)) _ _ _ _ Hrun).
      apply nth_error_update_at_neq. intros ->. apply Hj. left; reflexivity.
    + apply (IH (fun H => Hj (or_intror H)) _ _ _ _ Hrun).
Qed.

Lemma push_clean_row_untouched (table : list ModelPlaceCard) (w : W)
      (j : nat) (row : ModelPlaceCard) :
  nth_error table j = Some row -> dirty row = false ->
  nth_error (table_after (_scheduled_task_to_Notion client table w)) j = Some row.
Proof.
  intros Hj Hclean. unfold _scheduled_task_to_Notion.
  destruct (push_rows client (select_dirty table) table w) as [w' [session|e]] eqn:Hrun;
    simpl; [|exact Hj].
  rewrite (fun H => push_rows_untouched _ j H _ _ _ _ Hrun); [exact Hj|].
  rewrite in_map_iff. intros [[i r] [Hi Hin]]. simpl in Hi; subst i.
  apply select_dirty_spec in Hin. destruct Hin as [Hr Hd]. congruence.
Qed.

(** A pass that met an exception has committed nothing. *)
Lemma push_error_commits_nothing (table : list ModelPlaceCard) (w : W) (e : exn) :
  logged_error (_scheduled_task_to_Notion client table w) = Some e ->
  table_after (_scheduled_task_to_Notion client table w) = table.
Proof.
  unfold _scheduled_task_to_Notion.
  destruct (push_rows client (select_dirty table) table w) as [w' [session|e']];
    simpl; [discriminate | reflexivity].
Qed.

Lemma select_dirty_clean (table : list ModelPlaceCard) :
  (forall j, clean_at table j) -> select_dirty table = [].
Proof.
  intros Hclean. unfold select_dirty.
  destruct (filter _ _) as [|[i row] rest] eqn:Hf; [reflexivity|].
  assert (Hin : In (i, row) (select_dirty table))
    by (unfold select_dirty; rewrite Hf; left; reflexivity).
  apply select_dirty_spec in Hin. destruct Hin as [Hrow Hdirty].
  rewrite (Hclean i row Hrow) in Hdirty. discriminate.
Qed.

Lemma clean_or_selected (table : list ModelPlaceCard) (j : nat) :
  clean_at table j \/ In j (map fst (select_dirty table)).
Proof.
  destruct (nth_error table j) as [r|] eqn:Hr.
  - destruct (dirty r) eqn:Hd.
    + right. apply in_map_iff. exists (j, r). split; [reflexivity|].
      apply select_dirty_spec. auto.
    + left. intros r' Hr'. congruence.
  - left. intros r' Hr'. congruence.
Qed.

(** A call whose message was logged has answered with a dict. *)
Lemma logged_Ret (answer : W * result pyval) (w' : W) (response : pyval) :
  logged answer = (w', Ret response) ->
  answer = (w', Ret response) /\ isinstance_dict response = true.
Proof.
  destruct answer as [w1 [r|e]]; simpl; [|discriminate].
  destruct r; simpl; try discriminate.
  intros H; inversion H; subst. split; reflexivity.
Qed.

(** An upsert that returns has answered with a dict, whatever the client. *)
Lemma upsert_answers_dict (row_id : pyval) (row_data : dict) (w w' : W)
      (response : pyval) :
  update_or_insert_row client row_id row_data w = (w', Ret response) ->
  isinstance_dict response = true.
Proof.
  unfold update_or_insert_row.
  destruct (read_all_rows client w) as [rows|e]; [|discriminate].
  destruct (existing_row rows row_id) as [existing|e]; [|discriminate].
  destruct (format_properties row_data) as [properties|e]; [|discriminate].
  destruct existing as [row|]; [destruct (truthy (PDict row))|];
    intros H; apply logged_Ret in H; tauto.
Qed.

(** A loop that completes has cleared every row it was given. *)
Lemma push_rows_clears (rows : list (nat * ModelPlaceCard)) :
  forall session w w' session',
    push_rows client rows session w = (w', Ret session') ->
    (forall j, clean_at session j \/ In j (map fst rows) -> clean_at session' j).
Proof.
  induction rows as [|[i row] rest IH]; intros session w w' session' Hrun;
    simpl in Hrun.
  - inversion Hrun; subst. intros j [H|[]]; exact H.
  - destruct (update_or_insert_row client (id_page row) (to_dict row) w)
      as [w1 [response|e]] eqn:Hup; [|discriminate].
    rewrite (upsert_answers_dict _ _ _ _ _ Hup) in Hrun.
    assert (Hclean := IH _ _ _ _ Hrun).
    intros j Hj. apply Hclean.
    destruct (Nat.eq_dec i j) as [->|Hij].
    + left. intros r Hr. apply nth_error_update_at_eq in Hr. subst r.
      reflexivity.
    + destruct Hj as [Hj|[Hj|Hj]]; [|simpl in Hj; congruence|right; exact Hj].
      left. intros r Hr. rewrite nth_error_update_at_neq in Hr by exact Hij.
      exact (Hj r Hr).
Qed.

(** The pass that completes leaves no push candidate, and the pass run
    again right after it is the same outcome with no row selected. *)
Lemma push_again_is_noop (table : list ModelPlaceCard) (w : W) :
  logged_error (_scheduled_task_to_Notion client table w) = None ->
  select_dirty (table_after (_scheduled_task_to_Notion client table w)) = [] /\
  _scheduled_task_to_Notion client
    (table_after (_scheduled_task_to_Notion client table w))
    (world_after (_scheduled_task_to_Notion client table w))
  = _scheduled_task_to_Notion client table w.
Proof.
  unfold _scheduled_task_to_Notion.
  destruct (push_rows client (select_dirty table) table w)
    as [w' [session|e]] eqn:Hrun; cbn [table_after world_after logged_error];
    [intros _|discriminate].
  assert (Hclean := push_rows_clears _ _ _ _ _ Hrun).
  assert (Hnone : select_dirty session = []).
  { apply select_dirty_clean. intros j. apply Hclean. apply clean_or_selected. }
  rewrite Hnone. split; reflexivity.
Qed.


(** C2, as the code has it: the push pass never assigns [id_page].  After
    any push pass, whatever the client answers, every row has the [id_page]
    it had before; a row pushed with an empty [id_page] keeps it empty, the
    identifier of the created page being only logged. *)
Theorem push_keeps_id_page (table : list ModelPlaceCard) (w : W) :
  map id_page (table_after (_scheduled_task_to_Notion client table w))
  = map id_page table.
Proof.
  unfold _scheduled_task_to_Notion.
  destruct (push_rows client (select_dirty table) table w) as [w' [session|e]] eqn:Hrun;
    simpl; [|reflexivity].
  eapply push_rows_id_page; [|reflexivity|exact Hrun].
  intros i row Hin. apply select_dirty_spec in Hin. tauto.
Qed.

End PushFacts.

(** C2 fails on the code: a saved row with an empty [id_page] is pushed, the
    service creates the page [page-0] and the flags are cleared, yet the
    row's [id_page] is still empty. *)
Lemma push_created_id_not_stored :
  logged_error (Mock.pushed_once [Mock.cafe] [] 0) = None /\
  map fst (Mock.pages (world_after (Mock.pushed_once [Mock.cafe] [] 0))) = ["page-0"] /\
  map dirty (table_after (Mock.pushed_once [Mock.cafe] [] 0)) = [false] /\
  map id_page (table_after (Mock.pushed_once [Mock.cafe] [] 0)) = [PStr EmptyString] /\
  map id_page (table_after (Mock.pushed_once [Mock.cafe] [] 0)) <> [PStr "page-0"].
Proof.
  vm_compute. repeat split. discriminate.
Qed.

(** C1 at its failing input: three saved rows, the second upsert raises.
    The pass logs the error and returns, but the third row is never
    attempted (two calls reached the service) and nothing is committed, so
    even the first row, whose page was created, keeps its flag. *)
Theorem push_exception_aborts_batch :
  logged_error (_scheduled_task_to_Notion Mock.mock_client Mock.three_saved
                  Mock.second_call_fails) = Some RequestError /\
  List.length (select_dirty Mock.three_saved) = 3 /\
  List.length (Mock.calls (world_after
     (_scheduled_task_to_Notion Mock.mock_client Mock.three_saved
        Mock.second_call_fails))) = 2 /\
  map fst (Mock.pages (world_after
     (_scheduled_task_to_Notion Mock.mock_client Mock.three_saved
        Mock.second_call_fails))) = ["page-0"] /\
  table_after (_scheduled_task_to_Notion Mock.mock_client Mock.three_saved
                 Mock.second_call_fails) = Mock.three_saved.
Proof.
  vm_compute. repeat split.
Qed.

(** The sibling path: an answer that is not a dict aborts the batch in the
    same way.  The message logged inside [update_or_insert_row] calls
    [response.get], which raises [AttributeError]; the branch of the loop
    for a response that is no dict is never reached. *)
Lemma push_garbled_answer_aborts_batch :
  logged_error (_scheduled_task_to_Notion Mock.mock_client Mock.three_saved
                  Mock.second_call_garbled) = Some AttributeError /\
  List.length (Mock.calls (world_after
     (_scheduled_task_to_Notion Mock.mock_client Mock.three_saved
        Mock.second_call_garbled))) = 2 /\
  table_after (_scheduled_task_to_Notion Mock.mock_client Mock.three_saved
                 Mock.second_call_garbled) = Mock.three_saved.
Proof.
  vm_compute. repeat split.
Qed.

(** C3 at its failing input: the page [p1] exists remotely, and its local
    mirror (edited), then [Bar Y] and [Spa Z] (saved, never pushed) are push
    candidates; the third call of the first pass raises.  That pass has
    updated [p1] and created [page-1] for [Bar Y], yet commits nothing, so
    the three rows are candidates again.  The second pass, with no local
    edit in between, updates [p1] in place and creates a page for [Bar Y] a
    second time: the remote database ends with four rows for three records,
    two of them for [Bar Y]. *)
Theorem push_retry_duplicates_created_page :
  List.length (select_dirty Mock.edited_and_saved) = 3 /\
  logged_error Mock.failed_once = Some RequestError /\
  map fst (Mock.pages (world_after Mock.failed_once)) = ["p1"; "page-1"] /\
  table_after Mock.failed_once = Mock.edited_and_saved /\
  logged_error Mock.retried = None /\
  select_dirty (table_after Mock.retried) = [] /\
  map fst (Mock.pages (world_after Mock.retried))
  = ["p1"; "page-1"; "page-2"; "page-3"] /\
  map (fun p => search_by_key (PDict (snd p)) "content")
      (Mock.pages (world_after Mock.retried))
  = [PStr "Cafe X"; PStr "Bar Y"; PStr "Bar Y"; PStr "Spa Z"].
Proof.
  vm_compute. repeat split.
Qed.

(* ------------------------------------------------------------------ *)
(** ** Two push passes against a service that does not fail *)

Section ReliableService.

Import Mock.

Lemma filter_app_length (l : list call) (c : call) :
  List.length (filter is_create (l ++ [c])) =
  List.length (filter is_create l) + (if is_create c then 1 else 0).
Proof.
  rewrite filter_app, length_app. simpl. destruct (is_create c); reflexivity.
Qed.

(** With no fault scripted an upsert that returns has answered with a
    page, was one call, and added a page exactly when it was a create. *)
Lemma upsert_reliable (row_id : pyval) (row_data : dict) (s s' : service)
      (response : pyval) :
  script s = [] ->
  update_or_insert_row mock_client row_id row_data s = (s', Ret response) ->
  script s' = [] /\ isinstance_dict response = true /\
  List.length (calls s') = S (List.length (calls s)) /\
  List.length (pages s') + creates s = List.length (pages s) + creates s'.
Proof.
  intros Hs. unfold update_or_insert_row, read_all_rows. simpl.
  destruct (existing_row (map page_dict (pages s)) row_id) as [existing|e];
    [|discriminate].
  destruct (format_properties row_data) as [properties|e]; [|discriminate].
  assert (Hcreate : mock_create properties s = (s', Ret response) ->
          script s' = [] /\ isinstance_dict response = true /\
          List.length (calls s') = S (List.length (calls s)) /\
          List.length (pages s') + creates s = List.length (pages s) + creates s').
  { unfold mock_create, next_fault, creates. rewrite Hs. intros H.
    inversion H; subst; clear H. simpl.
    rewrite filter_app_length, !length_app. simpl. repeat split; lia. }
  assert (Hupdate : mock_update row_id properties s = (s', Ret response) ->
          script s' = [] /\ isinstance_dict response = true /\
          List.length (calls s') = S (List.length (calls s)) /\
          List.length (pages s') + creates s = List.length (pages s) + creates s').
  { unfold mock_update, next_fault, creates. rewrite Hs. intros H.
    destruct (find_page row_id (update_page row_id properties (pages s)))
      as [p|] eqn:Hp; inversion H; subst; clear H. simpl.
    rewrite filter_app_length, length_app. simpl.
    assert (Hlen : forall ps, List.length (update_page row_id properties ps)
                              = List.length ps).
    { induction ps as [|q qs IH]; [reflexivity|]. cbn [update_page].
      destruct (py_eqb (PStr (fst q)) row_id); cbn [List.length]; congruence. }
    rewrite Hlen. repeat split; lia. }
  destruct existing as [[|item row]|]; simpl; intros H;
    apply logged_Ret in H; destruct H as [H _]; auto.
Qed.

(** The calls and the pages of a loop that completes: one call per
    selected row, one more page per create call. *)
Lemma push_rows_calls (rows : list (nat * ModelPlaceCard)) :
  forall session s s' session',
    script s = [] ->
    push_rows mock_client rows session s = (s', Ret session') ->
    List.length (calls s') = List.length (calls s) + List.length rows /\
    List.length (pages s') + creates s = List.length (pages s) + creates s'.
Proof.
  induction rows as [|[i row] rest IH]; intros session s s' session' Hs Hrun;
    simpl in Hrun.
  - inversion Hrun; subst. simpl. split; lia.
  - destruct (update_or_insert_row mock_client (id_page row) (to_dict row) s)
      as [s1 [response|e]] eqn:Hup; [|discriminate].
    destruct (upsert_reliable _ _ _ _ _ Hs Hup) as (Hs1 & Hdict & Hcalls & Hpages).
    rewrite Hdict in Hrun.
    destruct (IH _ _ _ _ Hs1 Hrun) as (Hcalls' & Hpages').
    simpl. split; lia.
Qed.

(** Where the first pass completes: against a service that does not fail,
    a push pass that completes has made one upsert call per selected row,
    the remote database has grown by exactly the pages those calls created,
    and no row is left a push candidate; so the pass run again selects
    nothing, calls nothing and leaves the table and the remote database as
    they are. *)
Lemma push_twice_after_completed_pass
        (table : list ModelPlaceCard) (ps : list (string * dict)) (n : nat) :
  logged_error (pushed_once table ps n) = None ->
  List.length (calls (world_after (pushed_once table ps n)))
  = List.length (select_dirty table) /\
  List.length (pages (world_after (pushed_once table ps n)))
  = List.length ps + creates (world_after (pushed_once table ps n)) /\
  select_dirty (table_after (pushed_once table ps n)) = [] /\
  table_after (pushed_twice table ps n) = table_after (pushed_once table ps n) /\
  calls (world_after (pushed_twice table ps n))
  = calls (world_after (pushed_once table ps n)) /\
  pages (world_after (pushed_twice table ps n))
  = pages (world_after (pushed_once table ps n)) /\
  logged_error (pushed_twice table ps n) = None.
Proof.
  intros Hok.
  assert (Hs : script (reliable ps n) = []) by reflexivity.
  destruct (push_again_is_noop mock_client table (reliable ps n) Hok)
    as [Hnone Hagain].
  fold (pushed_once table ps n) in Hnone, Hagain.
  fold (pushed_twice table ps n) in Hagain.
  rewrite Hagain. repeat split; try reflexivity; try exact Hnone; try exact Hok.
  - revert Hok. unfold pushed_once, _scheduled_task_to_Notion.
    destruct (push_rows mock_client (select_dirty table) table (reliable ps n))
      as [s' [session|e]] eqn:Hrun; simpl; [intros _|discriminate].
    destruct (push_rows_calls _ _ _ _ _ Hs Hrun) as [Hcalls _]. exact Hcalls.
  - revert Hok. unfold pushed_once, _scheduled_task_to_Notion.
    destruct (push_rows mock_client (select_dirty table) table (reliable ps n))
      as [s' [session|e]] eqn:Hrun; simpl; [intros _|discriminate].
    destruct (push_rows_calls _ _ _ _ _ Hs Hrun) as [_ Hpages].
    unfold creates in Hpages at 1. simpl in Hpages. lia.
Qed.

End ReliableService.

Lemma push_twice_after_completed_pass_witness :
  logged_error (Mock.pushed_once [Mock.cafe; Mock.bar] [] 0) = None /\
  Mock.pages (world_after (Mock.pushed_twice [Mock.cafe; Mock.bar] [] 0))
  = Mock.pages (world_after (Mock.pushed_once [Mock.cafe; Mock.bar] [] 0)).
Proof.
  split; [reflexivity|].
  apply (push_twice_after_completed_pass [Mock.cafe; Mock.bar] [] 0).
  reflexivity.
Defined.

(* ------------------------------------------------------------------ *)
(** ** The pull pass and the dirty flags *)

Lemma extends_refl (t : list ModelPlaceCard) : extends t t.
Proof.
  split.
  - intros i r H. exists r. auto.
  - intros i r' Hi H. apply nth_error_None in Hi. congruence.
Qed.

Lemma extends_trans (a b c : list ModelPlaceCard) :
  extends a b -> extends b c -> extends a c.
Proof.
  intros [Hab1 Hab2] [Hbc1 Hbc2]. split.
  - intros i r Ha. destruct (Hab1 i r Ha) as (rb & Hb & Hfb & Hub).
    destruct (Hbc1 i rb Hb) as (rc & Hc & Hfc & Huc).
    exists rc. split; [exact Hc|]. split; [congruence|].
    intros Hu. specialize (Hub Hu). subst rb. auto.
  - intros i r' Hi Hc. destruct (nth_error b i) as [rb|] eqn:Hb.
    + destruct (Hbc1 i rb Hb) as (rc & Hc' & Hfc & _).
      rewrite Hc in Hc'. inversion Hc'; subst rc.
      rewrite Hfc. apply (Hab2 i rb Hi Hb).
    + apply nth_error_None in Hb. apply (Hbc2 i r' Hb Hc).
Qed.

Section PullFacts.

Context {W : Type} (client : NotionClient W) (E : PyEnv).

Lemma first_from_spec (p : ModelPlaceCard -> bool) (table : list ModelPlaceCard) :
  forall i j r, first_from p i table = Some (j, r) ->
    i <= j /\ nth_error table (j - i) = Some r /\ p r = true.
Proof.
  induction table as [|row rest IH]; intros i j r H; simpl in H; [discriminate|].
  destruct (p row) eqn:Hp.
  - inversion H; subst. rewrite Nat.sub_diag. auto.
  - destruct (IH _ _ _ H) as (Hle & Hnth & Hr).
    split; [lia|]. split; [|exact Hr].
    replace (j - i) with (S (j - S i)) by lia. exact Hnth.
Qed.

Lemma query_first_spec (p : ModelPlaceCard -> bool) (table : list ModelPlaceCard)
      (j : nat) (r : ModelPlaceCard) :
  query_first p table = Some (j, r) -> nth_error table j = Some r /\ p r = true.
Proof.
  intros H. apply first_from_spec in H. rewrite Nat.sub_0_r in H. tauto.
Qed.

Lemma first_from_found (p : ModelPlaceCard -> bool) (table : list ModelPlaceCard)
      (r : ModelPlaceCard) :
  In r table -> p r = true -> forall i, first_from p i table <> None.
Proof.
  induction table as [|row rest IH]; intros Hin Hp i; simpl; [contradiction|].
  destruct (p row) eqn:Hrow; [discriminate|].
  destruct Hin as [->|Hin]; [congruence|]. apply IH; assumption.
Qed.

Lemma keeps_flags_bind (f g : ModelPlaceCard -> result ModelPlaceCard) :
  keeps_flags f -> keeps_flags g ->
  keeps_flags (fun c => Py.bind (f c) g).
Proof.
  intros Hf Hg c c' H. apply bind_Ret in H. destruct H as (c1 & H1 & H2).
  rewrite (Hg _ _ H2). apply (Hf _ _ H1).
Qed.

Lemma keeps_flags_on_key (key name : string)
      (body : ModelPlaceCard -> result ModelPlaceCard) :
  keeps_flags body -> keeps_flags (on_key key name body).
Proof.
  intros Hb c c' H. unfold on_key in H.
  destruct (String.eqb key name); [apply (Hb _ _ H)|]. congruence.
Qed.

Lemma keeps_flags_set (set : ModelPlaceCard -> ModelPlaceCard) :
  (forall c, flags (set c) = flags c) -> keeps_flags (fun c => Ret (set c)).
Proof.
  intros Hset c c' H. inversion H; subst. apply Hset.
Qed.

Lemma pull_location_keeps_flags (value : pyval) : keeps_flags (pull_location value).
Proof.
  intros c c' H. unfold pull_location in H.
  destruct (getitem value "select") as [select|e]; simpl in H; [|discriminate].
  destruct (truthy select).
  - destruct (getitem select "name") as [name|e]; simpl in H; [|discriminate].
    inversion H; subst. reflexivity.
  - inversion H; subst. reflexivity.
Qed.

Lemma pull_google_map_keeps_flags (value : pyval) :
  keeps_flags (pull_google_map E value).
Proof.
  intros c c' H. unfold pull_google_map in H.
  destruct (negb _); [|congruence].
  destruct (get_coordinates_from_attribute E _) as [[item|]|e]; simpl in H;
    [| |discriminate]; inversion H; subst; clear H;
    destruct (truthy _); reflexivity.
Qed.

Lemma pull_property_keeps_flags (key : string) (value : pyval) :
  keeps_flags (pull_property E key value).
Proof.
  unfold pull_property.
  repeat (apply keeps_flags_bind; [apply keeps_flags_on_key|]);
    try apply keeps_flags_on_key;
    try (apply keeps_flags_set; intros c; reflexivity).
  - apply pull_location_keeps_flags.
  - apply pull_google_map_keeps_flags.
Qed.

Lemma pull_properties_keeps_flags (properties : dict) :
  keeps_flags (pull_properties E properties).
Proof.
  induction properties as [|[key value] rest IH]; intros c c' H; simpl in H.
  - congruence.
  - apply bind_Ret in H. destruct H as (c1 & H1 & H2).
    rewrite (IH _ _ H2). apply (pull_property_keeps_flags _ _ _ _ H1).
Qed.

Lemma recover_coordinates_flags (c : ModelPlaceCard) :
  flags (recover_coordinates E c) = flags c.
Proof.
  unfold recover_coordinates.
  destruct (negb _ && _); [|reflexivity].
  destruct (get_coordinates_from_attribute E _) as [[item|]|e]; reflexivity.
Qed.

Lemma pull_items_flags (items : dict) :
  forall c added r, pull_items E items c added = Ret r -> flags (fst r) = flags c.
Proof.
  induction items as [|[keys values] rest IH]; intros c added r H; simpl in H.
  - inversion H; subst. reflexivity.
  - apply bind_Ret in H. destruct H as (c1 & H1 & H2).
    rewrite (IH _ _ _ H2), recover_coordinates_flags.
    destruct (String.eqb keys "properties").
    + apply bind_Ret in H1. destruct H1 as (props & _ & H1).
      rewrite (pull_properties_keeps_flags _ _ _ H1).
      destruct (String.eqb keys "id"); reflexivity.
    + inversion H1; subst. destruct (String.eqb keys "id"); reflexivity.
Qed.

Lemma pull_row_extends (num : dict) (session session' : list ModelPlaceCard) :
  pull_row E num session = Ret session' -> extends session session'.
Proof.
  unfold pull_row. intros H.
  apply bind_Ret in H. destruct H as (id & _ & H).
  destruct (query_first (fun r => sql_eqb (id_page r) id && is_updated r) session);
    [inversion H; subst; apply extends_refl|].
  apply bind_Ret in H. destruct H as (r & Hitems & H).
  apply pull_items_flags in Hitems.
  destruct (query_first (fun r => sql_eqb (id_page r) id && negb (is_updated r)) session)
    as [[j found]|] eqn:Hq.
  - apply query_first_spec in Hq. destruct Hq as [Hj Hp].
    apply andb_prop in Hp. destruct Hp as [_ Hu].
    apply negb_true_iff in Hu.
    inversion H; subst; clear H. split.
    + intros i r0 Hi. rewrite (nth_error_update_at_Some j i (fst r) r0 _ Hi).
      destruct (Nat.eqb_spec j i) as [->|Hne].
      * rewrite Hj in Hi. inversion Hi; subst r0.
        eexists; split; [reflexivity|]. split; [exact Hitems|]. congruence.
      * eexists; split; [reflexivity|]. auto.
    + intros i r' Hi Hr'. rewrite <- (update_at_length j (fst r)) in Hi.
      apply nth_error_None in Hi. congruence.
  - destruct (snd r); inversion H; subst; clear H; [|apply extends_refl]. split.
    + intros i r0 Hi. exists r0. split; [|auto].
      rewrite nth_error_app1; [exact Hi|]. apply nth_error_Some. congruence.
    + intros i r' Hi Hr'. rewrite nth_error_app2 in Hr' by exact Hi.
      destruct (i - List.length session) as [|k]; simpl in Hr';
        [|destruct k; discriminate].
      inversion Hr'; subst r'. exact Hitems.
Qed.

Lemma pull_rows_extends (rows : list dict) :
  forall session session',
    pull_rows E rows session = Ret session' -> extends session session'.
Proof.
  induction rows as [|num rest IH]; intros session session' H; simpl in H.
  - inversion H; subst. apply extends_refl.
  - apply bind_Ret in H. destruct H as (s1 & H1 & H2).
    eapply extends_trans; [eapply pull_row_extends; exact H1 | eauto].
Qed.

(** The row of a page is skipped as soon as some local row with that
    [id_page] has [is_updated] set. *)
Lemma pull_row_skips (num : dict) (id : pyval) (session : list ModelPlaceCard)
      (r : ModelPlaceCard) :
  getitem (PDict num) "id" = Ret id ->
  In r session -> sql_eqb (id_page r) id = true -> is_updated r = true ->
  pull_row E num session = Ret session.
Proof.
  intros Hid Hin Heq Hu. unfold pull_row. rewrite Hid. simpl.
  destruct (query_first (fun r0 => sql_eqb (id_page r0) id && is_updated r0) session)
    eqn:Hq; [reflexivity|].
  exfalso. revert Hq. unfold query_first.
  apply (first_from_found _ _ r Hin). rewrite Heq, Hu. reflexivity.
Qed.

Lemma pull_pass_extends (table : list ModelPlaceCard) (w : W) :
  extends table (table_after (_scheduled_task_from_Notion client E table w)).
Proof.
  unfold _scheduled_task_from_Notion.
  destruct (Py.bind _ _) as [session|e] eqn:H; simpl; [|apply extends_refl].
  apply bind_Ret in H. destruct H as (rows & _ & H).
  eapply pull_rows_extends; exact H.
Qed.

(** C4.  A local row whose [is_updated] flag is set is, after any pull
    pass, the row it was: no field of it is overwritten, whatever the
    remote rows hold. *)
Theorem pull_leaves_updated_rows (table : list ModelPlaceCard) (w : W)
        (i : nat) (r : ModelPlaceCard) :
  nth_error table i = Some r -> is_updated r = true ->
  nth_error (table_after (_scheduled_task_from_Notion client E table w)) i = Some r.
Proof.
  intros Hi Hu. destruct (pull_pass_extends table w) as [H _].
  destruct (H i r Hi) as (r' & Hr' & _ & Hsame). rewrite Hr'. f_equal. auto.
Qed.

(** The pass assigns neither flag.  A row found in the table after a pull
    pass either was there before, and then has the flags it had (and is
    either untouched or has [is_updated] off), or was created by the pass,
    and then has both flags off. *)
Lemma pull_never_sets_flag (table : list ModelPlaceCard) (w : W)
        (i : nat) (r' : ModelPlaceCard) :
  nth_error (table_after (_scheduled_task_from_Notion client E table w)) i = Some r' ->
  match nth_error table i with
  | Some r => is_new r' = is_new r /\ is_updated r' = is_updated r /\
              (r' = r \/ is_updated r' = false)
  | None => is_new r' = false /\ is_updated r' = false
  end.
Proof.
  intros Hr'. destruct (pull_pass_extends table w) as [Hold Hnew].
  destruct (nth_error table i) as [r|] eqn:Hi.
  - destruct (Hold i r Hi) as (r1 & Hr1 & Hf & Hsame).
    rewrite Hr' in Hr1. inversion Hr1; subst r1.
    assert (Hn := f_equal fst Hf). assert (Hu := f_equal snd Hf).
    simpl in Hn, Hu. split; [exact Hn|]. split; [exact Hu|].
    rewrite Hu. destruct (is_updated r); auto.
  - apply nth_error_None in Hi. specialize (Hnew i r' Hi Hr').
    split; [exact (f_equal fst Hnew) | exact (f_equal snd Hnew)].
Qed.

(** C10.  On a table where no row is marked new, every row a pull pass
    created or overwrote (a row of the table after the pass that is not the
    row that was at that position before) has [is_new] and [is_updated]
    off; hence a push candidate found after the pass is a row that was
    there, unchanged, before it: nothing pulled becomes a push candidate. *)
Theorem pull_touched_rows_are_clean (table : list ModelPlaceCard) (w : W)
        (i : nat) (r' : ModelPlaceCard) :
  none_new table ->
  nth_error (table_after (_scheduled_task_from_Notion client E table w)) i = Some r' ->
  (nth_error table i <> Some r' -> is_new r' = false /\ is_updated r' = false) /\
  (dirty r' = true -> nth_error table i = Some r').
Proof.
  intros Hnone Hr'. assert (H := pull_never_sets_flag table w i r' Hr').
  destruct (nth_error table i) as [r|] eqn:Hi.
  - destruct H as (Hn & Hu & Hcase).
    assert (Hnew : is_new r' = false).
    { rewrite Hn. apply Hnone. eapply nth_error_In. exact Hi. }
    split.
    + intros Hne. split; [exact Hnew|].
      destruct Hcase as [->|Hoff]; [congruence | exact Hoff].
    + unfold dirty. rewrite Hnew. simpl. intros Hd.
      destruct Hcase as [->|Hoff]; [reflexivity | congruence].
  - destruct H as [Hn Hu]. split; [auto|].
    unfold dirty. rewrite Hn, Hu. discriminate.
Qed.

End PullFacts.

Lemma pull_leaves_updated_rows_witness :
  nth_error [Mock.edited] 0 = Some Mock.edited /\ is_updated Mock.edited = true /\
  nth_error (table_after (_scheduled_task_from_Notion Mock.mock_client Mock.mock_env
                            [Mock.edited] Mock.renamed)) 0 = Some Mock.edited.
Proof.
  split; [reflexivity|]. split; [reflexivity|].
  apply (pull_leaves_updated_rows Mock.mock_client Mock.mock_env
           [Mock.edited] Mock.renamed 0 Mock.edited); reflexivity.
Defined.

Lemma pull_touched_rows_are_clean_witness :
  none_new [Mock.mirrored] /\
  nth_error (table_after (_scheduled_task_from_Notion Mock.mock_client Mock.mock_env
                            [Mock.mirrored] Mock.renamed)) 0
  = Some (set_Name (PStr "Cafe Remote") Mock.mirrored) /\
  (nth_error [Mock.mirrored] 0 <> Some (set_Name (PStr "Cafe Remote") Mock.mirrored) ->
   is_new (set_Name (PStr "Cafe Remote") Mock.mirrored) = false /\
   is_updated (set_Name (PStr "Cafe Remote") Mock.mirrored) = false).
Proof.
  assert (Hnone : none_new [Mock.mirrored]).
  { intros r [<-|[]]. reflexivity. }
  split; [exact Hnone|]. split; [reflexivity|].
  apply (pull_touched_rows_are_clean Mock.mock_client Mock.mock_env [Mock.mirrored]
           Mock.renamed 0 (set_Name (PStr "Cafe Remote") Mock.mirrored) Hnone).
  reflexivity.
Defined.

(* ------------------------------------------------------------------ *)
(** ** The translation of a row into document properties *)

(** What [to_dict] emits under each key: the eight mapped fields are
    emitted when they are populated. *)
Lemma to_dict_mapped_fields (self : ModelPlaceCard) :
  let emitted (v : pyval) := if truthy v then Some v else None in
  lookup "Name" (to_dict self) = emitted (Name self) /\
  lookup "Type" (to_dict self) = emitted (type self) /\
  lookup "Photo Google Drive" (to_dict self) = emitted (photo self) /\
  lookup "Google Map" (to_dict self) = emitted (google_map self) /\
  lookup "Phone Number" (to_dict self) = emitted (phone_number self) /\
  lookup "WhatsApp Number" (to_dict self) = emitted (whatsapp self) /\
  lookup "Hours of Operation" (to_dict self) = emitted (hours_of_operation self) /\
  lookup "Owner / Manager" (to_dict self) = emitted (manager_phone_number self).
Proof.
  unfold to_dict, put_if.
  destruct (truthy (Name self)), (truthy (type self)), (truthy (photo self)),
    (truthy (google_map self)), (truthy (phone_number self)),
    (truthy (whatsapp self)), (truthy (hours_of_operation self)),
    (truthy (manager_phone_number self)); repeat split; reflexivity.
Qed.

(** [Location] is emitted when the manager's phone number is populated,
    whatever [location] holds. *)
Lemma to_dict_Location (self : ModelPlaceCard) :
  lookup "Location" (to_dict self)
  = if truthy (manager_phone_number self) then Some (location self) else None.
Proof.
  unfold to_dict, put_if.
  destruct (truthy (Name self)), (truthy (type self)), (truthy (photo self)),
    (truthy (google_map self)), (truthy (phone_number self)),
    (truthy (whatsapp self)), (truthy (hours_of_operation self)),
    (truthy (manager_phone_number self)); reflexivity.
Qed.

(** The rule table of [format_property] on the keys [to_dict] emits. *)
Lemma format_property_table (value : pyval) :
  format_property "Name" value
  = Ret (PDict [("title", PList [PDict [("type", PStr "text");
                                        ("text", PDict [("content", value)])]])]) /\
  format_property "Photo Google Drive" value = Ret (PDict [("url", value)]) /\
  format_property "Google Map" value = Ret (PDict [("url", value)]) /\
  format_property "Type" value = Ret (PDict [("select", PDict [("name", value)])]) /\
  format_property "Phone Number" value = Ret (rich_text (PStr (str value))) /\
  format_property "WhatsApp Number" value = Ret (rich_text (PStr (str value))) /\
  format_property "Hours of Operation" value = Ret (rich_text (PStr (str value))) /\
  format_property "Owner / Manager" value = Ret (rich_text (PStr (str value))).
Proof.
  repeat split; reflexivity.
Qed.

(** C8 at its failing input: a row whose location is populated and whose
    manager's phone number is empty.  [to_dict] emits the name and no
    [Location], because the last test of [to_dict] is on
    [manager_phone_number]. *)
Theorem to_dict_drops_location :
  truthy (location Mock.beach_bar) = true /\
  truthy (manager_phone_number Mock.beach_bar) = false /\
  to_dict Mock.beach_bar = [("Name", PStr "Beach Bar")] /\
  lookup "Location" (to_dict Mock.beach_bar) = None.
Proof.
  repeat split; reflexivity.
Qed.

(* ------------------------------------------------------------------ *)
(** ** The coordinate resolver *)

(** C7 at its failing input: an expanded link (70 characters or more) whose
    [@] segment is [@abc].  The segment gives the one token [abc], and
    [float] of it raises out of the resolver. *)
Theorem resolver_raises_on_malformed_segment :
  Nat.ltb (String.length Mock.broken_link) 70 = false /\
  get_coordinates_from_link Mock.mock_env Mock.broken_link = Raise ValueError.
Proof.
  split; reflexivity.
Qed.

(** A single number after [@]: [coordinates[1]] raises. *)
Lemma resolver_raises_on_single_token :
  get_coordinates_from_link Mock.mock_env Mock.single_token_link = Raise IndexError.
Proof.
  reflexivity.
Qed.

(** A short link whose redirect cannot be followed: the request's
    exception leaves the resolver as well. *)
Lemma resolver_raises_on_failed_request :
  get_coordinates_from_link Mock.mock_env "https://maps.app.goo.gl/zzz"
  = Raise RequestError.
Proof.
  reflexivity.
Qed.

(** The first resolver call of the pull pass has no [try] of its own: one
    remote row with such a link makes the whole pass roll back. *)
Lemma pull_aborts_on_malformed_link :
  logged_error
    (_scheduled_task_from_Notion Mock.mock_client Mock.mock_env [Mock.mirrored]
       (Mock.remote [("Name", Mock.title_property "Cafe Remote");
                     ("Google Map", Mock.url_property (PStr Mock.broken_link))]))
  = Some ValueError /\
  table_after
    (_scheduled_task_from_Notion Mock.mock_client Mock.mock_env [Mock.mirrored]
       (Mock.remote [("Name", Mock.title_property "Cafe Remote");
                     ("Google Map", Mock.url_property (PStr Mock.broken_link))]))
  = [Mock.mirrored].
Proof.
  split; reflexivity.
Qed.

(** What the resolver does resolve. *)
Lemma resolver_resolves_links :
  get_coordinates_from_link Mock.mock_env Mock.long_link
  = Ret (Some (Mock.mkDecimal false "9" "748917", Mock.mkDecimal true "83" "753428")) /\
  get_coordinates_from_link Mock.mock_env Mock.short_link
  = get_coordinates_from_link Mock.mock_env Mock.long_link /\
  get_coordinates_from_link Mock.mock_env "maps.app.goo.gl/abcDEF" = Ret None.
Proof.
  repeat split; reflexivity.
Qed.

(* ------------------------------------------------------------------ *)
(** ** Creation of a row by the bot *)

(** C9 fails on the code: the row created for a name not found has
    [is_new] off. *)
Lemma lookup_miss_row_has_is_new_off :
  handle_company_name "Cafe X" []
  = ([inserted (set_Name (PStr "Cafe X") new_card)],
     CompanyCreated (inserted (set_Name (PStr "Cafe X") new_card))) /\
  is_new (inserted (set_Name (PStr "Cafe X") new_card)) = false /\
  is_new (inserted (set_Name (PStr "Cafe X") new_card)) <> true.
Proof.
  repeat split. discriminate.
Qed.

(** C9, as the code has it.  The row created by a look-up miss is appended
    to the table with the searched name and with [is_new] and [is_updated]
    off, the column defaults; a push pass right after leaves it as it is
    (it is no push candidate), and after a pull pass its [is_new] is still
    off. *)
Theorem lookup_miss_row_is_not_new
        (company_name : string) (table table' : list ModelPlaceCard)
        (company : ModelPlaceCard) :
  handle_company_name company_name table = (table', CompanyCreated company) ->
  table' = (table ++ [company])%list /\
  Name company = PStr company_name /\
  is_new company = false /\ is_updated company = false /\
  (forall (W : Type) (client : NotionClient W) (w : W),
     nth_error (table_after (_scheduled_task_to_Notion client table' w))
               (List.length table) = Some company) /\
  (forall (W : Type) (client : NotionClient W) (E : PyEnv) (w : W),
     option_map is_new
       (nth_error (table_after (_scheduled_task_from_Notion client E table' w))
                  (List.length table)) = Some false).
Proof.
  unfold handle_company_name. intros H.
  destruct (negb (validate_name company_name)); [discriminate|].
  destruct (_ && _); [discriminate|].
  destruct (filter _ table); [|discriminate].
  inversion H; subst; clear H.
  assert (Hnth : nth_error (table ++ [inserted (set_Name (PStr company_name) new_card)])
                           (List.length table)
                 = Some (inserted (set_Name (PStr company_name) new_card))).
  { rewrite nth_error_app2, Nat.sub_diag by lia. reflexivity. }
  repeat split.
  - intros W client w. apply push_clean_row_untouched; [exact Hnth | reflexivity].
  - intros W client E w.
    destruct (pull_pass_extends client E
                (table ++ [inserted (set_Name (PStr company_name) new_card)])%list w)
      as [Hold _].
    destruct (Hold _ _ Hnth) as (r' & Hr' & Hf & _).
    rewrite Hr'. simpl. f_equal. exact (f_equal fst Hf).
Qed.

Lemma lookup_miss_row_is_not_new_witness :
  handle_company_name "Cafe X" [Mock.bar]
  = ([Mock.bar; inserted (set_Name (PStr "Cafe X") new_card)],
     CompanyCreated (inserted (set_Name (PStr "Cafe X") new_card))) /\
  is_new (inserted (set_Name (PStr "Cafe X") new_card)) = false.
Proof.
  split; [reflexivity|].
  apply (lookup_miss_row_is_not_new "Cafe X" [Mock.bar]
           [Mock.bar; inserted (set_Name (PStr "Cafe X") new_card)]
           (inserted (set_Name (PStr "Cafe X") new_card))).
  reflexivity.
Defined.

(* ------------------------------------------------------------------ *)
(** ** Extraction of a leaf from a property *)

Lemma recursive_search_absent (key : string) (d : pyval) :
  key_occurs key d = false -> recursive_search d key = [].
Proof.
  induction d as [| | | |xs IH|items IH] using pyval_nested_ind; try reflexivity.
  - induction IH as [|x l Hx _ IHl]; intros Hocc; [reflexivity|].
    cbn [key_occurs] in Hocc. apply orb_false_elim in Hocc. destruct Hocc as [H1 H2].
    cbn [recursive_search]. fold (recursive_search x key).
    rewrite (Hx H1). apply IHl. exact H2.
  - induction IH as [|[k v] l Hv _ IHl]; intros Hocc; [reflexivity|].
    cbn [key_occurs] in Hocc. apply orb_false_elim in Hocc. destruct Hocc as [H12 H3].
    apply orb_false_elim in H12. destruct H12 as [H1 H2].
    cbn [recursive_search]. rewrite H1.
    change ((match v with
             | PDict _ | PList _ => recursive_search v key
             | _ => []
             end ++ recursive_search (PDict l) key)%list = []).
    rewrite (IHl H3), app_nil_r. simpl in Hv. specialize (Hv H2).
    destruct v; try reflexivity; exact Hv.
Qed.

(** No value is found when the key occurs nowhere. *)
Lemma search_by_key_absent (key : string) (d : pyval) :
  key_occurs key d = false -> search_by_key d key = PNone.
Proof.
  intros H. unfold search_by_key. rewrite (recursive_search_absent _ _ H).
  reflexivity.
Qed.

(** C5, as the code has it.  For each mapped field, when the searched leaf
    key occurs nowhere in the property, the extraction yields [None] and
    the pull pass assigns that [None] to the attribute: the field is
    overwritten, its previous value is not kept. *)
Theorem pull_assigns_None_when_leaf_absent
        (E : PyEnv) (f : mapped_field) (value : pyval) (card : ModelPlaceCard) :
  key_occurs (leaf_key f) value = false ->
  search_by_key value (leaf_key f) = PNone /\
  pull_property E (property_name f) value card = Ret (assign f PNone card) /\
  attribute f (assign f PNone card) = PNone.
Proof.
  intros H. apply search_by_key_absent in H. split; [exact H|].
  split; [|destruct f; reflexivity].
  destruct f; simpl in H; unfold pull_property, on_key; simpl; rewrite H;
    reflexivity.
Qed.

Lemma pull_assigns_None_when_leaf_absent_witness :
  key_occurs "plain_text" Mock.empty_title = false /\
  pull_property Mock.mock_env "Name" Mock.empty_title Mock.mirrored
  = Ret (set_Name PNone Mock.mirrored).
Proof.
  split; [reflexivity|].
  apply (pull_assigns_None_when_leaf_absent Mock.mock_env FName Mock.empty_title
           Mock.mirrored).
  reflexivity.
Defined.

(** C5 fails on the code: the local mirror of the page [p1] is named
    [Cafe X]; the page's [Name] property holds no [plain_text] anywhere;
    after the pull pass the row's name is [None]. *)
Lemma pull_clears_name_when_plain_text_absent :
  key_occurs "plain_text" Mock.empty_title = false /\
  Name Mock.mirrored = PStr "Cafe X" /\
  table_after (_scheduled_task_from_Notion Mock.mock_client Mock.mock_env
                 [Mock.mirrored] (Mock.remote [("Name", Mock.empty_title)]))
  = [set_Name PNone Mock.mirrored] /\
  Name (set_Name PNone Mock.mirrored) <> Name Mock.mirrored.
Proof.
  repeat split. discriminate.
Qed.

(* ------------------------------------------------------------------ *)
(** ** The text stored for resolved coordinates *)

Lemma string_length_append (a b : string) :
  String.length (a ++ b) = String.length a + String.length b.
Proof.
  induction a as [|c a IH]; simpl; [reflexivity | now rewrite IH].
Qed.

Lemma string_append_assoc (a b c : string) : (a ++ b) ++ c = a ++ (b ++ c).
Proof.
  induction a as [|x a IH]; simpl; [reflexivity | now rewrite IH].
Qed.

Lemma substring_0_append (a b : string) :
  String.substring 0 (String.length a) (a ++ b) = a.
Proof.
  induction a as [|c a IH]; simpl.
  - destruct b; reflexivity.
  - now rewrite IH.
Qed.

Lemma but_last_snoc (s : string) :
  s <> EmptyString -> exists c, s = but_last s ++ String c EmptyString.
Proof.
  induction s as [|c t IH]; intros Hs; [congruence|].
  destruct t as [|c' t'].
  - exists c. reflexivity.
  - destruct IH as [z Hz]; [discriminate|]. exists z.
    change (but_last (String c (String c' t')))
      with (String c (but_last (String c' t'))).
    cbn [String.append]. f_equal. exact Hz.
Qed.

(** [("(" + t)[1:-2]] is [t] without its last two characters. *)
Lemma slice_1_minus_2 (t : string) (n : nat) :
  String.length t = n + 2 ->
  slice (String "(" t) 1 (-2) = String.substring 0 n t.
Proof.
  intros Hlen. unfold slice, clamp_index.
  cbn [String.length]. rewrite Hlen.
  change (Z.ltb 1 0) with false. change (Z.ltb (-2) 0) with true. cbv iota.
  replace (Z.to_nat (Z.max 0 (Z.min (Z.of_nat (S (n + 2))) 1))) with 1 by lia.
  replace (Z.to_nat (Z.max 0 (Z.min (Z.of_nat (S (n + 2))) (-2 + Z.of_nat (S (n + 2))))
                     - Z.max 0 (Z.min (Z.of_nat (S (n + 2))) 1)))
    with n by lia.
  reflexivity.
Qed.

(** The text kept of [str((lat, lon))]: [lat], a comma, a space, and [lon]
    without its last character. *)
Lemma coordinates_text_shape (E : PyEnv) (item : pyfloat E * pyfloat E) :
  coordinates_text E item
  = float_repr E (fst item) ++ ", " ++ but_last (float_repr E (snd item)).
Proof.
  unfold coordinates_text, str_pair.
  destruct (but_last_snoc _ (float_repr_nonempty E (snd item))) as [c Hc].
  set (a := float_repr E (fst item)). set (b := float_repr E (snd item)) in *.
  set (b0 := but_last b) in *.
  change ("(" ++ a ++ ", " ++ b ++ ")") with (String "(" (a ++ ", " ++ b ++ ")")).
  rewrite (slice_1_minus_2 _ (String.length (a ++ ", " ++ b0))).
  - rewrite Hc.
    replace (a ++ ", " ++ (b0 ++ String c EmptyString) ++ ")")
      with ((a ++ ", " ++ b0) ++ String c ")").
    + apply substring_0_append.
    + rewrite !string_append_assoc. reflexivity.
  - rewrite Hc. repeat (rewrite string_length_append; cbn [String.length]).
    lia.
Qed.

(** Both resolved branches of the pull pass run that statement. *)
Lemma pull_google_map_resolved (E : PyEnv) (value : pyval) (card : ModelPlaceCard)
      (item : pyfloat E * pyfloat E) :
  py_eqb (google_map card) (search_by_key value "url") = false ->
  truthy (search_by_key value "url") = true ->
  get_coordinates_from_attribute E (search_by_key value "url") = Ret (Some item) ->
  pull_google_map E value card
  = Ret (store_coordinates E item (set_google_map (search_by_key value "url") card)).
Proof.
  intros Hne Ht Hres. unfold pull_google_map. rewrite Hne, Ht. simpl.
  rewrite Hres. reflexivity.
Qed.

Lemma recover_coordinates_resolved (E : PyEnv) (card : ModelPlaceCard)
      (item : pyfloat E * pyfloat E) :
  truthy (coordinates card) = false -> truthy (google_map card) = true ->
  get_coordinates_from_attribute E (google_map card) = Ret (Some item) ->
  recover_coordinates E card = store_coordinates E item card.
Proof.
  intros Hc Hg Hres. unfold recover_coordinates. rewrite Hc, Hg, Hres. reflexivity.
Qed.

(** Whatever the environment renders floats as, a changed map link that
    resolves to [(lat, lon)] leaves, in the [Google Map] branch of the pull
    pass, the link in [google_map] and in [coordinates] exactly the
    rendering of [lat], a comma, a space, and the rendering of [lon] without
    its last character. *)
Theorem pull_resolved_link_stores_cut_text
        (E : PyEnv) (value : pyval) (card : ModelPlaceCard)
        (item : pyfloat E * pyfloat E) :
  py_eqb (google_map card) (search_by_key value "url") = false ->
  truthy (search_by_key value "url") = true ->
  get_coordinates_from_attribute E (search_by_key value "url") = Ret (Some item) ->
  exists card',
    pull_google_map E value card = Ret card' /\
    google_map card' = search_by_key value "url" /\
    coordinates card'
    = PStr (float_repr E (fst item) ++ ", " ++ but_last (float_repr E (snd item))).
Proof.
  intros Hne Ht Hres.
  exists (store_coordinates E item (set_google_map (search_by_key value "url") card)).
  split; [apply pull_google_map_resolved; assumption|].
  split; [reflexivity|].
  unfold store_coordinates. simpl. now rewrite coordinates_text_shape.
Qed.

Lemma pull_resolved_link_stores_cut_text_witness :
  get_coordinates_from_attribute Mock.mock_env
    (search_by_key (Mock.url_property (PStr Mock.long_link)) "url")
  = Ret (Some (Mock.mkDecimal false "9" "748917", Mock.mkDecimal true "83" "753428")) /\
  exists card',
    pull_google_map Mock.mock_env (Mock.url_property (PStr Mock.long_link))
                    Mock.mirrored_blank = Ret card' /\
    google_map card' = search_by_key (Mock.url_property (PStr Mock.long_link)) "url" /\
    coordinates card' = PStr ("9.748917" ++ ", " ++ but_last "-83.753428").
Proof.
  split; [reflexivity|].
  apply (pull_resolved_link_stores_cut_text Mock.mock_env
           (Mock.url_property (PStr Mock.long_link)) Mock.mirrored_blank
           (Mock.mkDecimal false "9" "748917", Mock.mkDecimal true "83" "753428"));
    reflexivity.
Defined.

(** C6 at its failing input: the page [p1] carries a map link that resolves
    to [(9.748917, -83.753428)]; the row the pull pass creates holds the
    text with a space after the comma and without the last digit of the
    longitude, not the text [9.748917,-83.753428]. *)
Theorem pull_stores_truncated_coordinates :
  get_coordinates_from_link Mock.mock_env Mock.long_link
  = Ret (Some (Mock.mkDecimal false "9" "748917", Mock.mkDecimal true "83" "753428")) /\
  Mock.decimal_repr (Mock.mkDecimal false "9" "748917") = "9.748917" /\
  Mock.decimal_repr (Mock.mkDecimal true "83" "753428") = "-83.753428" /\
  map coordinates
      (table_after (_scheduled_task_from_Notion Mock.mock_client Mock.mock_env []
                      (Mock.remote [("Google Map",
                                     Mock.url_property (PStr Mock.long_link))])))
  = [PStr "9.748917, -83.75342"] /\
  PStr "9.748917, -83.75342" <> PStr "9.748917,-83.753428".
Proof.
  repeat split. discriminate.
Qed.

(* ------------------------------------------------------------------ *)
(** ** More on [search_by_key] *)

Lemma recursive_search_occurs (key : string) (d : pyval) :
  key_occurs key d = true -> recursive_search d key <> [].
Proof.
  induction d as [| | | |xs IH|items IH] using pyval_nested_ind;
    try (intros H; discriminate H).
  - induction IH as [|x l Hx _ IHl]; intros Hocc; [discriminate Hocc|].
    cbn [key_occurs] in Hocc. cbn [recursive_search].
    fold (recursive_search x key).
    apply orb_true_iff in Hocc. destruct Hocc as [H1|H2].
    + specialize (Hx H1). intros Habs. apply app_eq_nil in Habs. tauto.
    + specialize (IHl H2). intros Habs. apply app_eq_nil in Habs.
      destruct Habs as [_ Habs]. apply IHl. exact Habs.
  - induction IH as [|[k v] l Hv _ IHl]; intros Hocc; [discriminate Hocc|].
    cbn [key_occurs] in Hocc. cbn [recursive_search].
    change ((if String.eqb k key then [v] else []) ++
            (match v with
             | PDict _ | PList _ => recursive_search v key
             | _ => []
             end ++ recursive_search (PDict l) key) <> [])%list.
    apply orb_true_iff in Hocc. destruct Hocc as [H12|H3].
    + apply orb_true_iff in H12. destruct H12 as [H1|H2].
      * rewrite H1. discriminate.
      * simpl in Hv. specialize (Hv H2). intros Habs.
        apply app_eq_nil in Habs. destruct Habs as [_ Habs].
        apply app_eq_nil in Habs. destruct Habs as [Habs _].
        destruct v; try discriminate H2; apply Hv; exact Habs.
    + specialize (IHl H3). intros Habs.
      apply app_eq_nil in Habs. destruct Habs as [_ Habs].
      apply app_eq_nil in Habs. destruct Habs as [_ Habs]. apply IHl. exact Habs.
Qed.

(** [search_by_key] has a result to return exactly when the key is a key
    of the value or of a dict nested in it. *)
Theorem search_finds_iff_key_occurs (key : string) (d : pyval) :
  recursive_search d key = [] <-> key_occurs key d = false.
Proof.
  split.
  - intros H. destruct (key_occurs key d) eqn:Hocc; [|reflexivity].
    exfalso. exact (recursive_search_occurs key d Hocc H).
  - apply recursive_search_absent.
Qed.

(** On a dict whose values hold the key nowhere, [search_by_key] is the
    plain look-up [d.get(key)]. *)
Theorem search_by_key_flat (key : string) (items : dict) :
  (forall k v, In (k, v) items -> key_occurs key v = false) ->
  search_by_key (PDict items) key
  = match lookup key items with
    | Some v => v
    | None => PNone
    end.
Proof.
  unfold search_by_key. induction items as [|[k v] rest IH]; intros Hflat;
    [reflexivity|].
  cbn [recursive_search lookup].
  change ((fix for_items (l : list (string * pyval)) : list pyval :=
             match l with
             | [] => []
             | (k0, v0) :: rest0 =>
                 ((if String.eqb k0 key then [v0] else []) ++
                  (match v0 with
                   | PDict _ | PList _ => recursive_search v0 key
                   | _ => []
                   end) ++ for_items rest0)%list
             end) rest)
    with (recursive_search (PDict rest) key).
  assert (Hv : match v with
               | PDict _ | PList _ => recursive_search v key
               | _ => []
               end = []).
  { assert (H := recursive_search_absent key v (Hflat k v (or_introl eq_refl))).
    destruct v; try reflexivity; exact H. }
  rewrite Hv. destruct (String.eqb k key); [reflexivity|].
  simpl app. apply IH. intros k' v' Hin. apply (Hflat k' v'). right. exact Hin.
Qed.

Lemma search_by_key_flat_witness :
  search_by_key (PDict [("id", PStr "x"); ("url", PStr "u")]) "url" = PStr "u".
Proof.
  apply (search_by_key_flat "url" [("id", PStr "x"); ("url", PStr "u")]).
  intros k v [H|[H|[]]]; inversion H; reflexivity.
Defined.

(** What [format_property] writes for a url, a select or a number property
    is read back by the extraction the pull pass uses for it. *)
Theorem format_then_search_round_trip (value : pyval) (n : Z) :
  Py.bind (format_property "Photo Google Drive" value)
          (fun p => Ret (search_by_key p "url")) = Ret value /\
  Py.bind (format_property "Google Map" value)
          (fun p => Ret (search_by_key p "url")) = Ret value /\
  Py.bind (format_property "Type" value)
          (fun p => Ret (search_by_key p "name")) = Ret value /\
  Py.bind (format_property "ID" (PInt n))
          (fun p => Ret (search_by_key p "number")) = Ret (PInt n).
Proof.
  repeat split; reflexivity.
Qed.

(** What [format_property] writes for a text ([Name] and the rich-text
    columns) holds no [plain_text]: read back as it was written, the
    extraction of the pull pass finds nothing. *)
Theorem format_text_has_no_plain_text (column_name s : string) :
  In column_name ["Name"; "Phone Number"; "WhatsApp Number";
                  "Hours of Operation"; "Owner / Manager"; "Location"] ->
  exists p, format_property column_name (PStr s) = Ret p /\
            key_occurs "plain_text" p = false /\
            search_by_key p "plain_text" = PNone.
Proof.
  intros Hin. simpl in Hin.
  repeat (destruct Hin as [<-|Hin]; [eexists; repeat split; reflexivity|]).
  contradiction.
Qed.

Lemma format_text_has_no_plain_text_witness :
  In "Name" ["Name"; "Phone Number"; "WhatsApp Number";
             "Hours of Operation"; "Owner / Manager"; "Location"] /\
  exists p, format_property "Name" (PStr "Cafe X") = Ret p /\
            key_occurs "plain_text" p = false /\
            search_by_key p "plain_text" = PNone.
Proof.
  split; [simpl; auto|].
  apply (format_text_has_no_plain_text "Name" "Cafe X"). simpl. auto.
Defined.

(* ------------------------------------------------------------------ *)
(** ** More on [to_dict] and [format_property] *)

Lemma to_dict_filter (self : ModelPlaceCard) :
  to_dict self = map snd (filter (fun e => truthy (fst e)) (to_dict_entries self)).
Proof.
  unfold to_dict, put_if, to_dict_entries. cbn [filter fst snd map].
  destruct (truthy (Name self)), (truthy (type self)), (truthy (photo self)),
    (truthy (google_map self)), (truthy (phone_number self)),
    (truthy (whatsapp self)), (truthy (hours_of_operation self)),
    (truthy (manager_phone_number self)); reflexivity.
Qed.

Lemma NoDup_map_filter {Entry Key : Type} (key : Entry -> Key)
      (keep : Entry -> bool) (entries : list Entry)
      (Hdistinct : NoDup (map key entries)) :
  NoDup (map key (filter keep entries)).
Proof.
  induction entries as [|x l IH]; simpl in *; [constructor|].
  inversion Hdistinct as [|y ys Hnotin Hnodup]; subst.
  destruct (keep x); simpl; [|auto].
  constructor; [|auto]. intros Hin. apply Hnotin.
  apply in_map_iff in Hin. destruct Hin as (z & Hz & Hzin).
  apply filter_In in Hzin. apply in_map_iff. exists z. tauto.
Qed.

(** The property bag [to_dict] builds has pairwise distinct keys, and each
    of its items has one of the nine emitted columns as key and, unless the
    key is [Location], a populated value; the identifiers, the coordinates
    and the flags are never part of it. *)
Theorem to_dict_keys_and_values (self : ModelPlaceCard) (k : string) (v : pyval) :
  In (k, v) (to_dict self) ->
  NoDup (map fst (to_dict self)) /\
  In k emitted_columns /\ (k = "Location" \/ truthy v = true).
Proof.
  rewrite to_dict_filter. intros Hin. split.
  - rewrite map_map. apply NoDup_map_filter. unfold to_dict_entries. simpl.
    repeat (constructor; [simpl; intuition discriminate|]). constructor.
  - apply in_map_iff in Hin. destruct Hin as (e & He & Hin).
    apply filter_In in Hin. destruct Hin as [Hin Ht].
    unfold to_dict_entries in Hin. simpl in Hin.
    do 8 (destruct Hin as [<-|Hin];
          [simpl in He, Ht; inversion He; subst; split;
           [simpl; tauto | right; exact Ht]|]).
    destruct Hin as [<-|[]]. simpl in He. inversion He; subst.
    split; [simpl; tauto | left; reflexivity].
Qed.

Lemma to_dict_keys_and_values_witness :
  In ("Name", PStr "Beach Bar") (to_dict Mock.beach_bar) /\
  NoDup (map fst (to_dict Mock.beach_bar)) /\
  In "Name" emitted_columns /\
  ("Name" = "Location" \/ truthy (PStr "Beach Bar") = true).
Proof.
  split; [left; reflexivity|].
  apply (to_dict_keys_and_values Mock.beach_bar "Name" (PStr "Beach Bar")).
  left; reflexivity.
Defined.

(** [to_dict] is empty exactly when none of the eight tested fields is
    populated: such a row is pushed as a page without properties. *)
Theorem to_dict_empty_iff (self : ModelPlaceCard) :
  to_dict self = [] <->
  truthy (Name self) = false /\ truthy (type self) = false /\
  truthy (photo self) = false /\ truthy (google_map self) = false /\
  truthy (phone_number self) = false /\ truthy (whatsapp self) = false /\
  truthy (hours_of_operation self) = false /\
  truthy (manager_phone_number self) = false.
Proof.
  unfold to_dict, put_if.
  destruct (truthy (Name self)), (truthy (type self)), (truthy (photo self)),
    (truthy (google_map self)), (truthy (phone_number self)),
    (truthy (whatsapp self)), (truthy (hours_of_operation self)),
    (truthy (manager_phone_number self)); simpl;
    split; intros H; try discriminate H; try reflexivity;
    try (repeat split; reflexivity);
    try (decompose [and] H; discriminate).
Qed.

Lemma named_column_rule (column_name : string) (value : pyval) :
  named_column column_name = true -> exists p, format_property column_name value = Ret p.
Proof.
  unfold named_column, format_property. simpl.
  destruct (String.eqb column_name "Name"); [intros _; eexists; reflexivity|].
  destruct (String.eqb column_name "Photo Google Drive");
    [intros _; eexists; reflexivity|].
  destruct (String.eqb column_name "Google Map"); [intros _; eexists; reflexivity|].
  destruct (String.eqb column_name "Type"); [intros _; eexists; reflexivity|].
  destruct (String.eqb column_name "Phone Number"); [intros _; eexists; reflexivity|].
  destruct (String.eqb column_name "WhatsApp Number");
    [intros _; eexists; reflexivity|].
  destruct (String.eqb column_name "Hours of Operation");
    [intros _; eexists; reflexivity|].
  destruct (String.eqb column_name "Owner / Manager");
    [intros _; eexists; reflexivity|].
  simpl. discriminate.
Qed.

(** [format_property] raises in one case only: a dict value without a
    [name] under a column it has no rule for; the exception is then
    [KeyError]. *)
Theorem format_property_raises_iff (column_name : string) (value : pyval) (e : exn) :
  format_property column_name value = Raise e <->
  e = KeyError /\ named_column column_name = false /\
  exists items, value = PDict items /\ lookup "name" items = None.
Proof.
  destruct (named_column column_name) eqn:Hnamed.
  - destruct (named_column_rule column_name value Hnamed) as [p Hp]. rewrite Hp.
    split; [discriminate | intros (_ & H & _); discriminate H].
  - unfold named_column in Hnamed. simpl in Hnamed.
    unfold format_property.
    destruct (String.eqb column_name "Name"); [discriminate Hnamed|].
    destruct (String.eqb column_name "Photo Google Drive"); [discriminate Hnamed|].
    destruct (String.eqb column_name "Google Map"); [discriminate Hnamed|].
    destruct (String.eqb column_name "Type"); [discriminate Hnamed|].
    destruct (String.eqb column_name "Phone Number"); [discriminate Hnamed|].
    destruct (String.eqb column_name "WhatsApp Number"); [discriminate Hnamed|].
    destruct (String.eqb column_name "Hours of Operation"); [discriminate Hnamed|].
    destruct (String.eqb column_name "Owner / Manager"); [discriminate Hnamed|].
    simpl.
    destruct value as [| | | | |items];
      try (split; [discriminate | intros (_ & _ & items' & H & _); discriminate H]).
    unfold getitem. destruct (lookup "name" items) as [name|] eqn:Hname; simpl.
    + split; [discriminate|].
      intros (_ & _ & items' & H & Hnone). inversion H; subst. congruence.
    + split.
      * intros H. inversion H. repeat split. eauto.
      * intros (-> & _). reflexivity.
Qed.

Lemma format_properties_total (row_data : dict) :
  (forall k v, In (k, v) row_data -> exists p, format_property k v = Ret p) ->
  exists properties, format_properties row_data = Ret properties /\
                     map fst properties = map fst row_data.
Proof.
  induction row_data as [|[k v] rest IH]; intros H; simpl.
  - exists []. auto.
  - destruct (H k v (or_introl eq_refl)) as [p Hp]. rewrite Hp. simpl.
    destruct IH as (ps & Hps & Hkeys); [intros; apply (H k0 v0); right; assumption|].
    rewrite Hps. simpl. eexists. split; [reflexivity|]. simpl. congruence.
Qed.

(** The properties of a row whose [location] is no dict are all formatted:
    [update_or_insert_row] does not fail on the row's own data, and sends
    one property for each key of [to_dict]. *)
Theorem format_properties_of_row (self : ModelPlaceCard) :
  isinstance_dict (location self) = false ->
  exists properties,
    format_properties (to_dict self) = Ret properties /\
    map fst properties = map fst (to_dict self).
Proof.
  intros Hloc. apply format_properties_total.
  intros k v Hin. rewrite to_dict_filter in Hin.
  apply in_map_iff in Hin. destruct Hin as (e & He & Hin).
  apply filter_In in Hin. destruct Hin as [Hin _].
  unfold to_dict_entries in Hin. simpl in Hin.
  do 8 (destruct Hin as [<-|Hin];
        [simpl in He; inversion He; subst; apply named_column_rule; reflexivity|]).
  destruct Hin as [<-|[]]. simpl in He. inversion He; subst.
  destruct (location self); try discriminate Hloc; eexists; reflexivity.
Qed.

Lemma format_properties_of_row_witness :
  isinstance_dict (location Mock.beach_bar) = false /\
  exists properties,
    format_properties (to_dict Mock.beach_bar) = Ret properties /\
    map fst properties = map fst (to_dict Mock.beach_bar).
Proof.
  split; [reflexivity|].
  apply (format_properties_of_row Mock.beach_bar). reflexivity.
Defined.

(* ------------------------------------------------------------------ *)
(** ** More on the push pass *)

Section PushFrame.

Context {W : Type} (client : NotionClient W).

Lemma existing_row_listed (rows : list dict) (row_id : pyval) :
  Forall (fun row => lookup "id" row <> None) rows ->
  exists found, existing_row rows row_id = Ret found /\
    match found with
    | Some row => listed rows row_id = true /\ truthy (PDict row) = true
    | None => listed rows row_id = false
    end.
Proof.
  induction 1 as [|row rest Hid _ IH]; simpl.
  - exists None. auto.
  - destruct (lookup "id" row) as [id|] eqn:Hlook; [|congruence]. simpl.
    destruct (py_eqb id row_id) eqn:Heq.
    + exists (Some row). split; [reflexivity|]. split; [reflexivity|].
      destruct row; [discriminate Hlook | reflexivity].
    + simpl. exact IH.
Qed.

(** [update_or_insert_row], when every listed row has an [id] and the
    row's data can be formatted: it updates the page [row_id] when some
    listed row has that identifier, and creates a page otherwise, with the
    formatted properties in both cases.  The remote state is the one the
    call leaves; the call's answer is returned when it is a dict, and an
    answer that is no dict makes the function raise [AttributeError]. *)
Theorem upsert_updates_listed_creates_other
        (row_id : pyval) (row_data : dict) (w : W)
        (rows : list dict) (properties : dict) :
  read_all_rows client w = Ret rows ->
  Forall (fun row => lookup "id" row <> None) rows ->
  format_properties row_data = Ret properties ->
  update_or_insert_row client row_id row_data w
  = let answer := if listed rows row_id
                  then pages_update client row_id properties w
                  else pages_create client properties w in
    (fst answer,
     match snd answer with
     | Ret response =>
         if isinstance_dict response then Ret response else Raise AttributeError
     | Raise e => Raise e
     end).
Proof.
  intros Hread Hids Hfmt. unfold update_or_insert_row. rewrite Hread.
  destruct (existing_row_listed rows row_id Hids) as (found & Hfound & Hcase).
  rewrite Hfound, Hfmt. cbv zeta.
  assert (Hlogged : forall answer : W * result pyval,
             logged answer
             = (fst answer,
                match snd answer with
                | Ret response =>
                    if isinstance_dict response then Ret response
                    else Raise AttributeError
                | Raise e => Raise e
                end)).
  { intros [w1 [response|e]]; [|reflexivity]. destruct response; reflexivity. }
  destruct found as [row|].
  - destruct Hcase as [-> ->]. apply Hlogged.
  - rewrite Hcase. apply Hlogged.
Qed.

Lemma push_rows_frame (table : list ModelPlaceCard) (rows : list (nat * ModelPlaceCard)) :
  (forall i row, In (i, row) rows -> nth_error table i = Some row /\ dirty row = true) ->
  forall session w w' session',
    List.length session = List.length table ->
    (forall i r', nth_error session i = Some r' ->
       exists r, nth_error table i = Some r /\
                 (r' = r \/ (dirty r = true /\ r' = pushed r))) ->
    push_rows client rows session w = (w', Ret session') ->
    List.length session' = List.length table /\
    (forall i r', nth_error session' i = Some r' ->
       exists r, nth_error table i = Some r /\
                 (r' = r \/ (dirty r = true /\ r' = pushed r))).
Proof.
  induction rows as [|[j row] rest IH]; intros Hrows session w w' session' Hlen Hinv Hrun;
    simpl in Hrun.
  - inversion Hrun; subst. auto.
  - destruct (update_or_insert_row client (id_page row) (to_dict row) w)
      as [w1 [response|e]]; [|discriminate].
    assert (Hrest : forall i r, In (i, r) rest ->
                      nth_error table i = Some r /\ dirty r = true)
      by (intros; apply Hrows; right; assumption).
    destruct (isinstance_dict response); [|eapply (IH Hrest); eauto].
    eapply (IH Hrest); [| |exact Hrun].
    + rewrite update_at_length. exact Hlen.
    + intros i r' Hi. destruct (Nat.eq_dec j i) as [->|Hne].
      * apply nth_error_update_at_eq in Hi. subst r'.
        destruct (Hrows i row (or_introl eq_refl)) as [Hrow Hdirty].
        exists row. split; [exact Hrow|]. right. split; [exact Hdirty|reflexivity].
      * rewrite nth_error_update_at_neq in Hi by exact Hne. apply Hinv. exact Hi.
Qed.

(** What a push pass, whatever the client does, can do to the table: it
    keeps its length, and a row it holds afterwards is the row that was at
    that position, either as it was or, when it was a push candidate, with
    both flags cleared and every other attribute as it was. *)
Theorem push_changes_flags_only
        (table : list ModelPlaceCard) (w : W) (i : nat) (r' : ModelPlaceCard) :
  nth_error (table_after (_scheduled_task_to_Notion client table w)) i = Some r' ->
  List.length (table_after (_scheduled_task_to_Notion client table w))
  = List.length table /\
  exists r, nth_error table i = Some r /\
            (r' = r \/ (dirty r = true /\ r' = pushed r)).
Proof.
  unfold _scheduled_task_to_Notion.
  destruct (push_rows client (select_dirty table) table w) as [w' [session|e]] eqn:Hrun;
    simpl; [|intros H; split; [reflexivity | exists r'; auto]].
  destruct (push_rows_frame table (select_dirty table)
              (fun i row H => proj1 (select_dirty_spec table i row) H)
              table w w' session eq_refl
              (fun i r H => ex_intro _ r (conj H (or_introl eq_refl))) Hrun)
    as [Hlen Hinv].
  intros Hi. split; [exact Hlen | exact (Hinv i r' Hi)].
Qed.

(** With no push candidate in the table the pass sends nothing: the table
    and the remote state are as they were, and nothing is logged as an
    error. *)
Theorem push_without_candidate_sends_nothing (table : list ModelPlaceCard) (w : W) :
  (forall r, In r table -> dirty r = false) ->
  _scheduled_task_to_Notion client table w = mkPass table w None.
Proof.
  intros Hclean. unfold _scheduled_task_to_Notion.
  rewrite select_dirty_clean; [reflexivity|].
  intros j r Hr. apply Hclean. eapply nth_error_In. exact Hr.
Qed.

(** A push pass that completes without a logged error, whatever the
    client, leaves no push candidate in the table; the pass run again right
    after it selects no row, so it leaves the table and the remote state as
    they are and logs no error. *)
Theorem completed_push_leaves_no_candidate (table : list ModelPlaceCard) (w : W) :
  logged_error (_scheduled_task_to_Notion client table w) = None ->
  (forall r, In r (table_after (_scheduled_task_to_Notion client table w)) ->
             dirty r = false) /\
  _scheduled_task_to_Notion client
    (table_after (_scheduled_task_to_Notion client table w))
    (world_after (_scheduled_task_to_Notion client table w))
  = mkPass (table_after (_scheduled_task_to_Notion client table w))
           (world_after (_scheduled_task_to_Notion client table w)) None.
Proof.
  intros Hok. destruct (push_again_is_noop client table w Hok) as [Hnone Hagain].
  split.
  - intros r Hin. apply In_nth_error in Hin. destruct Hin as [i Hi].
    destruct (dirty r) eqn:Hd; [|reflexivity].
    assert (Hsel : In (i, r)
              (select_dirty (table_after (_scheduled_task_to_Notion client table w))))
      by (apply select_dirty_spec; auto).
    rewrite Hnone in Hsel. contradiction.
  - rewrite Hagain. revert Hok.
    destruct (_scheduled_task_to_Notion client table w) as [t w' err]. simpl.
    intros ->. reflexivity.
Qed.

End PushFrame.

Lemma upsert_updates_listed_creates_other_witness :
  read_all_rows Mock.mock_client Mock.renamed
  = Ret [Mock.page_dict ("p1", [("Name", Mock.title_property "Cafe Remote")])] /\
  update_or_insert_row Mock.mock_client (PStr "p1") [("Type", PStr "Services")]
                       Mock.renamed
  = Mock.mock_update (PStr "p1")
      [("Type", PDict [("select", PDict [("name", PStr "Services")])])] Mock.renamed.
Proof.
  split; [reflexivity|].
  etransitivity.
  - apply (upsert_updates_listed_creates_other Mock.mock_client (PStr "p1")
             [("Type", PStr "Services")] Mock.renamed
             [Mock.page_dict ("p1", [("Name", Mock.title_property "Cafe Remote")])]
             [("Type", PDict [("select", PDict [("name", PStr "Services")])])]).
    + reflexivity.
    + repeat constructor. discriminate.
    + reflexivity.
  - reflexivity.
Defined.

Lemma completed_push_leaves_no_candidate_witness :
  logged_error (_scheduled_task_to_Notion Mock.mock_client Mock.three_saved
                  (Mock.reliable [] 0)) = None /\
  forall r, In r (table_after (_scheduled_task_to_Notion Mock.mock_client
                                 Mock.three_saved (Mock.reliable [] 0))) ->
            dirty r = false.
Proof.
  split; [reflexivity|].
  apply (completed_push_leaves_no_candidate Mock.mock_client Mock.three_saved
           (Mock.reliable [] 0)).
  reflexivity.
Defined.

Lemma push_changes_flags_only_witness :
  nth_error (table_after (_scheduled_task_to_Notion Mock.mock_client
                            [Mock.mirrored; Mock.cafe] (Mock.reliable [] 0))) 1
  = Some (pushed Mock.cafe) /\
  List.length (table_after (_scheduled_task_to_Notion Mock.mock_client
                              [Mock.mirrored; Mock.cafe] (Mock.reliable [] 0))) = 2.
Proof.
  split; [reflexivity|].
  apply (push_changes_flags_only Mock.mock_client [Mock.mirrored; Mock.cafe]
           (Mock.reliable [] 0) 1 (pushed Mock.cafe)).
  reflexivity.
Defined.

Lemma push_without_candidate_sends_nothing_witness :
  (forall r, In r [Mock.mirrored] -> dirty r = false) /\
  _scheduled_task_to_Notion Mock.mock_client [Mock.mirrored] Mock.second_call_fails
  = mkPass [Mock.mirrored] Mock.second_call_fails None.
Proof.
  assert (H : forall r, In r [Mock.mirrored] -> dirty r = false).
  { intros r [<-|[]]. reflexivity. }
  split; [exact H|].
  exact (push_without_candidate_sends_nothing Mock.mock_client [Mock.mirrored]
           Mock.second_call_fails H).
Defined.

Section PushCreates.

Import Mock.

Lemma existing_row_none (ps : list (string * dict)) (row_id : pyval) :
  ids_nonempty ps -> truthy row_id = false ->
  existing_row (map page_dict ps) row_id = Ret None.
Proof.
  intros Hids Hfalsy. induction ps as [|p rest IH]; [reflexivity|].
  cbn [map existing_row]. unfold page_dict at 1. cbn [getitem lookup String.eqb
    Ascii.eqb Bool.eqb andb]. cbn [Py.bind].
  assert (Hne : py_eqb (PStr (fst p)) row_id = false).
  { destruct row_id as [| | |s| |]; try reflexivity.
    simpl in Hfalsy. apply negb_false_iff in Hfalsy. apply String.eqb_eq in Hfalsy.
    subst s. simpl. apply String.eqb_neq. apply Hids. left; reflexivity. }
  rewrite Hne. apply IH. intros q Hq. apply Hids. right; exact Hq.
Qed.

Lemma upsert_creates (row_id : pyval) (row_data : dict) (s s' : service)
      (response : pyval) :
  script s = [] -> ids_nonempty (pages s) -> truthy row_id = false ->
  update_or_insert_row mock_client row_id row_data s = (s', Ret response) ->
  exists properties,
    pages s' = (pages s ++ [(fresh_id (next_id s), properties)])%list /\
    script s' = [] /\ isinstance_dict response = true.
Proof.
  intros Hs Hids Hfalsy. unfold update_or_insert_row, read_all_rows. simpl.
  rewrite (existing_row_none _ _ Hids Hfalsy).
  destruct (format_properties row_data) as [properties|e]; [|discriminate].
  intros H. apply logged_Ret in H. destruct H as [H _]. revert H.
  unfold mock_create, next_fault. rewrite Hs. intros H.
  inversion H; subst; clear H. exists properties. simpl. auto.
Qed.

Lemma push_rows_creates (rows : list (nat * ModelPlaceCard)) :
  (forall i row, In (i, row) rows -> truthy (id_page row) = false) ->
  forall session s s' session',
    script s = [] -> ids_nonempty (pages s) ->
    push_rows mock_client rows session s = (s', Ret session') ->
    script s' = [] /\ ids_nonempty (pages s') /\
    exists created, pages s' = (pages s ++ created)%list /\
                    List.length created = List.length rows.
Proof.
  induction rows as [|[i row] rest IH]; intros Hrows session s s' session' Hs Hids Hrun;
    simpl in Hrun.
  - inversion Hrun; subst. repeat split; auto. exists []. rewrite app_nil_r. auto.
  - destruct (update_or_insert_row mock_client (id_page row) (to_dict row) s)
      as [s1 [response|e]] eqn:Hup; [|discriminate].
    destruct (upsert_creates _ _ _ _ _ Hs Hids (Hrows i row (or_introl eq_refl)) Hup)
      as (properties & Hpages & Hs1 & Hdict).
    rewrite Hdict in Hrun.
    assert (Hids1 : ids_nonempty (pages s1)).
    { rewrite Hpages. intros p Hp. apply in_app_or in Hp. destruct Hp as [Hp|[<-|[]]].
      - apply Hids. exact Hp.
      - discriminate. }
    destruct (IH (fun j r H => Hrows j r (or_intror H)) _ _ _ _ Hs1 Hids1 Hrun)
      as (Hs' & Hids' & created & Hcreated & Hlen).
    repeat split; auto.
    exists ((fresh_id (next_id s), properties) :: created).
    rewrite Hcreated, Hpages, <- app_assoc. simpl. auto.
Qed.

(** Against a service that does not fail and lists no page with an empty
    identifier, a push pass that completes creates one page for each
    selected row when the selected rows have no [id_page]: the pages that
    were there stay, none is updated, and as many are added as rows were
    selected.  The service is then in the same condition again, so a row
    selected by a later pass adds a page once more. *)
Theorem push_creates_page_for_each_row_without_id
        (table : list ModelPlaceCard) (s : service) :
  script s = [] -> ids_nonempty (pages s) ->
  (forall r, In r table -> dirty r = true -> truthy (id_page r) = false) ->
  logged_error (_scheduled_task_to_Notion mock_client table s) = None ->
  script (world_after (_scheduled_task_to_Notion mock_client table s)) = [] /\
  ids_nonempty (pages (world_after (_scheduled_task_to_Notion mock_client table s))) /\
  exists created,
    pages (world_after (_scheduled_task_to_Notion mock_client table s))
    = (pages s ++ created)%list /\
    List.length created = List.length (select_dirty table).
Proof.
  intros Hs Hids Hrows. unfold _scheduled_task_to_Notion.
  destruct (push_rows mock_client (select_dirty table) table s)
    as [s' [session|e]] eqn:Hrun; simpl; [intros _|discriminate].
  eapply push_rows_creates; [|exact Hs|exact Hids|exact Hrun].
  intros i row Hin. apply select_dirty_spec in Hin. destruct Hin as [Hrow Hdirty].
  apply Hrows; [|exact Hdirty]. eapply nth_error_In. exact Hrow.
Qed.

End PushCreates.

Lemma push_creates_page_for_each_row_without_id_witness :
  logged_error (_scheduled_task_to_Notion Mock.mock_client Mock.three_saved
                  (Mock.reliable [] 0)) = None /\
  exists created,
    Mock.pages (world_after (_scheduled_task_to_Notion Mock.mock_client
                               Mock.three_saved (Mock.reliable [] 0)))
    = (Mock.pages (Mock.reliable [] 0) ++ created)%list /\
    List.length created = List.length (select_dirty Mock.three_saved).
Proof.
  split; [reflexivity|].
  apply (push_creates_page_for_each_row_without_id Mock.three_saved (Mock.reliable [] 0)).
  - reflexivity.
  - intros p [].
  - intros r [<-|[<-|[<-|[]]]] _; reflexivity.
  - reflexivity.
Defined.

(* ------------------------------------------------------------------ *)
(** ** More on the pull pass: the join key and the coordinates *)

Lemma keeps_bind {B : Type} (attr : ModelPlaceCard -> B)
      (f g : ModelPlaceCard -> result ModelPlaceCard) :
  keeps attr f -> keeps attr g -> keeps attr (fun c => Py.bind (f c) g).
Proof.
  intros Hf Hg c c' H. apply bind_Ret in H. destruct H as (c1 & H1 & H2).
  rewrite (Hg _ _ H2). apply (Hf _ _ H1).
Qed.

Lemma keeps_on_key {B : Type} (attr : ModelPlaceCard -> B) (key name : string)
      (body : ModelPlaceCard -> result ModelPlaceCard) :
  keeps attr body -> keeps attr (on_key key name body).
Proof.
  intros Hb c c' H. unfold on_key in H.
  destruct (String.eqb key name); [apply (Hb _ _ H)|]. congruence.
Qed.

Lemma keeps_set {B : Type} (attr : ModelPlaceCard -> B)
      (set : ModelPlaceCard -> ModelPlaceCard) :
  (forall c, attr (set c) = attr c) -> keeps attr (fun c => Ret (set c)).
Proof.
  intros Hset c c' H. inversion H; subst. apply Hset.
Qed.

Lemma sql_eqb_eq (a b : pyval) : sql_eqb a b = true -> a = b.
Proof.
  destruct a, b; simpl; try discriminate; [reflexivity|].
  intros H. apply String.eqb_eq in H. congruence.
Qed.

Lemma lookup_not_in {V : Type} (key : string) (d : list (string * V)) :
  ~ In key (map fst d) -> lookup key d = None.
Proof.
  induction d as [|[k v] rest IH]; simpl; intros H; [reflexivity|].
  destruct (String.eqb k key) eqn:Hk.
  - apply String.eqb_eq in Hk. tauto.
  - apply IH. tauto.
Qed.

Lemma last_binding_not_in (key : string) (items : dict) (initial : pyval) :
  ~ In key (map fst items) -> last_binding key items initial = initial.
Proof.
  unfold last_binding. revert initial.
  induction items as [|[k v] rest IH]; simpl; intros initial H; [reflexivity|].
  destruct (String.eqb k key) eqn:Hk.
  - apply String.eqb_eq in Hk. tauto.
  - apply IH. tauto.
Qed.

Lemma last_binding_lookup (key : string) (items : dict) (initial v : pyval) :
  dict_ok items -> lookup key items = Some v -> last_binding key items initial = v.
Proof.
  unfold dict_ok. revert initial.
  induction items as [|[k x] rest IH]; simpl; intros initial Hok Hlook;
    [discriminate|].
  inversion Hok as [|y ys Hnotin Hrest]; subst.
  unfold last_binding. simpl. fold (last_binding key rest).
  destruct (String.eqb k key) eqn:Hk.
  - inversion Hlook; subst. apply String.eqb_eq in Hk. subst k.
    apply last_binding_not_in. exact Hnotin.
  - apply IH; assumption.
Qed.

Section PullJoin.

Context {W : Type} (client : NotionClient W) (E : PyEnv).

Lemma pull_property_keeps_id_page (key : string) (value : pyval) :
  keeps id_page (pull_property E key value).
Proof.
  unfold pull_property.
  repeat (apply keeps_bind; [apply keeps_on_key|]);
    try apply keeps_on_key;
    try (apply keeps_set; intros c; reflexivity).
  - intros c c' H. unfold pull_location in H.
    destruct (getitem value "select") as [select|e]; simpl in H; [|discriminate].
    destruct (truthy select).
    + destruct (getitem select "name") as [name|e]; simpl in H; [|discriminate].
      inversion H; subst. reflexivity.
    + inversion H; subst. reflexivity.
  - intros c c' H. unfold pull_google_map in H.
    destruct (negb _); [|congruence].
    destruct (get_coordinates_from_attribute E _) as [[item|]|e]; simpl in H;
      [| |discriminate]; inversion H; subst; clear H;
      destruct (truthy _); reflexivity.
Qed.

Lemma pull_properties_keeps_id_page (properties : dict) :
  keeps id_page (pull_properties E properties).
Proof.
  induction properties as [|[key value] rest IH]; intros c c' H; simpl in H.
  - congruence.
  - apply bind_Ret in H. destruct H as (c1 & H1 & H2).
    rewrite (IH _ _ H2). apply (pull_property_keeps_id_page _ _ _ _ H1).
Qed.

Lemma recover_coordinates_id_page (c : ModelPlaceCard) :
  id_page (recover_coordinates E c) = id_page c.
Proof.
  unfold recover_coordinates.
  destruct (negb _ && _); [|reflexivity].
  destruct (get_coordinates_from_attribute E _) as [[item|]|e]; reflexivity.
Qed.

(** The [id_page] a row object has after the loop over the items of a
    remote row: the last value found under [id]. *)
Lemma pull_items_id_page (items : dict) :
  forall c added r, pull_items E items c added = Ret r ->
    id_page (fst r) = last_binding "id" items (id_page c).
Proof.
  induction items as [|[keys values] rest IH]; intros c added r H; simpl in H.
  - inversion H; subst. reflexivity.
  - apply bind_Ret in H. destruct H as (c1 & H1 & H2).
    rewrite (IH _ _ _ H2), recover_coordinates_id_page.
    unfold last_binding. simpl. f_equal.
    destruct (String.eqb keys "properties").
    + apply bind_Ret in H1. destruct H1 as (props & _ & H1).
      rewrite (pull_properties_keeps_id_page _ _ _ H1).
      destruct (String.eqb keys "id"); reflexivity.
    + inversion H1; subst. destruct (String.eqb keys "id"); reflexivity.
Qed.

Lemma pull_items_added (items : dict) :
  items <> [] ->
  forall c added r, pull_items E items c added = Ret r -> snd r = true.
Proof.
  assert (Hkeep : forall l c r, pull_items E l c true = Ret r -> snd r = true).
  { induction l as [|[keys values] rest IH]; intros c r H; simpl in H.
    - inversion H; subst. reflexivity.
    - apply bind_Ret in H. destruct H as (c1 & _ & H2). eapply IH. exact H2. }
  destruct items as [|[keys values] rest]; [congruence|]. intros _ c added r H.
  simpl in H. apply bind_Ret in H. destruct H as (c1 & _ & H2).
  eapply Hkeep. exact H2.
Qed.

Lemma truthy_coordinates_text (item : pyfloat E * pyfloat E) :
  truthy (PStr (coordinates_text E item)) = true.
Proof.
  rewrite coordinates_text_shape. simpl.
  destruct (float_repr E (fst item)); reflexivity.
Qed.

Lemma recover_coordinates_located (c : ModelPlaceCard) :
  located (recover_coordinates E c).
Proof.
  unfold located, recover_coordinates.
  destruct (truthy (coordinates c)) eqn:Hc; simpl; [auto|].
  destruct (truthy (google_map c)) eqn:Hg; simpl; [|congruence].
  intros _.
  destruct (get_coordinates_from_attribute E (google_map c)) as [[item|]|e];
    simpl; try reflexivity.
  apply truthy_coordinates_text.
Qed.

Lemma pull_items_located (items : dict) :
  items <> [] ->
  forall c added r, pull_items E items c added = Ret r -> located (fst r).
Proof.
  induction items as [|[keys values] rest IH]; intros Hne c added r H; [congruence|].
  simpl in H. apply bind_Ret in H. destruct H as (c1 & _ & H2).
  destruct rest as [|item rest'].
  - simpl in H2. inversion H2; subst. simpl. apply recover_coordinates_located.
  - eapply IH; [discriminate | exact H2].
Qed.

Lemma inserted_located (c : ModelPlaceCard) : located c -> located (inserted c).
Proof.
  unfold located, inserted. simpl.
  destruct (google_map c), (coordinates c); simpl; auto.
Qed.

(** What the step for one remote row does to the join key and to the
    length of the table. *)
Lemma pull_row_join (num : dict) (session session' : list ModelPlaceCard) :
  pull_row E num session = Ret session' -> dict_ok num ->
  (forall i r, nth_error session i = Some r ->
     exists r', nth_error session' i = Some r' /\ id_page r' = id_page r) /\
  (forall id, lookup "id" num = Some id ->
     (exists r, In r session /\ sql_eqb (id_page r) id = true) ->
     List.length session' = List.length session) /\
  (forall x, lookup "id" num = Some (PStr x) ->
     exists r', In r' session' /\ id_page r' = PStr x) /\
  (forall i r', nth_error session' i = Some r' ->
     nth_error session i = Some r' \/ located r').
Proof.
  unfold pull_row. intros H Hok.
  apply bind_Ret in H. destruct H as (id & Hid & H).
  assert (Hlook : lookup "id" num = Some id).
  { simpl in Hid. destruct (lookup "id" num); inversion Hid; reflexivity. }
  assert (Hne : num <> []) by (intros ->; discriminate Hlook).
  destruct (query_first (fun r => sql_eqb (id_page r) id && is_updated r) session)
    as [[j0 r0]|] eqn:Hq0.
  - inversion H; subst; clear H. apply query_first_spec in Hq0.
    destruct Hq0 as [Hj0 Hp0]. apply andb_prop in Hp0. destruct Hp0 as [Hp0 _].
    repeat split; eauto.
    intros x Hx. rewrite Hlook in Hx. inversion Hx; subst id.
    exists r0. split; [eapply nth_error_In; exact Hj0 | apply sql_eqb_eq; exact Hp0].
  - apply bind_Ret in H. destruct H as (r & Hitems & H).
    assert (Hidp := pull_items_id_page _ _ _ _ Hitems).
    rewrite (last_binding_lookup "id" num _ id Hok Hlook) in Hidp.
    assert (Hloc := pull_items_located _ Hne _ _ _ Hitems).
    assert (Hadded := pull_items_added _ Hne _ _ _ Hitems).
    destruct (query_first (fun r => sql_eqb (id_page r) id && negb (is_updated r)) session)
      as [[j found]|] eqn:Hq.
    + apply query_first_spec in Hq. destruct Hq as [Hj Hp].
      apply andb_prop in Hp. destruct Hp as [Hp _]. apply sql_eqb_eq in Hp.
      inversion H; subst session'; clear H.
      assert (Hjr : nth_error (update_at j (fst r) session) j = Some (fst r)).
      { rewrite (nth_error_update_at_Some j j (fst r) found _ Hj).
        rewrite Nat.eqb_refl. reflexivity. }
      repeat split.
      * intros i r1 Hi. rewrite (nth_error_update_at_Some j i (fst r) r1 _ Hi).
        destruct (Nat.eqb_spec j i) as [->|Hne'].
        -- rewrite Hj in Hi. inversion Hi; subst r1.
           eexists; split; [reflexivity|]. congruence.
        -- eexists; split; reflexivity.
      * intros id' _ _. apply update_at_length.
      * intros x Hx. rewrite Hlook in Hx. inversion Hx; subst id.
        exists (fst r). split; [eapply nth_error_In; exact Hjr | congruence].
      * intros i r' Hi. destruct (Nat.eq_dec j i) as [->|Hne'].
        -- rewrite Hjr in Hi. inversion Hi; subst r'. right. exact Hloc.
        -- rewrite nth_error_update_at_neq in Hi by exact Hne'. left. exact Hi.
    + rewrite Hadded in H. inversion H; subst session'; clear H.
      repeat split.
      * intros i r1 Hi. exists r1. split; [|reflexivity].
        rewrite nth_error_app1; [exact Hi|]. apply nth_error_Some. congruence.
      * intros id' Hid' (r1 & Hin & Heq). exfalso.
        rewrite Hlook in Hid'. inversion Hid'; subst id'.
        destruct (is_updated r1) eqn:Hu.
        -- revert Hq0. unfold query_first.
           apply (first_from_found _ _ r1 Hin). rewrite Heq, Hu. reflexivity.
        -- revert Hq. unfold query_first.
           apply (first_from_found _ _ r1 Hin). rewrite Heq, Hu. reflexivity.
      * intros x Hx. rewrite Hlook in Hx. inversion Hx as [Hidx].
        exists (inserted (fst r)). split; [apply in_or_app; right; left; reflexivity|].
        simpl. rewrite Hidp, Hidx. reflexivity.
      * intros i r' Hi.
        destruct (Nat.lt_ge_cases i (List.length session)) as [Hlt|Hge].
        -- rewrite nth_error_app1 in Hi by exact Hlt. left. exact Hi.
        -- rewrite nth_error_app2 in Hi by exact Hge.
           destruct (i - List.length session) as [|k]; simpl in Hi;
             [|destruct k; discriminate].
           inversion Hi; subst r'. right. apply inserted_located. exact Hloc.
Qed.

Lemma pull_rows_join (rows : list dict) :
  forall session session',
    pull_rows E rows session = Ret session' -> Forall dict_ok rows ->
    (forall i r, nth_error session i = Some r ->
       exists r', nth_error session' i = Some r' /\ id_page r' = id_page r) /\
    (forall num x, In num rows -> lookup "id" num = Some (PStr x) ->
       exists r', In r' session' /\ id_page r' = PStr x) /\
    (forall i r', nth_error session' i = Some r' ->
       nth_error session i = Some r' \/ located r').
Proof.
  induction rows as [|num rest IH]; intros session session' H Hok; simpl in H.
  - inversion H; subst. repeat split; eauto. intros num x [].
  - apply bind_Ret in H. destruct H as (s1 & H1 & H2).
    inversion Hok as [|y ys Hnum Hrest]; subst.
    destruct (pull_row_join _ _ _ H1 Hnum) as (Ha & _ & Hc & Hd).
    destruct (IH _ _ H2 Hrest) as (Ha' & Hc' & Hd').
    repeat split.
    + intros i r Hi. destruct (Ha i r Hi) as (r1 & Hr1 & Hid1).
      destruct (Ha' i r1 Hr1) as (r2 & Hr2 & Hid2).
      exists r2. split; [exact Hr2 | congruence].
    + intros num' x [<-|Hin] Hx.
      * destruct (Hc x Hx) as (r1 & Hin1 & Hid1).
        apply In_nth_error in Hin1. destruct Hin1 as [i Hi].
        destruct (Ha' i r1 Hi) as (r2 & Hr2 & Hid2).
        exists r2. split; [eapply nth_error_In; exact Hr2 | congruence].
      * eapply Hc'; eassumption.
    + intros i r' Hi. destruct (Hd' i r' Hi) as [Hs1|Hloc]; [|right; exact Hloc].
      destruct (Hd i r' Hs1) as [Hs|Hloc]; [left; exact Hs | right; exact Hloc].
Qed.

Lemma pull_rows_no_creation (rows : list dict) :
  forall session session',
    pull_rows E rows session = Ret session' -> Forall dict_ok rows ->
    (forall num, In num rows ->
       exists x, lookup "id" num = Some (PStr x) /\
                 exists r, In r session /\ id_page r = PStr x) ->
    List.length session' = List.length session.
Proof.
  induction rows as [|num rest IH]; intros session session' H Hok Hall; simpl in H.
  - inversion H; subst. reflexivity.
  - apply bind_Ret in H. destruct H as (s1 & H1 & H2).
    inversion Hok as [|y ys Hnum Hrest]; subst.
    destruct (pull_row_join _ _ _ H1 Hnum) as (Ha & Hb & _ & _).
    destruct (Hall num (or_introl eq_refl)) as (x & Hx & r & Hin & Hid).
    rewrite (IH _ _ H2 Hrest).
    + apply (Hb (PStr x) Hx). exists r. split; [exact Hin|].
      rewrite Hid. simpl. apply String.eqb_refl.
    + intros num' Hin'. destruct (Hall num' (or_intror Hin')) as (x' & Hx' & r' & Hr' & Hid').
      exists x'. split; [exact Hx'|].
      apply In_nth_error in Hr'. destruct Hr' as [i Hi].
      destruct (Ha i r' Hi) as (r1 & Hr1 & Hid1).
      exists r1. split; [eapply nth_error_In; exact Hr1 | congruence].
Qed.

End PullJoin.

Section PullPassJoin.

Context {W : Type} (client : NotionClient W) (E : PyEnv).

(** The pull pass and the join key of the rows it finds: when the listed
    rows are dicts with distinct keys, a row that was in the table is at the
    same position after the pass, with the [id_page] it had. *)
Theorem pull_keeps_id_page
        (table : list ModelPlaceCard) (w : W) (i : nat) (r : ModelPlaceCard) :
  (forall rows, read_all_rows client w = Ret rows -> Forall dict_ok rows) ->
  nth_error table i = Some r ->
  exists r', nth_error (table_after (_scheduled_task_from_Notion client E table w)) i
             = Some r' /\ id_page r' = id_page r.
Proof.
  intros Hok Hi. unfold _scheduled_task_from_Notion.
  destruct (Py.bind _ _) as [session|e] eqn:H; simpl; [|eauto].
  apply bind_Ret in H. destruct H as (rows & Hread & H).
  destruct (pull_rows_join E _ _ _ H (Forall_rev (Hok rows Hread))) as (Ha & _ & _).
  exact (Ha i r Hi).
Qed.

Lemma pull_pass_mirrors
      (table : list ModelPlaceCard) (w : W) (rows : list dict)
      (num : dict) (x : string) :
  read_all_rows client w = Ret rows -> Forall dict_ok rows ->
  logged_error (_scheduled_task_from_Notion client E table w) = None ->
  In num rows -> lookup "id" num = Some (PStr x) ->
  exists r, In r (table_after (_scheduled_task_from_Notion client E table w)) /\
            id_page r = PStr x.
Proof.
  intros Hread Hok. unfold _scheduled_task_from_Notion. rewrite Hread. simpl.
  destruct (pull_rows E (rev rows) table) as [session|e] eqn:H; simpl;
    [intros _|discriminate].
  intros Hin Hx.
  destruct (pull_rows_join E _ _ _ H (Forall_rev Hok)) as (_ & Hc & _).
  apply (Hc num x); [apply in_rev in Hin; exact Hin | exact Hx].
Qed.

(** After a pull pass that completes, every listed row whose [id] is a text
    has a local row with that [id_page]. *)
Theorem pull_mirrors_listed_rows
        (table : list ModelPlaceCard) (w : W) (rows : list dict)
        (num : dict) (x : string) :
  read_all_rows client w = Ret rows -> Forall dict_ok rows ->
  logged_error (_scheduled_task_from_Notion client E table w) = None ->
  In num rows -> lookup "id" num = Some (PStr x) ->
  exists r, In r (table_after (_scheduled_task_from_Notion client E table w)) /\
            id_page r = PStr x.
Proof.
  apply pull_pass_mirrors.
Qed.

(** When every listed row has a text [id] for which the table holds a row,
    the pull pass creates no row. *)
Lemma pull_creates_nothing_when_mirrored
      (table : list ModelPlaceCard) (w : W) (rows : list dict) :
  read_all_rows client w = Ret rows -> Forall dict_ok rows ->
  (forall num, In num rows ->
     exists x, lookup "id" num = Some (PStr x) /\
               exists r, In r table /\ id_page r = PStr x) ->
  List.length (table_after (_scheduled_task_from_Notion client E table w))
  = List.length table.
Proof.
  intros Hread Hok Hall. unfold _scheduled_task_from_Notion. rewrite Hread. simpl.
  destruct (pull_rows E (rev rows) table) as [session|e] eqn:H; simpl;
    [|reflexivity].
  apply (pull_rows_no_creation E _ _ _ H (Forall_rev Hok)).
  intros num Hin. apply Hall. apply in_rev. exact Hin.
Qed.

(** A pull pass run again on the same listing creates no row: the rows the
    first pass created are found by their [id_page]. *)
Theorem pull_twice_creates_no_row
        (table : list ModelPlaceCard) (w : W) (rows : list dict) :
  read_all_rows client w = Ret rows -> Forall dict_ok rows ->
  Forall (fun num => exists x, lookup "id" num = Some (PStr x)) rows ->
  logged_error (_scheduled_task_from_Notion client E table w) = None ->
  List.length
    (table_after
       (_scheduled_task_from_Notion client E
          (table_after (_scheduled_task_from_Notion client E table w)) w))
  = List.length (table_after (_scheduled_task_from_Notion client E table w)).
Proof.
  intros Hread Hok Hids Hdone.
  apply (pull_creates_nothing_when_mirrored _ w rows Hread Hok).
  intros num Hin. rewrite Forall_forall in Hids.
  destruct (Hids num Hin) as [x Hx]. exists x. split; [exact Hx|].
  exact (pull_pass_mirrors table w rows num x Hread Hok Hdone Hin Hx).
Qed.

Lemma pull_row_located (num : dict) (session session' : list ModelPlaceCard) :
  pull_row E num session = Ret session' ->
  forall i r', nth_error session' i = Some r' ->
    nth_error session i = Some r' \/ located r'.
Proof.
  unfold pull_row. intros H.
  apply bind_Ret in H. destruct H as (id & Hid & H).
  assert (Hne : num <> []) by (intros ->; discriminate Hid).
  destruct (query_first (fun r => sql_eqb (id_page r) id && is_updated r) session);
    [inversion H; subst; auto|].
  apply bind_Ret in H. destruct H as (r & Hitems & H).
  assert (Hloc := pull_items_located E _ Hne _ _ _ Hitems).
  destruct (query_first (fun r => sql_eqb (id_page r) id && negb (is_updated r)) session)
    as [[j found]|].
  - inversion H; subst session'; clear H. intros i r' Hi.
    destruct (Nat.eq_dec j i) as [->|Hne'].
    + apply nth_error_update_at_eq in Hi. subst r'. right. exact Hloc.
    + rewrite nth_error_update_at_neq in Hi by exact Hne'. left. exact Hi.
  - destruct (snd r); inversion H; subst session'; clear H; [|auto].
    intros i r' Hi.
    destruct (Nat.lt_ge_cases i (List.length session)) as [Hlt|Hge].
    + rewrite nth_error_app1 in Hi by exact Hlt. left. exact Hi.
    + rewrite nth_error_app2 in Hi by exact Hge.
      destruct (i - List.length session) as [|k]; simpl in Hi;
        [|destruct k; discriminate].
      inversion Hi; subst r'. right. apply inserted_located. exact Hloc.
Qed.

Lemma pull_rows_located (rows : list dict) :
  forall session session',
    pull_rows E rows session = Ret session' ->
    forall i r', nth_error session' i = Some r' ->
      nth_error session i = Some r' \/ located r'.
Proof.
  induction rows as [|num rest IH]; intros session session' H i r' Hi; simpl in H.
  - inversion H; subst. left. exact Hi.
  - apply bind_Ret in H. destruct H as (s1 & H1 & H2).
    destruct (IH _ _ H2 i r' Hi) as [Hs1|Hloc]; [|right; exact Hloc].
    exact (pull_row_located _ _ _ H1 i r' Hs1).
Qed.

(** A row found in the table after a pull pass is either the row that was
    at that position, untouched, or a row whose coordinates are populated
    whenever its map link is: the pass leaves no row it created or
    overwrote with a link and without coordinates (a link that does not
    resolve gives the text [Bad url]). *)
Theorem pull_leaves_touched_rows_located
        (table : list ModelPlaceCard) (w : W) (i : nat) (r' : ModelPlaceCard) :
  nth_error (table_after (_scheduled_task_from_Notion client E table w)) i = Some r' ->
  nth_error table i = Some r' \/
  (truthy (google_map r') = true -> truthy (coordinates r') = true).
Proof.
  unfold _scheduled_task_from_Notion.
  destruct (Py.bind _ _) as [session|e] eqn:H; simpl; [|auto].
  apply bind_Ret in H. destruct H as (rows & _ & H).
  exact (pull_rows_located _ _ _ H i r').
Qed.

End PullPassJoin.

Lemma renamed_rows_ok :
  Forall dict_ok [Mock.page_dict ("p1", [("Name", Mock.title_property "Cafe Remote")])].
Proof.
  repeat constructor; simpl; intuition discriminate.
Qed.

Lemma pull_keeps_id_page_witness :
  nth_error [Mock.mirrored] 0 = Some Mock.mirrored /\
  exists r', nth_error (table_after (_scheduled_task_from_Notion Mock.mock_client
                                       Mock.mock_env [Mock.mirrored] Mock.renamed)) 0
             = Some r' /\ id_page r' = id_page Mock.mirrored.
Proof.
  split; [reflexivity|].
  apply (pull_keeps_id_page Mock.mock_client Mock.mock_env [Mock.mirrored]
           Mock.renamed 0 Mock.mirrored).
  - intros rows H. inversion H; subst. exact renamed_rows_ok.
  - reflexivity.
Defined.

Lemma pull_mirrors_listed_rows_witness :
  logged_error (_scheduled_task_from_Notion Mock.mock_client Mock.mock_env []
                  Mock.renamed) = None /\
  exists r, In r (table_after (_scheduled_task_from_Notion Mock.mock_client
                                 Mock.mock_env [] Mock.renamed)) /\
            id_page r = PStr "p1".
Proof.
  split; [reflexivity|].
  apply (pull_mirrors_listed_rows Mock.mock_client Mock.mock_env [] Mock.renamed
           [Mock.page_dict ("p1", [("Name", Mock.title_property "Cafe Remote")])]
           (Mock.page_dict ("p1", [("Name", Mock.title_property "Cafe Remote")]))
           "p1").
  - reflexivity.
  - exact renamed_rows_ok.
  - reflexivity.
  - left; reflexivity.
  - reflexivity.
Defined.

Lemma pull_twice_creates_no_row_witness :
  logged_error (_scheduled_task_from_Notion Mock.mock_client Mock.mock_env []
                  Mock.renamed) = None /\
  List.length
    (table_after
       (_scheduled_task_from_Notion Mock.mock_client Mock.mock_env
          (table_after (_scheduled_task_from_Notion Mock.mock_client Mock.mock_env []
                          Mock.renamed)) Mock.renamed))
  = List.length (table_after (_scheduled_task_from_Notion Mock.mock_client
                                Mock.mock_env [] Mock.renamed)).
Proof.
  split; [reflexivity|].
  apply (pull_twice_creates_no_row Mock.mock_client Mock.mock_env [] Mock.renamed
           [Mock.page_dict ("p1", [("Name", Mock.title_property "Cafe Remote")])]).
  - reflexivity.
  - exact renamed_rows_ok.
  - repeat constructor. exists "p1". reflexivity.
  - reflexivity.
Defined.

Lemma pull_leaves_touched_rows_located_witness :
  nth_error (table_after (_scheduled_task_from_Notion Mock.mock_client Mock.mock_env []
               (Mock.remote [("Google Map", Mock.url_property (PStr "not a link"))]))) 0
  = Some (set_coordinates (PStr "Bad url")
            (set_google_map (PStr "not a link") Mock.mirrored_blank)) /\
  (nth_error [] 0
   = Some (set_coordinates (PStr "Bad url")
             (set_google_map (PStr "not a link") Mock.mirrored_blank)) \/
   (truthy (google_map (set_coordinates (PStr "Bad url")
               (set_google_map (PStr "not a link") Mock.mirrored_blank))) = true ->
    truthy (coordinates (set_coordinates (PStr "Bad url")
               (set_google_map (PStr "not a link") Mock.mirrored_blank))) = true)).
Proof.
  split; [reflexivity|].
  apply (pull_leaves_touched_rows_located Mock.mock_client Mock.mock_env []
           (Mock.remote [("Google Map", Mock.url_property (PStr "not a link"))]) 0).
  reflexivity.
Defined.

(* ------------------------------------------------------------------ *)
(** ** The first import and the look-up by name *)

Section FirstImport.

Context {W : Type} (client : NotionClient W).

Lemma import_property_attributes (key : string) (value : pyval) (c : ModelPlaceCard) :
  flags (import_property key value c) = flags c /\
  id_page (import_property key value c) = id_page c.
Proof.
  unfold import_property.
  destruct (String.eqb key "Name"), (String.eqb key "Type"), (String.eqb key "ID"),
    (String.eqb key "Photo Google Drive"), (String.eqb key "Google Map"),
    (String.eqb key "Phone Number"), (String.eqb key "WhatsApp Number"),
    (String.eqb key "Hours of Operation"), (String.eqb key "Owner / Manager"),
    (String.eqb key "Location"); split; reflexivity.
Qed.

Lemma import_properties_attributes (properties : dict) :
  forall c, flags (import_properties properties c) = flags c /\
            id_page (import_properties properties c) = id_page c.
Proof.
  induction properties as [|[key value] rest IH]; intros c; simpl; [auto|].
  destruct (IH (import_property key value c)) as [Hf Hi].
  destruct (import_property_attributes key value c) as [Hf' Hi'].
  split; congruence.
Qed.

Lemma import_items_attributes (items : dict) :
  forall c c', import_items items c = Ret c' ->
    flags c' = flags c /\ id_page c' = last_binding "id" items (id_page c).
Proof.
  induction items as [|[keys values] rest IH]; intros c c' H; simpl in H.
  - inversion H; subst. auto.
  - apply bind_Ret in H. destruct H as (c1 & H1 & H2).
    destruct (IH _ _ H2) as [Hf Hi]. rewrite Hf, Hi.
    unfold last_binding. simpl.
    destruct (String.eqb keys "properties").
    + apply bind_Ret in H1. destruct H1 as (props & _ & H1).
      inversion H1; subst c1.
      destruct (import_properties_attributes props
                  (if String.eqb keys "id" then set_id_page values c else c))
        as [Hf1 Hi1].
      rewrite Hf1, Hi1. destruct (String.eqb keys "id"); auto.
    + inversion H1; subst. destruct (String.eqb keys "id"); auto.
Qed.

Lemma import_rows_cards (rows : list dict) :
  forall pending out,
    import_rows rows pending = Ret out ->
    exists cards, out = (pending ++ cards)%list /\
      Forall2 (fun num card => import_items num new_card = Ret card) rows cards.
Proof.
  induction rows as [|num rest IH]; intros pending out H; simpl in H.
  - inversion H; subst. exists []. rewrite app_nil_r. auto.
  - apply bind_Ret in H. destruct H as (card & Hcard & H).
    destruct (IH _ _ H) as (cards & Hout & Hall).
    exists (card :: cards). rewrite Hout, <- app_assoc. simpl. auto.
Qed.

Lemma Forall2_nth_left {A B : Type} (R : A -> B -> Prop) (l : list A) (l' : list B) :
  Forall2 R l l' ->
  forall i a, nth_error l i = Some a -> exists b, nth_error l' i = Some b /\ R a b.
Proof.
  induction 1 as [|x y xs ys Hxy _ IH]; intros [|i] a Hi; simpl in Hi;
    try discriminate.
  - inversion Hi; subst. exists y. auto.
  - apply IH. exact Hi.
Qed.

Lemma import_cards (table table' : list ModelPlaceCard) (w : W) (rows : list dict) :
  update_database_from_notion client table w = Ret table' ->
  read_all_rows client w = Ret rows ->
  exists cards,
    table' = (table ++ map inserted cards)%list /\
    Forall2 (fun num card => import_items num new_card = Ret card) (rev rows) cards.
Proof.
  unfold update_database_from_notion. intros H Hread. rewrite Hread in H. simpl in H.
  apply bind_Ret in H. destruct H as (pending & Hrows & H).
  inversion H; subst table'; clear H.
  destruct (import_rows_cards _ _ _ Hrows) as (cards & Hout & Hall).
  simpl in Hout. subst pending. eauto.
Qed.

(** The first import, when it returns: the rows that were in the table
    stay in place, and one row is appended for each listed row, in reverse
    listing order, with both flags off and, for a listed dict with distinct
    keys, with the listed [id] as its [id_page].  Nothing is looked up: run
    on a table that holds the rows already, it appends them again. *)
Theorem import_appends_one_row_per_listed_row
        (table table' : list ModelPlaceCard) (w : W) (rows : list dict) :
  update_database_from_notion client table w = Ret table' ->
  read_all_rows client w = Ret rows ->
  exists created,
    table' = (table ++ created)%list /\
    List.length created = List.length rows /\
    Forall (fun c => is_new c = false /\ is_updated c = false) created /\
    Forall2 (fun num c => dict_ok num ->
                          match lookup "id" num with
                          | Some id => id_page c = column_default id
                          | None => id_page c = PStr EmptyString
                          end) (rev rows) created.
Proof.
  intros H Hread. destruct (import_cards _ _ _ _ H Hread) as (cards & -> & Hall).
  exists (map inserted cards). split; [reflexivity|].
  split; [rewrite length_map, <- (Forall2_length Hall), length_rev; reflexivity|].
  clear H Hread. induction Hall as [|num card nums cards Hcard _ IH]; simpl.
  - split; constructor.
  - destruct IH as [IH1 IH2].
    destruct (import_items_attributes _ _ _ Hcard) as [Hf Hi].
    split; constructor; auto.
    + split; [exact (f_equal fst Hf) | exact (f_equal snd Hf)].
    + intros Hok. simpl. rewrite Hi.
      destruct (lookup "id" num) as [id|] eqn:Hlook.
      * rewrite (last_binding_lookup "id" num _ id Hok Hlook). reflexivity.
      * rewrite last_binding_not_in; [reflexivity|].
        intros Hin. apply in_map_iff in Hin. destruct Hin as ([k v] & Hk & Hin).
        simpl in Hk. subst k. clear Hok Hi Hcard.
        induction num as [|[k' v'] rest IHn]; [contradiction|].
        simpl in Hlook. destruct (String.eqb k' "id") eqn:Hk'; [discriminate|].
        destruct Hin as [Heq|Hin]; [|auto].
        inversion Heq; subst. rewrite String.eqb_refl in Hk'. discriminate.
Qed.

(** A pull pass right after the import creates no row, when every listed
    row is a dict with distinct keys and a text [id]: each listed row finds
    the row the import made for it. *)
Theorem pull_after_import_creates_no_row
        (E : PyEnv) (table table' : list ModelPlaceCard) (w : W) (rows : list dict) :
  update_database_from_notion client table w = Ret table' ->
  read_all_rows client w = Ret rows -> Forall dict_ok rows ->
  Forall (fun num => exists x, lookup "id" num = Some (PStr x)) rows ->
  List.length (table_after (_scheduled_task_from_Notion client E table' w))
  = List.length table'.
Proof.
  intros H Hread Hok Hids.
  apply (pull_creates_nothing_when_mirrored client E table' w rows Hread Hok).
  destruct (import_cards _ _ _ _ H Hread) as (cards & -> & Hall).
  intros num Hin. rewrite Forall_forall in Hids, Hok.
  destruct (Hids num Hin) as [x Hx]. exists x. split; [exact Hx|].
  apply in_rev in Hin. apply In_nth_error in Hin. destruct Hin as [i Hi].
  destruct (Forall2_nth_left _ _ _ Hall i num Hi) as (card & Hcard & Himp).
  exists (inserted card). split.
  - apply in_or_app. right. apply in_map. eapply nth_error_In. exact Hcard.
  - destruct (import_items_attributes _ _ _ Himp) as [_ Hidp]. simpl. rewrite Hidp.
    assert (Hnum : In num (rev rows)) by (eapply nth_error_In; exact Hi).
    apply in_rev in Hnum. rewrite (last_binding_lookup "id" num _ (PStr x)
                                     (Hok num Hnum) Hx). reflexivity.
Qed.

End FirstImport.

Lemma import_appends_one_row_per_listed_row_witness :
  update_database_from_notion Mock.mock_client [Mock.cafe] Mock.renamed
  = Ret [Mock.cafe;
         set_Name (PStr "Cafe Remote") Mock.mirrored_blank] /\
  exists created,
    [Mock.cafe; set_Name (PStr "Cafe Remote") Mock.mirrored_blank]
    = ([Mock.cafe] ++ created)%list /\
    List.length created = 1.
Proof.
  split; [reflexivity|].
  destruct (import_appends_one_row_per_listed_row Mock.mock_client [Mock.cafe]
              [Mock.cafe; set_Name (PStr "Cafe Remote") Mock.mirrored_blank]
              Mock.renamed
              [Mock.page_dict ("p1", [("Name", Mock.title_property "Cafe Remote")])]
              eq_refl eq_refl) as (created & H1 & H2 & _).
  exists created. split; [exact H1 | exact H2].
Defined.

Lemma pull_after_import_creates_no_row_witness :
  update_database_from_notion Mock.mock_client [Mock.cafe] Mock.renamed
  = Ret [Mock.cafe; set_Name (PStr "Cafe Remote") Mock.mirrored_blank] /\
  List.length (table_after (_scheduled_task_from_Notion Mock.mock_client Mock.mock_env
     [Mock.cafe; set_Name (PStr "Cafe Remote") Mock.mirrored_blank] Mock.renamed))
  = 2.
Proof.
  split; [reflexivity|].
  apply (pull_after_import_creates_no_row Mock.mock_client Mock.mock_env [Mock.cafe]
           [Mock.cafe; set_Name (PStr "Cafe Remote") Mock.mirrored_blank] Mock.renamed
           [Mock.page_dict ("p1", [("Name", Mock.title_property "Cafe Remote")])]).
  - reflexivity.
  - reflexivity.
  - exact renamed_rows_ok.
  - repeat constructor. exists "p1". reflexivity.
Defined.

Lemma first_from_none (p : ModelPlaceCard -> bool) (table : list ModelPlaceCard) :
  forall i, first_from p i table = None -> filter p table = [].
Proof.
  induction table as [|row rest IH]; intros i H; simpl in *; [reflexivity|].
  destruct (p row); [discriminate|]. eapply IH. exact H.
Qed.

Lemma first_from_app (p : ModelPlaceCard -> bool) (table extra : list ModelPlaceCard) :
  forall i found, first_from p i table = Some found ->
    first_from p i (table ++ extra) = Some found.
Proof.
  induction table as [|row rest IH]; intros i found H; simpl in *; [discriminate|].
  destruct (p row); [exact H|]. apply IH. exact H.
Qed.

Lemma first_from_app_none (p : ModelPlaceCard -> bool) (table : list ModelPlaceCard)
      (row : ModelPlaceCard) :
  forall i, first_from p i table = None -> p row = true ->
    first_from p i (table ++ [row]) = Some (i + List.length table, row).
Proof.
  induction table as [|r rest IH]; intros i H Hp; simpl in *.
  - rewrite Hp, Nat.add_0_r. reflexivity.
  - destruct (p r); [discriminate|]. rewrite (IH (S i) H Hp).
    replace (S i + List.length rest) with (i + S (List.length rest)) by lia.
    reflexivity.
Qed.

(** [find_company_by_name] returns a row of the asked name that is in the
    table it leaves; it adds a row only when none had the name, so the rows
    of that name are as many as before, or one when there was none; asked
    again, it returns the same row and leaves the table as it is. *)
Theorem find_company_by_name_finds_or_creates_once
        (name : string) (table : list ModelPlaceCard) :
  Name (snd (find_company_by_name name table)) = PStr name /\
  In (snd (find_company_by_name name table)) (fst (find_company_by_name name table)) /\
  List.length (filter (fun r => sql_eqb (Name r) (PStr name))
                      (fst (find_company_by_name name table)))
  = Nat.max 1 (List.length (filter (fun r => sql_eqb (Name r) (PStr name)) table)) /\
  find_company_by_name name (fst (find_company_by_name name table))
  = find_company_by_name name table.
Proof.
  destruct (first_from (fun r => sql_eqb (Name r) (PStr name)) 0 table)
    as [[j company]|] eqn:Hq.
  - assert (Hfind : find_company_by_name name table = (table, company))
      by (unfold find_company_by_name, query_first; rewrite Hq; reflexivity).
    rewrite !Hfind. cbn [fst snd]. rewrite Hfind.
    assert (Hspec := first_from_spec _ _ _ _ _ Hq). rewrite Nat.sub_0_r in Hspec.
    destruct Hspec as (_ & Hj & Hp).
    split; [apply sql_eqb_eq; exact Hp|].
    split; [eapply nth_error_In; exact Hj|].
    split; [|reflexivity].
    assert (Hin : In company (filter (fun r => sql_eqb (Name r) (PStr name)) table)).
    { apply filter_In. split; [eapply nth_error_In; exact Hj | exact Hp]. }
    destruct (filter _ table); [contradiction | simpl; lia].
  - assert (Hfind : find_company_by_name name table
                    = ((table ++ [inserted (set_Name (PStr name) new_card)])%list,
                       inserted (set_Name (PStr name) new_card)))
      by (unfold find_company_by_name, query_first; rewrite Hq; reflexivity).
    rewrite !Hfind. cbn [fst snd].
    assert (Hp : sql_eqb (Name (inserted (set_Name (PStr name) new_card))) (PStr name)
                 = true) by (simpl; apply String.eqb_refl).
    split; [reflexivity|].
    split; [apply in_or_app; right; left; reflexivity|].
    split.
    + rewrite filter_app, (first_from_none _ _ _ Hq). cbn [filter app].
      rewrite Hp. reflexivity.
    + unfold find_company_by_name, query_first.
      rewrite (first_from_app_none _ _ _ 0 Hq Hp). reflexivity.
Qed.

(** After a look-up by the bot has created a row for a name, the same
    look-up finds that row and creates nothing: the name was valid, no row
    had it, and the table holds exactly one more row. *)
Theorem lookup_after_creation_finds_the_row
        (company_name : string) (table table' : list ModelPlaceCard)
        (company : ModelPlaceCard) :
  handle_company_name company_name table = (table', CompanyCreated company) ->
  validate_name company_name = true /\
  filter (fun r => sql_eqb (Name r) (PStr company_name)) table = [] /\
  List.length table' = S (List.length table) /\
  handle_company_name company_name table' = (table', CompanyFound company).
Proof.
  unfold handle_company_name. intros H.
  destruct (validate_name company_name); [|discriminate]. cbn [negb] in *.
  destruct (filter (fun r => sql_eqb (Name r) (PStr company_name)) table)
    as [|c0 cs] eqn:Hf.
  - cbn [andb] in H. inversion H; subst; clear H.
    split; [reflexivity|]. split; [reflexivity|].
    split; [rewrite length_app; simpl; lia|].
    rewrite filter_app, Hf. cbn [filter app]. cbn [sql_eqb inserted set_Name Name
      column_default]. rewrite String.eqb_refl. reflexivity.
  - destruct cs; simpl in H; discriminate.
Qed.

Lemma lookup_after_creation_finds_the_row_witness :
  handle_company_name "Cafe X" [Mock.bar]
  = ([Mock.bar; inserted (set_Name (PStr "Cafe X") new_card)],
     CompanyCreated (inserted (set_Name (PStr "Cafe X") new_card))) /\
  handle_company_name "Cafe X" [Mock.bar; inserted (set_Name (PStr "Cafe X") new_card)]
  = ([Mock.bar; inserted (set_Name (PStr "Cafe X") new_card)],
     CompanyFound (inserted (set_Name (PStr "Cafe X") new_card))).
Proof.
  split; [reflexivity|].
  apply (lookup_after_creation_finds_the_row "Cafe X" [Mock.bar]
           [Mock.bar; inserted (set_Name (PStr "Cafe X") new_card)]
           (inserted (set_Name (PStr "Cafe X") new_card))).
  reflexivity.
Defined.

(* ------------------------------------------------------------------ *)
(** ** Saving a card *)

Lemma handle_save_matched (place_card_data : ModelPlaceCard)
      (table : list ModelPlaceCard) (i : nat) (r : ModelPlaceCard) :
  nth_error table i = Some r -> sql_eqb (ID r) (ID place_card_data) = true ->
  handle_save place_card_data table
  = map (fun r0 => if sql_eqb (ID r0) (ID place_card_data)
                   then save_fields place_card_data r0 else r0) table /\
  nth_error (handle_save place_card_data table) i
  = Some (save_fields place_card_data r).
Proof.
  intros Hi Hid. unfold handle_save.
  assert (Hin : In r (filter (fun r0 => sql_eqb (ID r0) (ID place_card_data)) table)).
  { apply filter_In. split; [eapply nth_error_In; exact Hi | exact Hid]. }
  destruct (filter _ table) as [|c cs]; [contradiction|].
  split; [reflexivity|].
  rewrite nth_error_map, Hi. simpl. rewrite Hid. reflexivity.
Qed.

(** [handle_save] writes every row whose [ID] is the card's, whichever row
    the manager was editing: such a row takes the card's nine fields and is
    marked updated, and keeps its [id_page], its [ID], its coordinates and
    its [is_new]; the table keeps its length. *)
Theorem handle_save_writes_every_row_with_the_ID
        (place_card_data : ModelPlaceCard) (table : list ModelPlaceCard)
        (i : nat) (r : ModelPlaceCard) :
  nth_error table i = Some r -> sql_eqb (ID r) (ID place_card_data) = true ->
  List.length (handle_save place_card_data table) = List.length table /\
  exists r', nth_error (handle_save place_card_data table) i = Some r' /\
    Name r' = Name place_card_data /\ type r' = type place_card_data /\
    photo r' = photo place_card_data /\ location r' = location place_card_data /\
    google_map r' = google_map place_card_data /\
    phone_number r' = phone_number place_card_data /\
    whatsapp r' = whatsapp place_card_data /\
    manager_phone_number r' = manager_phone_number place_card_data /\
    hours_of_operation r' = hours_of_operation place_card_data /\
    is_updated r' = true /\ is_new r' = is_new r /\ id_page r' = id_page r /\
    ID r' = ID r /\ coordinates r' = coordinates r.
Proof.
  intros Hi Hid. destruct (handle_save_matched _ _ _ _ Hi Hid) as [Hmap Hnth].
  split; [rewrite Hmap; apply length_map|].
  exists (save_fields place_card_data r). split; [exact Hnth|].
  repeat split; reflexivity.
Qed.

Lemma handle_save_writes_every_row_with_the_ID_witness :
  nth_error [Mock.cafe; Mock.bar] 1 = Some Mock.bar /\
  sql_eqb (ID Mock.bar) (ID Mock.cafe) = true /\
  List.length (handle_save Mock.cafe [Mock.cafe; Mock.bar]) = 2.
Proof.
  split; [reflexivity|]. split; [reflexivity|].
  apply (handle_save_writes_every_row_with_the_ID Mock.cafe [Mock.cafe; Mock.bar]
           1 Mock.bar); reflexivity.
Defined.

(** A row written by [handle_save] is selected by the next push pass, and a
    pull pass that runs before leaves it exactly as it was saved, whatever
    the remote rows hold. *)
Theorem saved_row_is_pushed_and_survives_pull
        {W : Type} (client : NotionClient W) (E : PyEnv) (w : W)
        (place_card_data : ModelPlaceCard) (table : list ModelPlaceCard)
        (i : nat) (r : ModelPlaceCard) :
  nth_error table i = Some r -> sql_eqb (ID r) (ID place_card_data) = true ->
  In (i, save_fields place_card_data r)
     (select_dirty (handle_save place_card_data table)) /\
  nth_error (table_after (_scheduled_task_from_Notion client E
                            (handle_save place_card_data table) w)) i
  = Some (save_fields place_card_data r).
Proof.
  intros Hi Hid. destruct (handle_save_matched _ _ _ _ Hi Hid) as [_ Hnth].
  split.
  - apply select_dirty_spec. split; [exact Hnth|].
    unfold dirty. simpl. apply orb_true_r.
  - destruct (pull_pass_extends client E (handle_save place_card_data table) w)
      as [Hold _].
    destruct (Hold _ _ Hnth) as (r' & Hr' & _ & Hsame).
    rewrite Hr'. f_equal. apply Hsame. reflexivity.
Qed.

Lemma saved_row_is_pushed_and_survives_pull_witness :
  nth_error [Mock.mirrored] 0 = Some Mock.mirrored /\
  sql_eqb (ID Mock.mirrored) (ID Mock.mirrored) = true /\
  nth_error (table_after (_scheduled_task_from_Notion Mock.mock_client Mock.mock_env
                            (handle_save Mock.mirrored [Mock.mirrored]) Mock.renamed)) 0
  = Some (save_fields Mock.mirrored Mock.mirrored).
Proof.
  split; [reflexivity|]. split; [reflexivity|].
  apply (saved_row_is_pushed_and_survives_pull Mock.mock_client Mock.mock_env
           Mock.renamed Mock.mirrored [Mock.mirrored] 0 Mock.mirrored); reflexivity.
Defined.

(* ------------------------------------------------------------------ *)
(** ** Phone numbers *)

Lemma filter_idempotent {A : Type} (keep : A -> bool) (l : list A) :
  filter keep (filter keep l) = filter keep l.
Proof.
  induction l as [|x l IH]; simpl; [reflexivity|].
  destruct (keep x) eqn:Hx; simpl; [rewrite Hx, IH; reflexivity | exact IH].
Qed.

(** The number kept for a phone field is a fixed point of the processing:
    processed again it is the same text.  This holds for every reading of
    [str.isdigit] under which [+] is no digit and [5], [0] and [6] are. *)
Theorem process_phone_number_idempotent (isdigit : N -> bool) (new_value : text) :
  isdigit (code "+") = false ->
  (forall c, In c (literal "506") -> isdigit c = true) ->
  process_phone_number isdigit (process_phone_number isdigit new_value)
  = process_phone_number isdigit new_value.
Proof.
  intros Hplus H506.
  assert (H5 : isdigit 53%N = true) by (apply H506; simpl; auto).
  assert (H0 : isdigit 48%N = true) by (apply H506; simpl; auto).
  assert (H6 : isdigit 54%N = true) by (apply H506; simpl; auto).
  change (isdigit 43%N = false) in Hplus.
  assert (Hd := filter_idempotent isdigit new_value).
  unfold process_phone_number, digits_only.
  set (d := filter isdigit new_value) in *.
  destruct (Nat.eqb (List.length d) 8) eqn:H8.
  - change (literal "+506" ++ d)%list with (43 :: 53 :: 48 :: 54 :: d)%N.
    cbn [filter]. rewrite Hplus, H5, H0, H6, Hd.
    cbn [List.length]. apply Nat.eqb_eq in H8. rewrite H8. reflexivity.
  - destruct (Nat.eqb (List.length d) 11 && text_startswith (literal "506") d) eqn:H11.
    + change (literal "+" ++ d)%list with (43%N :: d).
      cbn [filter]. rewrite Hplus, Hd, H8, H11. reflexivity.
    + rewrite Hd, H8, H11. reflexivity.
Qed.

Lemma process_phone_number_idempotent_witness :
  Mock.isdigit_ascii (code "+") = false /\
  process_phone_number Mock.isdigit_ascii
    (process_phone_number Mock.isdigit_ascii (literal "8888-7777"))
  = process_phone_number Mock.isdigit_ascii (literal "8888-7777").
Proof.
  split; [reflexivity|].
  apply (process_phone_number_idempotent Mock.isdigit_ascii (literal "8888-7777")).
  - reflexivity.
  - intros c [<-|[<-|[<-|[]]]]; reflexivity.
Defined.

(** Eight digits, and the same eight digits after the country code [506],
    are kept as the same number, whatever the texts hold besides the
    characters that [str.isdigit] takes for digits. *)
Theorem process_phone_number_country_code
        (isdigit : N -> bool) (local full digits : text) :
  digits_only isdigit local = digits -> List.length digits = 8 ->
  digits_only isdigit full = (literal "506" ++ digits)%list ->
  process_phone_number isdigit local = (literal "+506" ++ digits)%list /\
  process_phone_number isdigit full = (literal "+506" ++ digits)%list.
Proof.
  intros Hl H8 Hf. unfold process_phone_number. rewrite Hl, Hf.
  change (literal "506" ++ digits)%list with (53 :: 48 :: 54 :: digits)%N.
  cbn [List.length]. rewrite H8. split; [reflexivity|].
  reflexivity.
Qed.

Lemma process_phone_number_country_code_witness :
  digits_only Mock.isdigit_ascii (literal "8888-7777") = literal "88887777" /\
  process_phone_number Mock.isdigit_ascii (literal "8888-7777")
  = literal "+50688887777" /\
  process_phone_number Mock.isdigit_ascii (literal "+506 8888 7777")
  = literal "+50688887777".
Proof.
  split; [reflexivity|].
  apply (process_phone_number_country_code Mock.isdigit_ascii
           (literal "8888-7777") (literal "+506 8888 7777") (literal "88887777"));
    reflexivity.
Defined.

(* ------------------------------------------------------------------ *)
(** ** The pages of the list of places *)

Lemma page_below_max (p n : nat) :
  3 <= n ->
  Qlt_bool (inject_Z (Z.of_nat p)) (max_page_of n) = Nat.ltb (3 * p + 3) n /\
  Qeq_bool (inject_Z (Z.of_nat p)) (max_page_of n) = Nat.eqb (3 * p + 3) n /\
  Qle_bool (inject_Z (Z.of_nat p)) (max_page_of n) = Nat.leb (3 * p + 3) n.
Proof.
  intros Hn. unfold max_page_of, LEN_LIST.
  destruct (Nat.leb_spec 3 n) as [_|Habs]; [|lia].
  unfold Qlt_bool, Qle_bool, Qeq_bool, Qminus, Qplus, Qopp, inject_Z.
  cbn [Qnum Qden]. repeat split.
  - destruct (Z.leb_spec ((Z.of_nat n * 1 + - (1) * 3) * 1) (Z.of_nat p * Zpos (3 * 1))),
      (Nat.ltb_spec (3 * p + 3) n); simpl; try reflexivity; lia.
  - destruct (Z.eqb_spec (Z.of_nat p * Zpos (3 * 1)) ((Z.of_nat n * 1 + - (1) * 3) * 1)),
      (Nat.eqb_spec (3 * p + 3) n); try reflexivity; lia.
  - destruct (Z.leb_spec (Z.of_nat p * Zpos (3 * 1)) ((Z.of_nat n * 1 + - (1) * 3) * 1)),
      (Nat.leb_spec (3 * p + 3) n); try reflexivity; lia.
Qed.

Lemma page_few_places (p n : nat) :
  n < 3 ->
  Qlt_bool (inject_Z (Z.of_nat p)) (max_page_of n) = false /\
  Qeq_bool (inject_Z (Z.of_nat p)) (max_page_of n) = Nat.eqb p 0.
Proof.
  intros Hn. unfold max_page_of, LEN_LIST.
  destruct (Nat.leb_spec 3 n) as [Habs|_]; [lia|].
  unfold Qlt_bool, Qle_bool, Qeq_bool, inject_Z. cbn [Qnum Qden]. split.
  - destruct (Z.leb_spec (0 * 1) (Z.of_nat p * 1)); simpl; [reflexivity | lia].
  - destruct (Z.eqb_spec (Z.of_nat p * 1) (0 * 1)), (Nat.eqb_spec p 0);
      try reflexivity; lia.
Qed.

Lemma firstn_plus {A : Type} (a b : nat) (l : list A) :
  firstn (a + b) l = (firstn a l ++ firstn b (skipn a l))%list.
Proof.
  revert l; induction a as [|a IH]; intros [|x l]; simpl;
    try rewrite firstn_nil; try reflexivity.
  now rewrite IH.
Qed.

(** [send_venue_list] in whole numbers: with three places or more a page
    lists its three places and has a keyboard when all three exist, and lists
    nothing otherwise; with fewer, page 0 lists them all. *)
Lemma send_venue_list_pages {A : Type} (places_list : list A) (page : nat) :
  places_list <> [] ->
  send_venue_list places_list page
  = if Nat.ltb (List.length places_list) 3
    then Some (if Nat.eqb page 0 then places_list else [], ExitOnly)
    else if Nat.leb (3 * page + 3) (List.length places_list)
         then Some (firstn 3 (skipn (3 * page) places_list),
                    if Nat.leb (List.length places_list) 3
                    then ExitOnly else PagesAndExit)
         else Some ([], if Nat.leb (List.length places_list) 3
                        then ExitOnly else NoMarkup).
Proof.
  intros Hne. unfold send_venue_list.
  destruct places_list as [|x rest] eqn:Hl; [congruence|]. rewrite <- Hl in *.
  set (n := List.length places_list).
  unfold list_slice, LEN_LIST.
  destruct (Nat.ltb_spec n 3) as [Hfew|Hmany].
  - destruct (page_few_places page n Hfew) as [-> ->].
    destruct (Nat.leb_spec n 3); [|lia].
    destruct (Nat.eqb_spec page 0) as [->|_]; [|reflexivity].
    simpl skipn. rewrite Nat.sub_0_r. unfold n. rewrite firstn_all. reflexivity.
  - destruct (page_below_max page n Hmany) as (-> & -> & ->).
    destruct (Nat.leb_spec n 3) as [Hthree|Hmore].
    + destruct (Nat.ltb_spec (3 * page + 3) n) as [Hlt|Hge]; [lia|].
      destruct (Nat.eqb_spec (3 * page + 3) n) as [Heq|Hneq].
      * destruct (Nat.leb_spec (3 * page + 3) n); [|lia].
        replace (n - page * 3) with 3 by lia.
        replace (page * 3) with (3 * page) by lia. reflexivity.
      * destruct (Nat.leb_spec (3 * page + 3) n); [lia | reflexivity].
    + destruct (Nat.ltb_spec 3 n); [|lia]. cbn [andb].
      destruct (Nat.ltb_spec (3 * page + 3) n) as [Hlt|Hge].
      * destruct (Nat.leb_spec (3 * page + 3) n); [|lia].
        replace (page * 3 + 3 - page * 3) with 3 by lia.
        replace (page * 3) with (3 * page) by lia. reflexivity.
      * destruct (Nat.eqb_spec (3 * page + 3) n) as [Heq|Hneq].
        -- destruct (Nat.leb_spec (3 * page + 3) n); [|lia].
           replace (n - page * 3) with 3 by lia.
           replace (page * 3) with (3 * page) by lia. reflexivity.
        -- destruct (Nat.leb_spec (3 * page + 3) n); [lia | reflexivity].
Qed.

Lemma shown_page {A : Type} (places_list : list A) (page : nat) :
  places_list <> [] ->
  shown places_list page
  = if Nat.ltb (List.length places_list) 3
    then (if Nat.eqb page 0 then places_list else [])
    else if Nat.leb (3 * page + 3) (List.length places_list)
         then firstn 3 (skipn (3 * page) places_list)
         else [].
Proof.
  intros Hne. unfold shown. rewrite (send_venue_list_pages _ _ Hne).
  destruct (Nat.ltb (List.length places_list) 3); [reflexivity|].
  destruct (Nat.leb (3 * page + 3) (List.length places_list));
    destruct (Nat.leb (List.length places_list) 3); reflexivity.
Qed.

Lemma full_pages {A : Type} (places_list : list A) (k : nat) :
  3 * k <= List.length places_list ->
  List.concat (map (fun p => firstn 3 (skipn (3 * p) places_list)) (seq 0 k))
  = firstn (3 * k) places_list.
Proof.
  induction k as [|k IH]; intros Hk; [reflexivity|].
  rewrite seq_S, map_app, concat_app, IH by lia. cbn [map List.concat Nat.add].
  rewrite app_nil_r. replace (3 * S k) with (3 * k + 3) by lia.
  rewrite firstn_plus. reflexivity.
Qed.

(** The pages a user can reach, put together, list the places up to the
    last multiple of three: all of them when there are fewer than three or a
    multiple of three, and otherwise all but the last one or two, which no
    page lists. *)
Theorem venue_pages_list_full_triples {A : Type} (places_list : list A) :
  places_list <> [] ->
  List.concat (map (shown places_list) (seq 0 (List.length places_list / 3 + 1)))
  = if Nat.ltb (List.length places_list) 3
    then places_list
    else firstn (3 * (List.length places_list / 3)) places_list.
Proof.
  intros Hne. set (n := List.length places_list).
  assert (Hdiv := Nat.div_mod_eq n 3).
  assert (Hmod := Nat.mod_upper_bound n 3 ltac:(lia)).
  rewrite (map_ext _ _ (fun p => shown_page places_list p Hne)). fold n.
  destruct (Nat.ltb_spec n 3) as [Hfew|Hmany].
  - replace (n / 3) with 0 by (symmetry; apply Nat.div_small; exact Hfew).
    cbn [Nat.add seq map List.concat Nat.eqb]. apply app_nil_r.
  - rewrite Nat.add_1_r, seq_S, map_app, concat_app. cbn [map List.concat Nat.add].
    destruct (Nat.leb_spec (3 * (n / 3) + 3) n) as [Habs|_]; [lia|].
    rewrite !app_nil_r. rewrite <- (full_pages places_list (n / 3)) by (fold n; lia).
    f_equal. apply map_ext_in. intros p Hp. apply in_seq in Hp.
    destruct (Nat.leb_spec (3 * p + 3) n); [reflexivity | lia].
Qed.

Lemma venue_pages_list_full_triples_witness :
  List.concat (map (shown ["a"; "b"; "c"; "d"])
              (seq 0 (List.length ["a"; "b"; "c"; "d"] / 3 + 1)))
  = ["a"; "b"; "c"].
Proof.
  apply (venue_pages_list_full_triples ["a"; "b"; "c"; "d"]). discriminate.
Defined.

(** With more than three places whose number is no multiple of three, the
    [>] button on the last page that lists places leads to a page that
    lists nothing and has no keyboard at all, neither [<] nor [Exit]; the
    page after it cannot be reached. *)
Theorem venue_next_leads_to_dead_end {A : Type} (places_list : list A) :
  3 < List.length places_list ->
  List.length places_list mod 3 <> 0 ->
  shown places_list (List.length places_list / 3 - 1) <> [] /\
  page_next places_list (List.length places_list / 3 - 1)
  = List.length places_list / 3 /\
  send_venue_list places_list (List.length places_list / 3) = Some ([], NoMarkup) /\
  page_next places_list (List.length places_list / 3)
  = List.length places_list / 3.
Proof.
  intros Hn Hmod. set (n := List.length places_list) in *.
  assert (Hdiv := Nat.div_mod_eq n 3).
  assert (Hup := Nat.mod_upper_bound n 3 ltac:(lia)).
  assert (Hne : places_list <> []) by (intros ->; simpl in n; lia).
  assert (Hk : 1 <= n / 3) by lia.
  repeat split.
  - rewrite (shown_page _ _ Hne). fold n.
    destruct (Nat.ltb_spec n 3); [lia|].
    destruct (Nat.leb_spec (3 * (n / 3 - 1) + 3) n); [|lia].
    intros Habs. apply (f_equal (@List.length A)) in Habs.
    rewrite length_firstn, length_skipn in Habs. fold n in Habs. cbn [List.length] in Habs. lia.
  - unfold page_next. fold n.
    destruct (page_below_max (n / 3 - 1) n ltac:(lia)) as (-> & _).
    destruct (Nat.ltb_spec (3 * (n / 3 - 1) + 3) n); lia.
  - rewrite (send_venue_list_pages _ _ Hne). fold n.
    destruct (Nat.ltb_spec n 3); [lia|].
    destruct (Nat.leb_spec (3 * (n / 3) + 3) n); [lia|].
    destruct (Nat.leb_spec n 3); [lia | reflexivity].
  - unfold page_next. fold n.
    destruct (page_below_max (n / 3) n ltac:(lia)) as (-> & _).
    destruct (Nat.ltb_spec (3 * (n / 3) + 3) n); [lia | reflexivity].
Qed.

Lemma venue_next_leads_to_dead_end_witness :
  3 < List.length ["a"; "b"; "c"; "d"] /\
  send_venue_list ["a"; "b"; "c"; "d"] (List.length ["a"; "b"; "c"; "d"] / 3)
  = Some ([], NoMarkup).
Proof.
  split; [simpl; lia|].
  apply (venue_next_leads_to_dead_end ["a"; "b"; "c"; "d"]).
  - simpl; lia.
  - discriminate.
Defined.

(* ------------------------------------------------------------------ *)
(** ** No row is ever marked new *)

Section NoneNew.

Context {W : Type} (client : NotionClient W) (E : PyEnv).

(** Every writer of the table keeps it free of rows marked new: the two
    passes, the first import, the look-ups by name, and [handle_save] for a
    card that is not marked new itself.  The table starts empty, so it never
    holds such a row. *)
Lemma writers_keep_none_new (table : list ModelPlaceCard) (w : W) :
  none_new table ->
  none_new (table_after (_scheduled_task_to_Notion client table w)) /\
  none_new (table_after (_scheduled_task_from_Notion client E table w)) /\
  (forall table', update_database_from_notion client table w = Ret table' ->
                  none_new table') /\
  (forall name, none_new (fst (find_company_by_name name table))) /\
  (forall company_name, none_new (fst (handle_company_name company_name table))) /\
  (forall place_card_data, is_new place_card_data = false ->
                           none_new (handle_save place_card_data table)).
Proof.
  intros Hnone. repeat split.
  - intros r' Hin. apply In_nth_error in Hin. destruct Hin as [i Hi].
    revert Hi. unfold _scheduled_task_to_Notion.
    destruct (push_rows client (select_dirty table) table w)
      as [w' [session|e]] eqn:Hrun; simpl;
      [|intros Hi; apply Hnone; eapply nth_error_In; exact Hi].
    destruct (push_rows_frame client table (select_dirty table)
                (fun i row H => proj1 (select_dirty_spec table i row) H)
                table w w' session eq_refl
                (fun i r H => ex_intro _ r (conj H (or_introl eq_refl))) Hrun)
      as [_ Hinv].
    intros Hi. destruct (Hinv i r' Hi) as (r & Hr & [->|[_ ->]]).
    + apply Hnone. eapply nth_error_In. exact Hr.
    + reflexivity.
  - intros r' Hin. apply In_nth_error in Hin. destruct Hin as [i Hi].
    assert (H := pull_never_sets_flag client E table w i r' Hi).
    destruct (nth_error table i) as [r|] eqn:Hr.
    + destruct H as (-> & _). apply Hnone. eapply nth_error_In. exact Hr.
    + tauto.
  - intros table' Himport.
    destruct (read_all_rows client w) as [rows|e] eqn:Hread;
      [|unfold update_database_from_notion in Himport; rewrite Hread in Himport;
        discriminate Himport].
    destruct (import_cards client table table' w rows Himport Hread)
      as (cards & -> & Hcards).
    assert (Hoff : Forall (fun card => is_new card = false) cards).
    { clear - Hcards. induction Hcards as [|num card nums cards Hcard _ IH];
        constructor; [|exact IH].
      apply import_items_attributes in Hcard. destruct Hcard as [Hf _].
      exact (f_equal fst Hf). }
    intros r' Hin. apply in_app_or in Hin. destruct Hin as [Hin|Hin];
      [apply Hnone; exact Hin|].
    apply in_map_iff in Hin. destruct Hin as (card & <- & Hin).
    rewrite Forall_forall in Hoff. exact (Hoff card Hin).
  - intros name r' Hin. unfold find_company_by_name in Hin.
    destruct (query_first _ table) as [[j company]|]; simpl in Hin;
      [apply Hnone; exact Hin|].
    apply in_app_or in Hin. destruct Hin as [Hin|[<-|[]]];
      [apply Hnone; exact Hin | reflexivity].
  - intros company_name r' Hin. unfold handle_company_name in Hin.
    destruct (negb (validate_name company_name)); [apply Hnone; exact Hin|].
    destruct (filter _ table) as [|company rest]; simpl in Hin.
    + apply in_app_or in Hin. destruct Hin as [Hin|[<-|[]]];
        [apply Hnone; exact Hin | reflexivity].
    + destruct (Nat.ltb 1 (S (List.length rest))); apply Hnone; exact Hin.
  - intros place_card_data Hcard r' Hin. unfold handle_save in Hin.
    destruct (filter _ table) as [|found rest].
    + apply in_app_or in Hin. destruct Hin as [Hin|[<-|[]]];
        [apply Hnone; exact Hin | exact Hcard].
    + apply in_map_iff in Hin. destruct Hin as (r & <- & Hin).
      destruct (sql_eqb (ID r) (ID place_card_data));
        [simpl|]; apply Hnone; exact Hin.
Qed.

End NoneNew.
